(** * dev-reserve-server: the reservation lifecycle

    A shallow embedding of the reservation engine of the Dev Reserve
    Server (Go, DynamoDB): the two tables, the DynamoDB write primitives
    the repositories call, the repositories of [db/], the reservation
    handlers and the expiry sweeper started by [main].

    Conventions of the embedding.
    - An instant ([time.Time]) is an integer number of seconds, the
      resolution of [time.RFC3339].  The tables store instants as text
      and the filter of a [Scan] compares the texts; in [db] comparing
      two texts is comparing the instants, which is so when all the
      texts carry the same UTC offset and whole seconds.
    - A Go [error] is its message.
    - [time.Now()] and [uuid.New().String()] are arguments of the function
      that calls them.  The readings of the clock taken while one request
      to the database is built are one argument; the handler's reading and
      the repository's, and the two readings of a sweeper cycle (the
      listing's and the loop's), are separate arguments.  Each status
      update of a sweeper cycle is stamped with the loop's reading.
    - The tables always answer: a request fails only when a condition
      expression is false.
    - In [db] one [Scan] call returns every matching item, in table
      order: one page holds them all.  In [store] what a [Scan] call
      returns is an argument, and what a statement needs of it is a
      hypothesis of that statement.
    - In [db] and [handlers] the calls of one request see the same
      tables.  In [interleaved_db] and [interleaved_handlers] each call
      of [CreateReservation] to the database has its own. *)

From Stdlib Require Import ZArith Lia.
From stdpp Require Import gmap strings list.

Local Open Scope Z_scope.

(** ** Outcome of a call: a value or a Go error *)

Inductive result (A : Type) : Type :=
| Ok (a : A)
| Err (msg : string).
Arguments Ok {A} a.
Arguments Err {A} msg.

(** [fmt.Errorf("<prefix>: %w", err)] *)
Definition wrap (prefix err : string) : string := prefix +:+ ": " +:+ err.

(** ** package models *)
Module models.

Definition EnvironmentStatus := string.
Definition StatusFree : EnvironmentStatus := "FREE".
Definition StatusReserved : EnvironmentStatus := "RESERVED".

Definition UserRole := string.
Definition RoleAdmin : UserRole := "ADMIN".
Definition RoleUser : UserRole := "USER".

Record User := {
  Username : string;
  Password : string;
  Role : UserRole;
  UserCreatedAt : Z;        (* field [CreatedAt] of [User] *)
  UserLastUpdated : Z       (* field [LastUpdated] of [User] *)
}.

Record Environment := {
  EnvID : string;           (* field [ID] of [Environment] *)
  Name : string;
  Description : string;
  Status : EnvironmentStatus;
  CreatedBy : string;
  EnvCreatedAt : Z;         (* field [CreatedAt] of [Environment] *)
  EnvLastUpdated : Z        (* field [LastUpdated] of [Environment] *)
}.

Record Reservation := {
  ID : string;
  EnvironmentID : string;
  Holder : string;          (* field [Username] of [Reservation] *)
  StartTime : Z;
  EndTime : Z;
  Feature : string;
  GitBranch : string;
  JiraURL : string;
  CreatedAt : Z;
  LastUpdated : Z
}.

(** The fields other than [DurationMins] carry the prefix [Req]. *)
Record ReservationCreateRequest := {
  ReqEnvironmentID : string;
  DurationMins : Z;
  ReqFeature : string;
  ReqGitBranch : string;
  ReqJiraURL : string
}.

End models.
Import models.

(** The zero [time.Time] (January 1, year 1, 00:00 UTC) in seconds. *)
Definition zeroTime : Z := -62135596800.

(** [time.Minute], in seconds. *)
Definition Minute : Z := 60.

(** ** The DynamoDB tables and the write requests the repositories send *)
Module dynamodb.

Record Tables := {
  Environments : gmap string Environment;
  Reservations : list Reservation
}.

(** What unmarshalling an item that has only these attributes yields. *)
Definition bareEnvironment (id : string) (status : EnvironmentStatus)
    (lastUpdated : Z) : Environment :=
  {| EnvID := id; Name := ""; Description := ""; Status := status;
     CreatedBy := ""; EnvCreatedAt := zeroTime; EnvLastUpdated := lastUpdated |}.

Definition bareReservation (id : string) (endTime lastUpdated : Z) : Reservation :=
  {| ID := id; EnvironmentID := ""; Holder := ""; StartTime := zeroTime;
     EndTime := endTime; Feature := ""; GitBranch := ""; JiraURL := "";
     CreatedAt := zeroTime; LastUpdated := lastUpdated |}.

(** [SET #status = :status, #lastUpdated = :lastUpdated] *)
Definition setStatus (status : EnvironmentStatus) (lastUpdated : Z)
    (e : Environment) : Environment :=
  {| EnvID := EnvID e; Name := Name e; Description := Description e;
     Status := status; CreatedBy := CreatedBy e;
     EnvCreatedAt := EnvCreatedAt e; EnvLastUpdated := lastUpdated |}.

(** [SET #endTime = :endTime, #lastUpdated = :lastUpdated] *)
Definition setEndTime (endTime lastUpdated : Z) (r : Reservation) : Reservation :=
  {| ID := ID r; EnvironmentID := EnvironmentID r; Holder := Holder r;
     StartTime := StartTime r; EndTime := endTime; Feature := Feature r;
     GitBranch := GitBranch r; JiraURL := JiraURL r;
     CreatedAt := CreatedAt r; LastUpdated := lastUpdated |}.

(** The reservations table, keyed by [id]. *)
Definition getItem (id : string) (l : list Reservation) : option Reservation :=
  List.find (fun x => String.eqb (ID x) id) l.

(** [Put]: replaces the item that has the key, or adds the item. *)
Fixpoint putItem (r : Reservation) (l : list Reservation) : list Reservation :=
  match l with
  | [] => [r]
  | x :: l' => if String.eqb (ID x) (ID r) then r :: l' else x :: putItem r l'
  end.

(** [Update]: edits the item that has the key, or adds an item that has
    the key and the attributes that are set. *)
Fixpoint updateItem (id : string) (endTime lastUpdated : Z)
    (l : list Reservation) : list Reservation :=
  match l with
  | [] => [bareReservation id endTime lastUpdated]
  | x :: l' =>
      if String.eqb (ID x) id then setEndTime endTime lastUpdated x :: l'
      else x :: updateItem id endTime lastUpdated l'
  end.

Definition updateEnvironment (id : string) (status : EnvironmentStatus)
    (lastUpdated : Z) (m : gmap string Environment) : gmap string Environment :=
  match m !! id with
  | Some e => <[id := setStatus status lastUpdated e]> m
  | None => <[id := bareEnvironment id status lastUpdated]> m
  end.

(** The condition expressions of the repositories, all on an item of the
    environments table. *)
Inductive Condition :=
| NoCondition
| StatusEquals (expected : EnvironmentStatus)   (* "#status = :expectedStatus" *)
| AttributeExistsID.                            (* "attribute_exists(id)" *)

(** The write requests of the repositories. *)
Inductive Write :=
| PutReservation (item : Reservation)
| UpdateReservation (id : string) (endTime lastUpdated : Z)
| UpdateEnvironment (id : string) (status : EnvironmentStatus)
    (lastUpdated : Z) (cond : Condition).

Definition holds (c : Condition) (id : string) (t : Tables) : bool :=
  match c with
  | NoCondition => true
  | StatusEquals expected =>
      match Environments t !! id with
      | Some e => String.eqb (Status e) expected
      | None => false
      end
  | AttributeExistsID =>
      match Environments t !! id with Some _ => true | None => false end
  end.

Definition check (t : Tables) (w : Write) : bool :=
  match w with
  | PutReservation _ => true
  | UpdateReservation _ _ _ => true
  | UpdateEnvironment id _ _ c => holds c id t
  end.

Definition apply (t : Tables) (w : Write) : Tables :=
  match w with
  | PutReservation item =>
      {| Environments := Environments t;
         Reservations := putItem item (Reservations t) |}
  | UpdateReservation id endTime lastUpdated =>
      {| Environments := Environments t;
         Reservations := updateItem id endTime lastUpdated (Reservations t) |}
  | UpdateEnvironment id status lastUpdated _ =>
      {| Environments := updateEnvironment id status lastUpdated (Environments t);
         Reservations := Reservations t |}
  end.

Definition ConditionalCheckFailed : string := "ConditionalCheckFailedException".
Definition TransactionCanceled : string := "TransactionCanceledException".

(** [UpdateItem] *)
Definition UpdateItem (w : Write) (t : Tables) : result unit * Tables :=
  if check t w then (Ok tt, apply t w) else (Err ConditionalCheckFailed, t).

(** [TransactWriteItems]: every condition is checked on the tables as
    they are, and either all the writes are applied or none is. *)
Definition TransactWriteItems (ws : list Write) (t : Tables) : result unit * Tables :=
  if forallb (check t) ws then (Ok tt, fold_left apply ws t)
  else (Err TransactionCanceled, t).

(** [Scan] with a filter expression. *)
Definition Scan (keep : Reservation -> bool) (t : Tables) : list Reservation :=
  List.filter keep (Reservations t).

End dynamodb.
Import dynamodb.

(** ** package db: the repositories *)
Module db.

(** [EnvironmentRepository.GetEnvironment] *)
Definition GetEnvironment (id : string) (t : Tables) : result (option Environment) :=
  Ok (Environments t !! id).

(** [EnvironmentRepository.UpdateEnvironmentStatus] *)
Definition UpdateEnvironmentStatus (id : string) (status : EnvironmentStatus)
    (now : Z) (t : Tables) : result unit * Tables :=
  match UpdateItem (UpdateEnvironment id status now AttributeExistsID) t with
  | (Err e, t') => (Err (wrap "failed to update environment status" e), t')
  | (Ok _, t') => (Ok tt, t')
  end.

(** [reservation.ID = uuid.New().String()] and the two timestamps. *)
Definition stamp (newID : string) (now : Z) (r : Reservation) : Reservation :=
  {| ID := newID; EnvironmentID := EnvironmentID r; Holder := Holder r;
     StartTime := StartTime r; EndTime := EndTime r; Feature := Feature r;
     GitBranch := GitBranch r; JiraURL := JiraURL r;
     CreatedAt := now; LastUpdated := now |}.

(** The transaction of [CreateReservation]. *)
Definition createTransaction (reservation : Reservation) (now : Z) : list Write :=
  [ PutReservation reservation;
    UpdateEnvironment (EnvironmentID reservation) StatusReserved now
      (StatusEquals StatusFree) ].

(** [ReservationRepository.CreateReservation] *)
Definition CreateReservation (reservation : Reservation) (newID : string)
    (now : Z) (t : Tables) : result Reservation * Tables :=
  match GetEnvironment (EnvironmentID reservation) t with
  | Err e => (Err (wrap "failed to get environment" e), t)
  | Ok None => (Err "environment not found", t)
  | Ok (Some env) =>
      if negb (String.eqb (Status env) StatusFree)
      then (Err "environment is already reserved", t)
      else
        let reservation := stamp newID now reservation in
        match TransactWriteItems (createTransaction reservation now) t with
        | (Err e, t') => (Err (wrap "failed to create reservation" e), t')
        | (Ok _, t') => (Ok reservation, t')
        end
  end.

(** [ReservationRepository.GetReservation] *)
Definition GetReservation (id : string) (t : Tables) : result (option Reservation) :=
  Ok (getItem id (Reservations t)).

(** The filter [endTime > now] of the two scans. *)
Definition activeAt (now : Z) (r : Reservation) : bool := now <? EndTime r.

(** [ReservationRepository.GetActiveReservationByEnvironmentID] *)
Definition GetActiveReservationByEnvironmentID (environmentID : string)
    (now : Z) (t : Tables) : result (option Reservation) :=
  match Scan (fun r => String.eqb (EnvironmentID r) environmentID && activeAt now r) t with
  | [] => Ok None
  | r :: _ => Ok (Some r)
  end.

(** [ReservationRepository.ListActiveReservations] *)
Definition ListActiveReservations (now : Z) (t : Tables) : result (list Reservation) :=
  Ok (Scan (activeAt now) t).

(** The transaction of [ReleaseReservation]. *)
Definition releaseTransaction (id environmentID : string) (now : Z) : list Write :=
  [ UpdateReservation id now now;
    UpdateEnvironment environmentID StatusFree now NoCondition ].

(** [ReservationRepository.ReleaseReservation] *)
Definition ReleaseReservation (id username : string) (now : Z) (t : Tables)
    : result unit * Tables :=
  match GetReservation id t with
  | Err e => (Err (wrap "failed to get reservation" e), t)
  | Ok None => (Err "reservation not found", t)
  | Ok (Some reservation) =>
      if negb (String.eqb (Holder reservation) username)
      then (Err "you can only release your own reservations", t)
      else
        match TransactWriteItems
                (releaseTransaction id (EnvironmentID reservation) now) t with
        | (Err e, t') => (Err (wrap "failed to release reservation" e), t')
        | (Ok _, t') => (Ok tt, t')
        end
  end.

(** The loop of [CheckExpiredReservations] over the listing;
    [EndTime reservation <? now] is [now.After(reservation.EndTime)].
    The writes are stamped with the cycle's reading of the clock. *)
Fixpoint sweep (now : Z) (activeReservations : list Reservation) (t : Tables)
    : result unit * Tables :=
  match activeReservations with
  | [] => (Ok tt, t)
  | reservation :: rest =>
      if EndTime reservation <? now
      then
        match UpdateEnvironmentStatus (EnvironmentID reservation) StatusFree now t with
        | (Err e, t') => (Err (wrap "failed to update environment status" e), t')
        | (Ok _, t') => sweep now rest t'
        end
      else sweep now rest t
  end.

(** [ReservationRepository.CheckExpiredReservations]: [listNow] is the
    reading of the clock in [ListActiveReservations], [now] the one
    taken after the scan. *)
Definition CheckExpiredReservations (listNow now : Z) (t : Tables)
    : result unit * Tables :=
  match ListActiveReservations listNow t with
  | Err e => (Err (wrap "failed to list active reservations" e), t)
  | Ok activeReservations => sweep now activeReservations t
  end.

End db.

(** ** package utils and package handlers *)
Module handlers.

Inductive Payload :=
| NoData
| ReservationData (r : Reservation)
| ReservationsData (l : list Reservation)
| MessageData (message : string).

(** The status code written and the [utils.Response] sent with it. *)
Record Response := {
  Code : Z;
  Success : bool;
  Data : Payload;
  Error : string
}.

Definition StatusOK : Z := 200.
Definition StatusBadRequest : Z := 400.
Definition StatusUnauthorized : Z := 401.
Definition StatusForbidden : Z := 403.
Definition StatusNotFound : Z := 404.
Definition StatusMethodNotAllowed : Z := 405.
Definition StatusInternalServerError : Z := 500.

Definition RespondWithError (code : Z) (message : string) : Response :=
  {| Code := code; Success := false; Data := NoData; Error := message |}.

Definition RespondWithSuccess (data : Payload) : Response :=
  {| Code := StatusOK; Success := true; Data := data; Error := "" |}.

(** [r.Context().Value(middleware.UserContextKey)] *)
Inductive ContextValue :=
| NoValue
| OtherValue
| UserValue (user : User).

(** What the handlers read of a request: the method, the user of the
    context, the decoded body ([None] when decoding fails) and the [id]
    of the route. *)
Record Request := {
  Method : string;
  ContextUser : ContextValue;
  Body : option ReservationCreateRequest;
  VarID : string
}.

Definition isEmpty (s : string) : bool := String.eqb s "".

(** The [models.Reservation] literal of [CreateReservation]:
    [endTime := now.Add(time.Duration(req.DurationMins) * time.Minute)];
    the fields it does not name have their zero value. *)
Definition newReservation (user : User) (req : ReservationCreateRequest)
    (now : Z) : Reservation :=
  let endTime := now + DurationMins req * Minute in
  {| ID := ""; EnvironmentID := ReqEnvironmentID req;
     Holder := Username user; StartTime := now; EndTime := endTime;
     Feature := ReqFeature req; GitBranch := ReqGitBranch req;
     JiraURL := ReqJiraURL req;
     CreatedAt := zeroTime; LastUpdated := zeroTime |}.

(** [ReservationHandler.CreateReservation]; [now] is the handler's
    reading of the clock, [repoNow] the repository's. *)
Definition CreateReservation (r : Request) (now repoNow : Z) (newID : string)
    (t : Tables) : Response * Tables :=
  if negb (String.eqb (Method r) "POST")
  then (RespondWithError StatusMethodNotAllowed "Method not allowed", t)
  else
  match ContextUser r with
  | NoValue => (RespondWithError StatusUnauthorized "Unauthorized", t)
  | OtherValue => (RespondWithError StatusInternalServerError "Invalid user context", t)
  | UserValue user =>
  match Body r with
  | None => (RespondWithError StatusBadRequest "Invalid request body", t)
  | Some req =>
  if isEmpty (ReqEnvironmentID req)
  then (RespondWithError StatusBadRequest "Environment ID is required", t)
  else if DurationMins req <? 10
  then (RespondWithError StatusBadRequest "Duration must be at least 10 minutes", t)
  else if 4320 <? DurationMins req
  then (RespondWithError StatusBadRequest "Duration cannot exceed 3 days (4320 minutes)", t)
  else if isEmpty (ReqFeature req)
  then (RespondWithError StatusBadRequest "Feature description is required", t)
  else
  match db.GetEnvironment (ReqEnvironmentID req) t with
  | Err _ => (RespondWithError StatusInternalServerError "Failed to get environment", t)
  | Ok None => (RespondWithError StatusNotFound "Environment not found", t)
  | Ok (Some env) =>
  if negb (String.eqb (Status env) StatusFree)
  then (RespondWithError StatusBadRequest "Environment is already reserved", t)
  else
    let reservation := newReservation user req now in
    match db.CreateReservation reservation newID repoNow t with
    | (Err e, t') =>
        (RespondWithError StatusInternalServerError
           ("Failed to create reservation: " +:+ e), t')
    | (Ok createdReservation, t') =>
        (RespondWithSuccess (ReservationData createdReservation), t')
    end
  end
  end
  end.

(** [ReservationHandler.ReleaseReservation] *)
Definition ReleaseReservation (r : Request) (now : Z) (t : Tables)
    : Response * Tables :=
  if negb (String.eqb (Method r) "POST")
  then (RespondWithError StatusMethodNotAllowed "Method not allowed", t)
  else
  match ContextUser r with
  | NoValue => (RespondWithError StatusUnauthorized "Unauthorized", t)
  | OtherValue => (RespondWithError StatusInternalServerError "Invalid user context", t)
  | UserValue user =>
  if isEmpty (VarID r)
  then (RespondWithError StatusBadRequest "Reservation ID is required", t)
  else
    match db.ReleaseReservation (VarID r) (Username user) now t with
    | (Err e, t') =>
        (RespondWithError StatusInternalServerError
           ("Failed to release reservation: " +:+ e), t')
    | (Ok _, t') =>
        (RespondWithSuccess (MessageData "Reservation released successfully"), t')
    end
  end.

(** [ReservationHandler.GetActiveReservations] *)
Definition GetActiveReservations (r : Request) (now : Z) (t : Tables) : Response :=
  if negb (String.eqb (Method r) "GET")
  then RespondWithError StatusMethodNotAllowed "Method not allowed"
  else
    match db.ListActiveReservations now t with
    | Err _ => RespondWithError StatusInternalServerError "Failed to list reservations"
    | Ok reservations => RespondWithSuccess (ReservationsData reservations)
    end.

End handlers.

(** ** package main: one tick of the background sweeper *)
Module main.

(** The body of the [for range ticker.C] loop: the tables after the
    cycle and the lines written to the log. *)
Definition tick (listNow now : Z) (t : Tables) : Tables * list string :=
  match db.CheckExpiredReservations listNow now t with
  | (Err e, t') => (t', ["Error checking expired reservations: " +:+ e])
  | (Ok _, t') => (t', [])
  end.

End main.

(** ** The system as a whole: requests and sweeper cycles in sequence *)
Module system.

Inductive Step :=
| Reserve (user : User) (req : ReservationCreateRequest)
    (now repoNow : Z) (newID : string)
| Release (user : User) (id : string) (now : Z)
| SweeperCycle (listNow now : Z).

(** An authenticated POST request. *)
Definition post (user : User) (body : option ReservationCreateRequest)
    (id : string) : handlers.Request :=
  {| handlers.Method := "POST"; handlers.ContextUser := handlers.UserValue user;
     handlers.Body := body; handlers.VarID := id |}.

Definition exec (s : Step) (t : Tables) : Tables :=
  match s with
  | Reserve user req now repoNow newID =>
      snd (handlers.CreateReservation (post user (Some req) "") now repoNow newID t)
  | Release user id now =>
      snd (handlers.ReleaseReservation (post user None id) now t)
  | SweeperCycle listNow now =>
      fst (main.tick listNow now t)
  end.

Definition run (steps : list Step) (t : Tables) : Tables :=
  fold_left (fun t s => exec s t) steps t.

(** The last reading of the clock in a step. *)
Definition clockAfter (s : Step) : Z :=
  match s with
  | Reserve _ _ _ repoNow _ => repoNow
  | Release _ _ now => now
  | SweeperCycle _ now => now
  end.

(** A step can follow a state at time [clock]: its readings of the clock
    are in order and not before [clock], and a generated id is new. *)
Definition admissible (clock : Z) (t : Tables) (s : Step) : bool :=
  match s with
  | Reserve _ _ now repoNow newID =>
      (clock <=? now) && (now <=? repoNow)
      && negb (String.eqb newID "")
      && match getItem newID (Reservations t) with None => true | Some _ => false end
  | Release _ _ now => clock <=? now
  | SweeperCycle listNow now => (clock <=? listNow) && (listNow <=? now)
  end.

Inductive reachable (init : Tables) (start : Z) : Z -> Tables -> Prop :=
| reachable_init : reachable init start start init
| reachable_step clock t s :
    reachable init start clock t ->
    admissible clock t s = true ->
    reachable init start (clockAfter s) (exec s t).

(** The step is no Release, by its holder, of a reservation that is no
    longer active. *)
Definition releasesActive (t : Tables) (s : Step) : bool :=
  match s with
  | Release user id now =>
      match getItem id (Reservations t) with
      | Some r => negb (String.eqb (Holder r) (Username user)) || db.activeAt now r
      | None => true
      end
  | _ => true
  end.

(** The states reached when no step is such a Release. *)
Inductive reachableActive (init : Tables) (start : Z) : Z -> Tables -> Prop :=
| reachableActive_init : reachableActive init start start init
| reachableActive_step clock t s :
    reachableActive init start clock t ->
    admissible clock t s = true ->
    releasesActive t s = true ->
    reachableActive init start (clockAfter s) (exec s t).

(** The reservations of an environment that are active at [now]. *)
Definition activeOn (environmentID : string) (now : Z) (t : Tables)
    : list Reservation :=
  List.filter
    (fun r => String.eqb (EnvironmentID r) environmentID && db.activeAt now r)
    (Reservations t).

Definition mutualExclusion (now : Z) (t : Tables) : Prop :=
  forall environmentID, (length (activeOn environmentID now t) <= 1)%nat.

(** A catalogue in which every environment is free and nothing is
    reserved yet. *)
Definition pristine (t : Tables) : Prop :=
  Reservations t = []
  /\ forall id e, Environments t !! id = Some e -> Status e = StatusFree.

(** What the code keeps as long as no stale reservation is released: an
    environment has at most one active reservation, and none when its
    status is FREE. *)
Definition consistent (now : Z) (t : Tables) : Prop :=
  mutualExclusion now t
  /\ forall id e,
       Environments t !! id = Some e -> Status e = StatusFree ->
       activeOn id now t = [].

End system.

(** ** Concrete data used in the examples *)
Module sample.

Definition user (name : string) : User :=
  {| Username := name; Password := ""; Role := RoleUser;
     UserCreatedAt := 0; UserLastUpdated := 0 |}.

Definition environment (id : string) (status : EnvironmentStatus) : Environment :=
  {| EnvID := id; Name := id; Description := ""; Status := status;
     CreatedBy := "admin"; EnvCreatedAt := 0; EnvLastUpdated := 0 |}.

Definition request (environmentID : string) (minutes : Z) (feature : string)
    : ReservationCreateRequest :=
  {| ReqEnvironmentID := environmentID; DurationMins := minutes;
     ReqFeature := feature; ReqGitBranch := ""; ReqJiraURL := "" |}.

Definition reservation (id environmentID holder : string) (startTime endTime : Z)
    : Reservation :=
  {| ID := id; EnvironmentID := environmentID; Holder := holder;
     StartTime := startTime; EndTime := endTime; Feature := "login-flow";
     GitBranch := ""; JiraURL := "";
     CreatedAt := startTime; LastUpdated := startTime |}.

(** One free environment, no reservation. *)
Definition oneFree : Tables :=
  {| Environments := {[ "env-1" := environment "env-1" StatusFree ]};
     Reservations := [] |}.

End sample.

(** ** Properties stated by the specification, as predicates *)
Module spec.

(** The four answers of the checks under "Validate the request". *)
Definition validationMessages : list string :=
  [ "Environment ID is required";
    "Duration must be at least 10 minutes";
    "Duration cannot exceed 3 days (4320 minutes)";
    "Feature description is required" ].

Definition isValidationError (resp : handlers.Response) : bool :=
  (handlers.Code resp =? handlers.StatusBadRequest)
  && existsb (String.eqb (handlers.Error resp)) validationMessages.

(** The request passes the four checks. *)
Definition passesValidation (req : ReservationCreateRequest) : bool :=
  negb (handlers.isEmpty (ReqEnvironmentID req))
  && negb (DurationMins req <? 10)
  && negb (4320 <? DurationMins req)
  && negb (handlers.isEmpty (ReqFeature req)).

(** The status of an environment, when it is in the table. *)
Definition statusOf (id : string) (t : Tables) : option EnvironmentStatus :=
  Status <$> Environments t !! id.

(** Two environment records that differ at most in [Status] and
    [EnvLastUpdated]. *)
Definition sameButStatus (e e' : Environment) : Prop :=
  EnvID e' = EnvID e /\ Name e' = Name e /\ Description e' = Description e
  /\ CreatedBy e' = CreatedBy e /\ EnvCreatedAt e' = EnvCreatedAt e.

(** What the writes of a sweeper loop at [now] over [listing] can make of
    an environments table: each entry is as it was, or was set FREE at
    [now] for a lapsed reservation of the listing. *)
Definition sweptFrom (now : Z) (listing : list Reservation)
    (m m' : gmap string Environment) : Prop :=
  forall id,
    m' !! id = m !! id
    \/ exists e r,
         m !! id = Some e /\ m' !! id = Some (setStatus StatusFree now e)
         /\ In r listing /\ EnvironmentID r = id /\ EndTime r < now.

(** The error a cycle returns when an update finds no environment. *)
Definition sweepFailure : string :=
  wrap "failed to update environment status"
    (wrap "failed to update environment status" ConditionalCheckFailed).

(** "A failure to free one resource is skipped and every other expired
    reservation of the cycle is still processed": after the cycle, the
    environment of every listed, lapsed reservation that is in the table
    is free. *)
Definition failuresAreSkipped (listNow now : Z) (t : Tables) : Prop :=
  forall r e,
    In r (Scan (db.activeAt listNow) t) ->
    EndTime r < now ->
    Environments t !! EnvironmentID r = Some e ->
    statusOf (EnvironmentID r) (snd (db.CheckExpiredReservations listNow now t))
    = Some StatusFree.

(** A reservation record that differs from [r] at most in the three
    fields a caller cannot choose. *)
Definition withCallerFields (id : string) (createdAt lastUpdated : Z)
    (r : Reservation) : Reservation :=
  {| ID := id; EnvironmentID := EnvironmentID r; Holder := Holder r;
     StartTime := StartTime r; EndTime := EndTime r; Feature := Feature r;
     GitBranch := GitBranch r; JiraURL := JiraURL r;
     CreatedAt := createdAt; LastUpdated := lastUpdated |}.

(** A whole trace is admissible from [clock] and [t]. *)
Fixpoint admissibleFrom (clock : Z) (t : Tables) (steps : list system.Step) : bool :=
  match steps with
  | [] => true
  | s :: rest =>
      system.admissible clock t s
      && admissibleFrom (system.clockAfter s) (system.exec s t) rest
  end.

Definition clockAtEnd (clock : Z) (steps : list system.Step) : Z :=
  fold_left (fun _ s => system.clockAfter s) steps clock.

End spec.

(** ** The states and traces of the examples *)
Module scenario.
Import system sample.

(** Alice reserves and releases; Bob reserves; Alice releases her old
    reservation once more; Carol reserves. *)
Definition doubleRelease : list Step :=
  [ Reserve (user "alice") (request "env-1" 10 "login-flow") 0 0 "r1";
    Release (user "alice") "r1" 10;
    Reserve (user "bob") (request "env-1" 60 "search") 20 20 "r2";
    Release (user "alice") "r1" 30;
    Reserve (user "carol") (request "env-1" 10 "billing") 40 40 "r3" ].

(** A ten minute reservation made at time 0. *)
Definition tenMinutes : Tables :=
  run [ Reserve (user "alice") (request "env-1" 10 "login-flow") 0 0 "r1" ] oneFree.

(** Two reservations that lapse at 600; the environment of the first is
    no longer in the table. *)
Definition orphanFirst : Tables :=
  {| Environments := {[ "env-2" := environment "env-2" StatusReserved ]};
     Reservations := [ reservation "r1" "env-1" "alice" 0 600;
                       reservation "r2" "env-2" "bob" 0 600 ] |}.

(** Bob holds [env-1] until 1800 with reservation [r1]. *)
Definition held : Tables :=
  {| Environments := {[ "env-1" := environment "env-1" StatusReserved ]};
     Reservations := [ reservation "r1" "env-1" "bob" 0 1800 ] |}.

(** Alice's reservation [r1] lapsed at 600; [env-1] is free already. *)
Definition lapsedAndFree : Tables :=
  {| Environments := {[ "env-1" := environment "env-1" StatusFree ]};
     Reservations := [ reservation "r1" "env-1" "alice" 0 600 ] |}.

End scenario.

(** * The rest of the server

    The other repositories of [db/], the environment, user and
    authentication handlers, the middleware and the helpers of [utils/].
    bcrypt and the JWT library are arguments of the functions that call
    them. *)

(** ** Tables keyed by a string: the requests of the user and environment
    repositories *)
Module table.

(** The condition expression of a [PutItem] on the key attribute. *)
Inductive PutCondition :=
| Unconditional
| AttributeExists         (* "attribute_exists(<key>)" *)
| AttributeNotExists.     (* "attribute_not_exists(<key>)" *)

(** [PutItem]: writes the whole item under its key. *)
Definition PutItem {V : Type} (key : string) (item : V) (c : PutCondition)
    (m : gmap string V) : result unit * gmap string V :=
  match c, m !! key with
  | AttributeExists, None => (Err ConditionalCheckFailed, m)
  | AttributeNotExists, Some _ => (Err ConditionalCheckFailed, m)
  | _, _ => (Ok tt, <[key := item]> m)
  end.

(** [DeleteItem]: succeeds whether or not the key is there. *)
Definition DeleteItem {V : Type} (key : string) (m : gmap string V)
    : result unit * gmap string V :=
  (Ok tt, delete key m).

(** [Scan] without a filter. *)
Definition ScanAll {V : Type} (m : gmap string V) : list V :=
  (map_to_list m).*2.

End table.

(** ** package models: the remaining types *)
Module models_rest.

Record UserResponse := {
  RespUsername : string;
  RespRole : UserRole;
  RespCreatedAt : Z;
  RespLastUpdated : Z
}.

(** [User.ToResponse] *)
Definition ToResponse (u : User) : UserResponse :=
  {| RespUsername := Username u; RespRole := Role u;
     RespCreatedAt := UserCreatedAt u; RespLastUpdated := UserLastUpdated u |}.

Record LoginRequest := {
  LoginUsername : string;
  LoginPassword : string
}.

Record RegisterRequest := {
  RegisterUsername : string;
  RegisterPassword : string
}.

Record EnvironmentCreateRequest := {
  CreateName : string;
  CreateDescription : string
}.

Record EnvironmentWithReservation := {
  Environment_ : Environment;                 (* the embedded [Environment] *)
  CurrentReservation : option Reservation
}.

End models_rest.
Import models_rest.

(** ** package db: [EnvironmentRepository], the remaining methods *)
Module EnvironmentRepository.

(** [CreateEnvironment] *)
Definition CreateEnvironment (env : Environment) (username newID : string)
    (now : Z) (t : Tables) : result Environment * Tables :=
  let env :=
    {| EnvID := newID; Name := Name env; Description := Description env;
       Status := StatusFree; CreatedBy := username;
       EnvCreatedAt := now; EnvLastUpdated := now |} in
  match table.PutItem (EnvID env) env table.Unconditional (Environments t) with
  | (Err e, _) => (Err (wrap "failed to create environment" e), t)
  | (Ok _, m) => (Ok env, {| Environments := m; Reservations := Reservations t |})
  end.

(** [ListEnvironments] *)
Definition ListEnvironments (t : Tables) : result (list Environment) :=
  Ok (table.ScanAll (Environments t)).

(** [env.LastUpdated = time.Now()] *)
Definition touch (now : Z) (e : Environment) : Environment :=
  {| EnvID := EnvID e; Name := Name e; Description := Description e;
     Status := Status e; CreatedBy := CreatedBy e;
     EnvCreatedAt := EnvCreatedAt e; EnvLastUpdated := now |}.

(** [UpdateEnvironment] *)
Definition UpdateEnvironment (env : Environment) (now : Z) (t : Tables)
    : result unit * Tables :=
  let env := touch now env in
  match table.PutItem (EnvID env) env table.AttributeExists (Environments t) with
  | (Err e, _) => (Err (wrap "failed to update environment" e), t)
  | (Ok _, m) => (Ok tt, {| Environments := m; Reservations := Reservations t |})
  end.

(** [DeleteEnvironment] *)
Definition DeleteEnvironment (id : string) (t : Tables) : result unit * Tables :=
  match table.DeleteItem id (Environments t) with
  | (Err e, _) => (Err (wrap "failed to delete environment" e), t)
  | (Ok _, m) => (Ok tt, {| Environments := m; Reservations := Reservations t |})
  end.

End EnvironmentRepository.

(** ** package db: [UserRepository], on the users table *)
Module UserRepository.

(** [user.CreatedAt = now; user.LastUpdated = now] *)
Definition created (now : Z) (u : User) : User :=
  {| Username := Username u; Password := Password u; Role := Role u;
     UserCreatedAt := now; UserLastUpdated := now |}.

(** [user.LastUpdated = time.Now()] *)
Definition touch (now : Z) (u : User) : User :=
  {| Username := Username u; Password := Password u; Role := Role u;
     UserCreatedAt := UserCreatedAt u; UserLastUpdated := now |}.

(** [CreateUser] *)
Definition CreateUser (user : User) (now : Z) (users : gmap string User)
    : result unit * gmap string User :=
  let user := created now user in
  match table.PutItem (Username user) user table.AttributeNotExists users with
  | (Err e, _) => (Err (wrap "failed to create user" e), users)
  | (Ok _, m) => (Ok tt, m)
  end.

(** [GetUser] *)
Definition GetUser (username : string) (users : gmap string User)
    : result (option User) :=
  Ok (users !! username).

(** [ListUsers] *)
Definition ListUsers (users : gmap string User) : result (list UserResponse) :=
  Ok (ToResponse <$> table.ScanAll users).

(** [UpdateUser] *)
Definition UpdateUser (user : User) (now : Z) (users : gmap string User)
    : result unit * gmap string User :=
  let user := touch now user in
  match table.PutItem (Username user) user table.AttributeExists users with
  | (Err e, _) => (Err (wrap "failed to update user" e), users)
  | (Ok _, m) => (Ok tt, m)
  end.

(** [DeleteUser] *)
Definition DeleteUser (username : string) (users : gmap string User)
    : result unit * gmap string User :=
  match table.DeleteItem username users with
  | (Err e, _) => (Err (wrap "failed to delete user" e), users)
  | (Ok _, m) => (Ok tt, m)
  end.

End UserRepository.

(** ** package utils *)
Module utils.

(** [utils.Response] with the status code written; [Data] is absent in an
    error response. *)
Record Response (D : Type) := {
  Code : Z;
  Success : bool;
  Data : option D;
  Error : string
}.
Arguments Code {D} _.
Arguments Success {D} _.
Arguments Data {D} _.
Arguments Error {D} _.

Definition RespondWithError {D : Type} (code : Z) (message : string) : Response D :=
  {| Code := code; Success := false; Data := None; Error := message |}.

Definition RespondWithSuccess {D : Type} (data : D) : Response D :=
  {| Code := handlers.StatusOK; Success := true; Data := Some data; Error := "" |}.

(** What a handler reads of a request: the method, the user of the
    context, the decoded body ([None] when decoding fails) and the
    variable of the route. *)
Record Request (B : Type) := {
  Method : string;
  ContextUser : handlers.ContextValue;
  Body : option B;
  Var : string
}.
Arguments Method {B} _.
Arguments ContextUser {B} _.
Arguments Body {B} _.
Arguments Var {B} _.

(** The JWT claims: [Username], [Role] and the registered claims the code
    sets. *)
Record Claims := {
  ClaimUsername : string;
  ClaimRole : UserRole;
  ExpiresAt : Z;
  IssuedAt : Z;
  Issuer : string
}.

(** The fields of [config.Config] that [GenerateToken] and [ValidateToken]
    read. *)
Record Config := {
  JWTSecret : string;
  JWTExpirationHours : Z
}.

(** The library calls of [password.go] and [jwt.go]. *)
Record Libraries := {
  (** [bcrypt.GenerateFromPassword(password, bcrypt.DefaultCost)] *)
  GenerateFromPassword : string -> result string;
  (** [bcrypt.CompareHashAndPassword(hash, password) == nil] *)
  CompareHashAndPassword : string -> string -> bool;
  (** [jwt.NewWithClaims(jwt.SigningMethodHS256, claims).SignedString(secret)] *)
  SignedString : Claims -> string -> result string;
  (** [jwt.ParseWithClaims] with the key function of [ValidateToken]: the
      claims and [token.Valid], or the error. *)
  ParseWithClaims : string -> string -> result (Claims * bool)
}.

(** [time.Hour], in seconds. *)
Definition Hour : Z := 3600.

(** [HashPassword] *)
Definition HashPassword (lib : Libraries) (password : string) : result string :=
  if (String.length password <? 8)%nat
  then Err "password must be at least 8 characters"
  else
    match GenerateFromPassword lib password with
    | Err e => Err (wrap "failed to hash password" e)
    | Ok hashed => Ok hashed
    end.

(** [CheckPassword] *)
Definition CheckPassword (lib : Libraries) (password hash : string) : bool :=
  CompareHashAndPassword lib hash password.

(** [GenerateToken] *)
Definition GenerateToken (lib : Libraries) (user : User) (cfg : Config) (now : Z)
    : result string :=
  let expirationTime := now + JWTExpirationHours cfg * Hour in
  let claims :=
    {| ClaimUsername := Username user; ClaimRole := Role user;
       ExpiresAt := expirationTime; IssuedAt := now; Issuer := "dev-reserve" |} in
  match SignedString lib claims (JWTSecret cfg) with
  | Err e => Err (wrap "failed to sign token" e)
  | Ok tokenString => Ok tokenString
  end.

(** [ValidateToken] *)
Definition ValidateToken (lib : Libraries) (tokenString : string) (cfg : Config)
    : result Claims :=
  match ParseWithClaims lib tokenString (JWTSecret cfg) with
  | Err e => Err (wrap "failed to parse token" e)
  | Ok (claims, valid) => if negb valid then Err "invalid token" else Ok claims
  end.

End utils.

(** ** package middleware *)
Module middleware.

(** What a middleware does with a request: it answers with [http.Error],
    or it calls the next handler. *)
Inductive Served (A : Type) :=
| HttpError (body : string) (code : Z)
| Next (a : A).
Arguments HttpError {A} body code.
Arguments Next {A} a.

(** [strings.TrimPrefix(authHeader, "Bearer ")], for a header that has
    the prefix. *)
Definition trimBearer (authHeader : string) : string :=
  String.substring 7 (String.length authHeader - 7) authHeader.

(** [AuthMiddleware]: [authHeader] is the [Authorization] header of the
    request; the next handler gets the user put in the context. *)
Definition AuthMiddleware {A : Type} (lib : utils.Libraries) (cfg : utils.Config)
    (next : handlers.ContextValue -> A) (authHeader : string) : Served A :=
  if String.eqb authHeader ""
  then HttpError "Authorization header required" handlers.StatusUnauthorized
  else if negb (String.prefix "Bearer " authHeader)
  then HttpError "Invalid Authorization header format" handlers.StatusUnauthorized
  else
    let tokenString := trimBearer authHeader in
    match utils.ValidateToken lib tokenString cfg with
    | Err e => HttpError ("Invalid token: " +:+ e) handlers.StatusUnauthorized
    | Ok claims =>
        let user :=
          {| Username := utils.ClaimUsername claims; Password := "";
             Role := utils.ClaimRole claims;
             UserCreatedAt := zeroTime; UserLastUpdated := zeroTime |} in
        Next (next (handlers.UserValue user))
    end.

(** [AdminMiddleware]: [ctx] is the user value of the request's context. *)
Definition AdminMiddleware {A : Type} (next : handlers.ContextValue -> A)
    (ctx : handlers.ContextValue) : Served A :=
  match ctx with
  | handlers.NoValue => HttpError "Unauthorized" handlers.StatusUnauthorized
  | handlers.OtherValue =>
      HttpError "Invalid user context" handlers.StatusInternalServerError
  | handlers.UserValue user =>
      if negb (String.eqb (Role user) RoleAdmin)
      then HttpError "Admin access required" handlers.StatusForbidden
      else Next (next ctx)
  end.

End middleware.

(** ** package handlers: [EnvironmentHandler] *)
Module EnvironmentHandler.
Import utils.

(** [reservationMap[activeReservations[i].EnvironmentID] = &activeReservations[i]],
    in listing order. *)
Definition reservationMap (activeReservations : list Reservation)
    : gmap string Reservation :=
  fold_left (fun m r => <[EnvironmentID r := r]> m) activeReservations ∅.

(** [ListEnvironments]; [now] is the reading of the clock in
    [ListActiveReservations]. *)
Definition ListEnvironments {B : Type} (r : Request B) (now : Z) (t : Tables)
    : Response (list EnvironmentWithReservation) :=
  if negb (String.eqb (Method r) "GET")
  then RespondWithError handlers.StatusMethodNotAllowed "Method not allowed"
  else
  match EnvironmentRepository.ListEnvironments t with
  | Err _ =>
      RespondWithError handlers.StatusInternalServerError "Failed to list environments"
  | Ok environments =>
  match db.ListActiveReservations now t with
  | Err _ =>
      RespondWithError handlers.StatusInternalServerError "Failed to list reservations"
  | Ok activeReservations =>
      let reservationMap := reservationMap activeReservations in
      RespondWithSuccess
        (List.map
           (fun env =>
              {| Environment_ := env;
                 CurrentReservation := reservationMap !! EnvID env |})
           environments)
  end
  end.

(** [CreateEnvironment] *)
Definition CreateEnvironment (r : Request EnvironmentCreateRequest)
    (newID : string) (now : Z) (t : Tables) : Response Environment * Tables :=
  if negb (String.eqb (Method r) "POST")
  then (RespondWithError handlers.StatusMethodNotAllowed "Method not allowed", t)
  else
  match ContextUser r with
  | handlers.NoValue =>
      (RespondWithError handlers.StatusUnauthorized "Unauthorized", t)
  | handlers.OtherValue =>
      (RespondWithError handlers.StatusInternalServerError "Invalid user context", t)
  | handlers.UserValue user =>
  match Body r with
  | None => (RespondWithError handlers.StatusBadRequest "Invalid request body", t)
  | Some req =>
  if String.eqb (CreateName req) ""
  then (RespondWithError handlers.StatusBadRequest "Environment name is required", t)
  else
    let env :=
      {| EnvID := ""; Name := CreateName req; Description := CreateDescription req;
         Status := StatusFree; CreatedBy := "";
         EnvCreatedAt := zeroTime; EnvLastUpdated := zeroTime |} in
    match EnvironmentRepository.CreateEnvironment env (Username user) newID now t with
    | (Err _, t') =>
        (RespondWithError handlers.StatusInternalServerError
           "Failed to create environment", t')
    | (Ok createdEnv, t') => (RespondWithSuccess createdEnv, t')
    end
  end
  end.

(** [GetEnvironment]; [now] is the reading of the clock in
    [GetActiveReservationByEnvironmentID]. *)
Definition GetEnvironment {B : Type} (r : Request B) (now : Z) (t : Tables)
    : Response EnvironmentWithReservation :=
  if negb (String.eqb (Method r) "GET")
  then RespondWithError handlers.StatusMethodNotAllowed "Method not allowed"
  else
  let id := Var r in
  if String.eqb id ""
  then RespondWithError handlers.StatusBadRequest "Environment ID is required"
  else
  match db.GetEnvironment id t with
  | Err _ =>
      RespondWithError handlers.StatusInternalServerError "Failed to get environment"
  | Ok None => RespondWithError handlers.StatusNotFound "Environment not found"
  | Ok (Some env) =>
  match db.GetActiveReservationByEnvironmentID id now t with
  | Err _ =>
      RespondWithError handlers.StatusInternalServerError "Failed to get reservation"
  | Ok reservation =>
      RespondWithSuccess {| Environment_ := env; CurrentReservation := reservation |}
  end
  end.

End EnvironmentHandler.

(** ** package handlers: [UserHandler] *)
Module UserHandler.
Import utils.

(** The body of a [CreateUser] request. *)
Record CreateUserRequest := {
  NewUsername : string;
  NewPassword : string;
  NewRole : UserRole
}.

(** [ListUsers] *)
Definition ListUsers {B : Type} (r : Request B) (users : gmap string User)
    : Response (list UserResponse) :=
  if negb (String.eqb (Method r) "GET")
  then RespondWithError handlers.StatusMethodNotAllowed "Method not allowed"
  else
    match UserRepository.ListUsers users with
    | Err _ => RespondWithError handlers.StatusInternalServerError "Failed to list users"
    | Ok listed => RespondWithSuccess listed
    end.

(** [CreateUser]; [now] is the handler's reading of the clock, [repoNow]
    the repository's. *)
Definition CreateUser (lib : Libraries) (r : Request CreateUserRequest)
    (now repoNow : Z) (users : gmap string User)
    : Response UserResponse * gmap string User :=
  if negb (String.eqb (Method r) "POST")
  then (RespondWithError handlers.StatusMethodNotAllowed "Method not allowed", users)
  else
  match ContextUser r with
  | handlers.NoValue =>
      (RespondWithError handlers.StatusUnauthorized "Unauthorized", users)
  | handlers.OtherValue =>
      (RespondWithError handlers.StatusInternalServerError "Invalid user context", users)
  | handlers.UserValue admin =>
  if negb (String.eqb (Role admin) RoleAdmin)
  then (RespondWithError handlers.StatusForbidden "Admin access required", users)
  else
  match Body r with
  | None => (RespondWithError handlers.StatusBadRequest "Invalid request body", users)
  | Some req =>
  if String.eqb (NewUsername req) ""
  then (RespondWithError handlers.StatusBadRequest "Username is required", users)
  else if (String.length (NewPassword req) <? 8)%nat
  then (RespondWithError handlers.StatusBadRequest
          "Password must be at least 8 characters", users)
  else
  let role := if String.eqb (NewRole req) "" then RoleUser else NewRole req in
  if negb (String.eqb role RoleUser) && negb (String.eqb role RoleAdmin)
  then (RespondWithError handlers.StatusBadRequest "Invalid role", users)
  else
  match UserRepository.GetUser (NewUsername req) users with
  | Err _ =>
      (RespondWithError handlers.StatusInternalServerError "Failed to check username",
       users)
  | Ok (Some _) =>
      (RespondWithError handlers.StatusBadRequest "Username already exists", users)
  | Ok None =>
  match HashPassword lib (NewPassword req) with
  | Err _ =>
      (RespondWithError handlers.StatusInternalServerError "Failed to hash password",
       users)
  | Ok hashedPassword =>
      let user :=
        {| Username := NewUsername req; Password := hashedPassword; Role := role;
           UserCreatedAt := now; UserLastUpdated := now |} in
      match UserRepository.CreateUser user repoNow users with
      | (Err _, users') =>
          (RespondWithError handlers.StatusInternalServerError "Failed to create user",
           users')
      | (Ok _, users') => (RespondWithSuccess (ToResponse user), users')
      end
  end
  end
  end
  end.

(** [GetUser] *)
Definition GetUser {B : Type} (r : Request B) (users : gmap string User)
    : Response UserResponse :=
  if negb (String.eqb (Method r) "GET")
  then RespondWithError handlers.StatusMethodNotAllowed "Method not allowed"
  else
  let username := Var r in
  if String.eqb username ""
  then RespondWithError handlers.StatusBadRequest "Username is required"
  else
    match UserRepository.GetUser username users with
    | Err _ => RespondWithError handlers.StatusInternalServerError "Failed to get user"
    | Ok None => RespondWithError handlers.StatusNotFound "User not found"
    | Ok (Some user) => RespondWithSuccess (ToResponse user)
    end.

End UserHandler.

(** ** package handlers: [AuthHandler] *)
Module AuthHandler.
Import utils.

(** The answer of [Register] and [Login]: the token and the user. *)
Record TokenResponse := {
  Token : string;           (* key "token" *)
  TokenUser : UserResponse  (* key "user" *)
}.

(** [Register]; [now] is the handler's reading of the clock, [repoNow]
    the repository's, [tokenNow] the one of [GenerateToken]. *)
Definition Register (lib : Libraries) (cfg : Config) (r : Request RegisterRequest)
    (now repoNow tokenNow : Z) (users : gmap string User)
    : Response TokenResponse * gmap string User :=
  if negb (String.eqb (Method r) "POST")
  then (RespondWithError handlers.StatusMethodNotAllowed "Method not allowed", users)
  else
  match Body r with
  | None => (RespondWithError handlers.StatusBadRequest "Invalid request body", users)
  | Some req =>
  if String.eqb (RegisterUsername req) ""
  then (RespondWithError handlers.StatusBadRequest "Username is required", users)
  else if (String.length (RegisterPassword req) <? 8)%nat
  then (RespondWithError handlers.StatusBadRequest
          "Password must be at least 8 characters", users)
  else
  match UserRepository.GetUser (RegisterUsername req) users with
  | Err _ =>
      (RespondWithError handlers.StatusInternalServerError "Failed to check username",
       users)
  | Ok (Some _) =>
      (RespondWithError handlers.StatusBadRequest "Username already exists", users)
  | Ok None =>
  match HashPassword lib (RegisterPassword req) with
  | Err _ =>
      (RespondWithError handlers.StatusInternalServerError "Failed to hash password",
       users)
  | Ok hashedPassword =>
      let user :=
        {| Username := RegisterUsername req; Password := hashedPassword;
           Role := RoleUser; UserCreatedAt := now; UserLastUpdated := now |} in
      match UserRepository.CreateUser user repoNow users with
      | (Err _, users') =>
          (RespondWithError handlers.StatusInternalServerError "Failed to create user",
           users')
      | (Ok _, users') =>
          match GenerateToken lib user cfg tokenNow with
          | Err _ =>
              (RespondWithError handlers.StatusInternalServerError
                 "Failed to generate token", users')
          | Ok token =>
              (RespondWithSuccess {| Token := token; TokenUser := ToResponse user |}, users')
          end
      end
  end
  end
  end.

(** [Login]; [tokenNow] is the reading of the clock in [GenerateToken]. *)
Definition Login (lib : Libraries) (cfg : Config) (r : Request LoginRequest)
    (tokenNow : Z) (users : gmap string User) : Response TokenResponse :=
  if negb (String.eqb (Method r) "POST")
  then RespondWithError handlers.StatusMethodNotAllowed "Method not allowed"
  else
  match Body r with
  | None => RespondWithError handlers.StatusBadRequest "Invalid request body"
  | Some req =>
  if String.eqb (LoginUsername req) "" || String.eqb (LoginPassword req) ""
  then RespondWithError handlers.StatusBadRequest "Username and password are required"
  else
  match UserRepository.GetUser (LoginUsername req) users with
  | Err _ => RespondWithError handlers.StatusInternalServerError "Failed to get user"
  | Ok None =>
      RespondWithError handlers.StatusUnauthorized "Invalid username or password"
  | Ok (Some found) =>
      if negb (CheckPassword lib (LoginPassword req) (Password found))
      then RespondWithError handlers.StatusUnauthorized "Invalid username or password"
      else
        match GenerateToken lib found cfg tokenNow with
        | Err _ =>
            RespondWithError handlers.StatusInternalServerError
              "Failed to generate token"
        | Ok token =>
            RespondWithSuccess {| Token := token; TokenUser := ToResponse found |}
        end
  end
  end.

End AuthHandler.

(** ** package main: the routes behind the middleware *)
Module routes.
Import utils middleware.

(** A request as the router hands it to a handler. *)
Definition request {B : Type} (method : string) (ctx : handlers.ContextValue)
    (body : option B) (var : string) : Request B :=
  {| Method := method; ContextUser := ctx; Body := body; Var := var |}.

(** [adminRouter.HandleFunc("/environments", envHandler.CreateEnvironment).Methods("POST")]
    behind [AuthMiddleware] and [AdminMiddleware]. *)
Definition adminCreateEnvironment (lib : Libraries) (cfg : Config)
    (authHeader : string) (body : option EnvironmentCreateRequest)
    (newID : string) (now : Z) (t : Tables)
    : Served (Served (Response Environment * Tables)) :=
  AuthMiddleware lib cfg
    (AdminMiddleware
       (fun ctx =>
          EnvironmentHandler.CreateEnvironment (request "POST" ctx body "") newID now t))
    authHeader.

(** [adminRouter.HandleFunc("/users", userHandler.CreateUser).Methods("POST")]
    behind [AuthMiddleware] and [AdminMiddleware]. *)
Definition adminCreateUser (lib : Libraries) (cfg : Config)
    (authHeader : string) (body : option UserHandler.CreateUserRequest)
    (now repoNow : Z) (users : gmap string User)
    : Served (Served (Response UserResponse * gmap string User)) :=
  AuthMiddleware lib cfg
    (AdminMiddleware
       (fun ctx =>
          UserHandler.CreateUser lib (request "POST" ctx body "") now repoNow users))
    authHeader.

(** The tables after a request: those the handler returns, or the tables
    as they were when a middleware answered. *)
Definition after {R S : Type} (before : S) (served : Served (Served (R * S))) : S :=
  match served with
  | Next (Next (_, s)) => s
  | _ => before
  end.

End routes.

(** ** Further predicates and data for the properties below *)
Module more.

(** Every environment is stored under its own id. *)
Definition keyed (t : Tables) : Prop :=
  forall id e, Environments t !! id = Some e -> EnvID e = id.

(** A reservation record kept its identity and its immutable fields. *)
Definition sameBooking (r r' : Reservation) : Prop :=
  ID r' = ID r /\ EnvironmentID r' = EnvironmentID r /\ Holder r' = Holder r
  /\ StartTime r' = StartTime r /\ Feature r' = Feature r
  /\ GitBranch r' = GitBranch r /\ JiraURL r' = JiraURL r
  /\ CreatedAt r' = CreatedAt r.

(** A stand-in for bcrypt and the JWT library in the examples: the hash
    is the password behind a marker, the token is the user name behind
    the secret, and only the token of [root] with secret [s3cret]
    parses, as an admin's. *)
Definition toy : utils.Libraries :=
  {| utils.GenerateFromPassword := fun password => Ok ("$2a$" +:+ password);
     utils.CompareHashAndPassword :=
       fun hash password => String.eqb hash ("$2a$" +:+ password);
     utils.SignedString :=
       fun claims secret => Ok (secret +:+ "." +:+ utils.ClaimUsername claims);
     utils.ParseWithClaims :=
       fun tokenString secret =>
         if String.eqb tokenString (secret +:+ ".root")
         then Ok ({| utils.ClaimUsername := "root"; utils.ClaimRole := RoleAdmin;
                     utils.ExpiresAt := 86400; utils.IssuedAt := 0;
                     utils.Issuer := "dev-reserve" |}, true)
         else if String.eqb tokenString (secret +:+ ".alice")
         then Ok ({| utils.ClaimUsername := "alice"; utils.ClaimRole := RoleUser;
                     utils.ExpiresAt := 86400; utils.IssuedAt := 0;
                     utils.Issuer := "dev-reserve" |}, true)
         else Err "token is malformed" |}.

(** The claims of Alice's token issued at time 100 for 24 hours. *)
Definition aliceClaims : utils.Claims :=
  {| utils.ClaimUsername := "alice"; utils.ClaimRole := RoleUser;
     utils.ExpiresAt := 86500; utils.IssuedAt := 100;
     utils.Issuer := "dev-reserve" |}.

Definition sameClaims (a b : utils.Claims) : bool :=
  String.eqb (utils.ClaimUsername a) (utils.ClaimUsername b)
  && String.eqb (utils.ClaimRole a) (utils.ClaimRole b)
  && (utils.ExpiresAt a =? utils.ExpiresAt b)
  && (utils.IssuedAt a =? utils.IssuedAt b)
  && String.eqb (utils.Issuer a) (utils.Issuer b).

(** A stand-in for the JWT library that signs [aliceClaims] only, and
    parses what it signed. *)
Definition signer : utils.Libraries :=
  {| utils.GenerateFromPassword := utils.GenerateFromPassword toy;
     utils.CompareHashAndPassword := utils.CompareHashAndPassword toy;
     utils.SignedString :=
       fun claims secret =>
         if sameClaims claims aliceClaims && String.eqb secret "s3cret"
         then Ok "alice-token" else Err "key is of invalid type";
     utils.ParseWithClaims :=
       fun tokenString secret =>
         if String.eqb tokenString "alice-token" && String.eqb secret "s3cret"
         then Ok (aliceClaims, true) else Err "token is malformed" |}.

Definition config : utils.Config :=
  {| utils.JWTSecret := "s3cret"; utils.JWTExpirationHours := 24 |}.

Definition admin : User :=
  {| Username := "root"; Password := ""; Role := RoleAdmin;
     UserCreatedAt := 0; UserLastUpdated := 0 |}.

(** Alice's account, with the toy hash of [correct-horse]. *)
Definition alice : User :=
  {| Username := "alice"; Password := "$2a$correct-horse"; Role := RoleUser;
     UserCreatedAt := 0; UserLastUpdated := 0 |}.

Definition oneUser : gmap string User := {[ "alice" := alice ]}.

(** An authenticated POST request for a reservation. *)
Definition reserve (user : User) (req : ReservationCreateRequest) : handlers.Request :=
  system.post user (Some req) "".

End more.

(** ** Requests that run among other requests

    [CreateReservation] calls the database three times: the handler reads
    the environment, the repository reads it again, and the repository
    commits the transaction.  Other requests may write in between, so
    each call gets the tables as it finds them: [tHandler], [tRead] and
    [tCommit].  The tables returned are those the transaction leaves:
    [tCommit] itself when the request writes nothing or does not get as
    far as the transaction. *)
Module interleaved_db.

(** [ReservationRepository.CreateReservation] *)
Definition CreateReservation (reservation : Reservation) (newID : string)
    (now : Z) (tRead tCommit : Tables) : result Reservation * Tables :=
  match db.GetEnvironment (EnvironmentID reservation) tRead with
  | Err e => (Err (wrap "failed to get environment" e), tCommit)
  | Ok None => (Err "environment not found", tCommit)
  | Ok (Some env) =>
      if negb (String.eqb (Status env) StatusFree)
      then (Err "environment is already reserved", tCommit)
      else
        let reservation := db.stamp newID now reservation in
        match TransactWriteItems (db.createTransaction reservation now) tCommit with
        | (Err e, t') => (Err (wrap "failed to create reservation" e), t')
        | (Ok _, t') => (Ok reservation, t')
        end
  end.

End interleaved_db.

Module interleaved_handlers.
Import handlers.

(** [ReservationHandler.CreateReservation] *)
Definition CreateReservation (r : Request) (now repoNow : Z) (newID : string)
    (tHandler tRead tCommit : Tables) : Response * Tables :=
  if negb (String.eqb (Method r) "POST")
  then (RespondWithError StatusMethodNotAllowed "Method not allowed", tCommit)
  else
  match ContextUser r with
  | NoValue => (RespondWithError StatusUnauthorized "Unauthorized", tCommit)
  | OtherValue =>
      (RespondWithError StatusInternalServerError "Invalid user context", tCommit)
  | UserValue user =>
  match Body r with
  | None => (RespondWithError StatusBadRequest "Invalid request body", tCommit)
  | Some req =>
  if isEmpty (ReqEnvironmentID req)
  then (RespondWithError StatusBadRequest "Environment ID is required", tCommit)
  else if DurationMins req <? 10
  then (RespondWithError StatusBadRequest "Duration must be at least 10 minutes", tCommit)
  else if 4320 <? DurationMins req
  then (RespondWithError StatusBadRequest
          "Duration cannot exceed 3 days (4320 minutes)", tCommit)
  else if isEmpty (ReqFeature req)
  then (RespondWithError StatusBadRequest "Feature description is required", tCommit)
  else
  match db.GetEnvironment (ReqEnvironmentID req) tHandler with
  | Err _ =>
      (RespondWithError StatusInternalServerError "Failed to get environment", tCommit)
  | Ok None => (RespondWithError StatusNotFound "Environment not found", tCommit)
  | Ok (Some env) =>
  if negb (String.eqb (Status env) StatusFree)
  then (RespondWithError StatusBadRequest "Environment is already reserved", tCommit)
  else
    let reservation := newReservation user req now in
    match interleaved_db.CreateReservation reservation newID repoNow tRead tCommit with
    | (Err e, t') =>
        (RespondWithError StatusInternalServerError
           ("Failed to create reservation: " +:+ e), t')
    | (Ok createdReservation, t') =>
        (RespondWithSuccess (ReservationData createdReservation), t')
    end
  end
  end
  end.

End interleaved_handlers.

(** ** The scans of the reservations table, with the store's answer as an
    argument

    The filter of a [Scan] is evaluated by the store, on the text of the
    stored [endTime] and of [now.Format(time.RFC3339)], and one [Scan]
    call returns one page of the matching items in the store's order.
    Here the items a call returns are an argument, [scan]; what is
    assumed of it is a hypothesis of each statement:
    - [sound]: every item returned is stored and matches the filter read
      on instants (the text order is the order of the instants: all the
      texts carry the same UTC offset and whole seconds);
    - [complete]: every stored item that matches is returned (the page
      holds them all). *)
Module store.

(** The filter expressions of [ListActiveReservations] and
    [GetActiveReservationByEnvironmentID]. *)
Inductive Filter :=
| EndTimeAfter (now : Z)
| EnvironmentAndEndTimeAfter (environmentID : string) (now : Z).

(** The filter read on instants. *)
Definition matches (f : Filter) (r : Reservation) : bool :=
  match f with
  | EndTimeAfter now => now <? EndTime r
  | EnvironmentAndEndTimeAfter environmentID now =>
      String.eqb (EnvironmentID r) environmentID && (now <? EndTime r)
  end.

(** What one [Scan] call with a filter returns of a table. *)
Definition ScanCall : Type := Filter -> list Reservation -> list Reservation.

Definition sound (scan : ScanCall) : Prop :=
  forall f l r, In r (scan f l) -> In r l /\ matches f r = true.

Definition complete (scan : ScanCall) : Prop :=
  forall f l r, In r l -> matches f r = true -> In r (scan f l).

(** The store that returns every matching item, in table order. *)
Definition ideal : ScanCall := fun f l => List.filter (matches f) l.

(** [ReservationRepository.ListActiveReservations] *)
Definition ListActiveReservations (scan : ScanCall) (now : Z) (t : Tables)
    : result (list Reservation) :=
  Ok (scan (EndTimeAfter now) (Reservations t)).

(** [ReservationRepository.GetActiveReservationByEnvironmentID] *)
Definition GetActiveReservationByEnvironmentID (scan : ScanCall)
    (environmentID : string) (now : Z) (t : Tables) : result (option Reservation) :=
  match scan (EnvironmentAndEndTimeAfter environmentID now) (Reservations t) with
  | [] => Ok None
  | r :: _ => Ok (Some r)
  end.

(** [ReservationRepository.CheckExpiredReservations] *)
Definition CheckExpiredReservations (scan : ScanCall) (listNow now : Z) (t : Tables)
    : result unit * Tables :=
  match ListActiveReservations scan listNow t with
  | Err e => (Err (wrap "failed to list active reservations" e), t)
  | Ok activeReservations => db.sweep now activeReservations t
  end.

(** [ReservationHandler.GetActiveReservations] *)
Definition GetActiveReservations (scan : ScanCall) (r : handlers.Request) (now : Z)
    (t : Tables) : handlers.Response :=
  if negb (String.eqb (handlers.Method r) "GET")
  then handlers.RespondWithError handlers.StatusMethodNotAllowed "Method not allowed"
  else
    match ListActiveReservations scan now t with
    | Err _ =>
        handlers.RespondWithError handlers.StatusInternalServerError
          "Failed to list reservations"
    | Ok reservations =>
        handlers.RespondWithSuccess (handlers.ReservationsData reservations)
    end.

(** [EnvironmentHandler.GetEnvironment] *)
Definition GetEnvironment {B : Type} (scan : ScanCall) (r : utils.Request B) (now : Z)
    (t : Tables) : utils.Response EnvironmentWithReservation :=
  if negb (String.eqb (utils.Method r) "GET")
  then utils.RespondWithError handlers.StatusMethodNotAllowed "Method not allowed"
  else
  let id := utils.Var r in
  if String.eqb id ""
  then utils.RespondWithError handlers.StatusBadRequest "Environment ID is required"
  else
  match db.GetEnvironment id t with
  | Err _ =>
      utils.RespondWithError handlers.StatusInternalServerError
        "Failed to get environment"
  | Ok None => utils.RespondWithError handlers.StatusNotFound "Environment not found"
  | Ok (Some env) =>
  match GetActiveReservationByEnvironmentID scan id now t with
  | Err _ =>
      utils.RespondWithError handlers.StatusInternalServerError
        "Failed to get reservation"
  | Ok reservation =>
      utils.RespondWithSuccess
        {| Environment_ := env; CurrentReservation := reservation |}
  end
  end.

End store.

(** C3 as the specification states it, for the three calls of one request. *)
Module interleaved_spec.


End interleaved_spec.

(** ** The JWT library and the clock

    [jwt.ParseWithClaims] reads the clock: it rejects a token whose
    [ExpiresAt] has passed or whose [IssuedAt] is still to come.  So the
    libraries are taken as they answer at each instant. *)
Module session.

(** What is assumed of the JWT library: a token it signed parses, with
    the secret it was signed with and while its claims are in force, as
    valid and with the claims that were signed. *)
Definition parsesWhileInForce (libAt : Z -> utils.Libraries) : Prop :=
  forall issued when claims secret signed,
    utils.SignedString (libAt issued) claims secret = Ok signed ->
    utils.IssuedAt claims <= when < utils.ExpiresAt claims ->
    utils.ParseWithClaims (libAt when) signed secret = Ok (claims, true).

(** A stand-in for the JWT library in the examples: it signs
    [more.aliceClaims] only, and parses what it signed while the claims
    are in force. *)
Definition signerAt (when : Z) : utils.Libraries :=
  {| utils.GenerateFromPassword := utils.GenerateFromPassword more.toy;
     utils.CompareHashAndPassword := utils.CompareHashAndPassword more.toy;
     utils.SignedString := utils.SignedString more.signer;
     utils.ParseWithClaims :=
       fun tokenString secret =>
         if negb (String.eqb tokenString "alice-token" && String.eqb secret "s3cret")
         then Err "token is malformed"
         else if (utils.IssuedAt more.aliceClaims <=? when)
                 && (when <? utils.ExpiresAt more.aliceClaims)
         then Ok (more.aliceClaims, true)
         else Err "token is expired" |}.

End session.
(** * Lemmas on the tables *)

Lemma getItem_putItem r l : getItem (ID r) (putItem r l) = Some r.
Proof.
  unfold getItem. induction l as [|x l IH]; simpl.
  - by rewrite String.eqb_refl.
  - destruct (String.eqb (ID x) (ID r)) eqn:E; simpl.
    + by rewrite String.eqb_refl.
    + by rewrite E.
Qed.

(** A [Put] under a key that is not in the table adds the item at the end. *)
Lemma putItem_new r l : getItem (ID r) l = None -> putItem r l = l ++ [r].
Proof.
  unfold getItem. induction l as [|x l IH]; simpl; [done|].
  destruct (String.eqb (ID x) (ID r)); [done|].
  intros H. by rewrite (IH H).
Qed.

(** An [Update] under a key that is in the table edits that item in place. *)
Lemma updateItem_split id endTime lastUpdated l r :
  getItem id l = Some r ->
  exists l1 l2,
    l = l1 ++ r :: l2
    /\ updateItem id endTime lastUpdated l
       = l1 ++ setEndTime endTime lastUpdated r :: l2.
Proof.
  unfold getItem. induction l as [|x l IH]; simpl; [done|].
  destruct (String.eqb (ID x) id) eqn:E.
  - intros [= ->]. by exists [], l.
  - intros H. destruct (IH H) as (l1 & l2 & -> & ->).
    by exists (x :: l1), l2.
Qed.

Lemma getItem_updateItem id endTime lastUpdated l r :
  getItem id l = Some r ->
  getItem id (updateItem id endTime lastUpdated l)
  = Some (setEndTime endTime lastUpdated r).
Proof.
  unfold getItem. induction l as [|x l IH]; simpl; [done|].
  destruct (String.eqb (ID x) id) eqn:E; simpl.
  - intros [= ->]. by rewrite E.
  - rewrite E. exact IH.
Qed.

Lemma updateEnvironment_lookup id status lastUpdated m :
  Status <$> updateEnvironment id status lastUpdated m !! id = Some status.
Proof.
  unfold updateEnvironment.
  destruct (m !! id); by rewrite lookup_insert_eq.
Qed.

Lemma updateEnvironment_lookup_ne id id' status lastUpdated m :
  id <> id' ->
  updateEnvironment id status lastUpdated m !! id' = m !! id'.
Proof.
  intros Hne. unfold updateEnvironment.
  destruct (m !! id); by rewrite lookup_insert_ne.
Qed.

(** * Lemmas on the repositories *)

(** One conditional status update: it fails exactly on an environment that
    is not in the table, and never touches the reservations. *)
Lemma UpdateEnvironmentStatus_present id status now t e :
  Environments t !! id = Some e ->
  db.UpdateEnvironmentStatus id status now t
  = (Ok tt, {| Environments := <[id := setStatus status now e]> (Environments t);
               Reservations := Reservations t |}).
Proof.
  intros H. unfold db.UpdateEnvironmentStatus, UpdateItem; simpl.
  rewrite H; simpl. unfold updateEnvironment. by rewrite H.
Qed.

Lemma UpdateEnvironmentStatus_absent id status now t :
  Environments t !! id = None ->
  db.UpdateEnvironmentStatus id status now t
  = (Err (wrap "failed to update environment status" ConditionalCheckFailed), t).
Proof.
  intros H. unfold db.UpdateEnvironmentStatus, UpdateItem; simpl.
  by rewrite H.
Qed.

(** The transaction of CreateReservation commits on a free environment. *)
Lemma createTransaction_commits reservation now t env :
  Environments t !! EnvironmentID reservation = Some env ->
  Status env = StatusFree ->
  TransactWriteItems (db.createTransaction reservation now) t
  = (Ok tt,
     {| Environments :=
          updateEnvironment (EnvironmentID reservation) StatusReserved now
            (Environments t);
        Reservations := putItem reservation (Reservations t) |}).
Proof.
  intros He Hs.
  unfold TransactWriteItems, db.createTransaction, forallb, check, holds.
  rewrite He. apply String.eqb_eq in Hs. rewrite Hs. reflexivity.
Qed.

Lemma CreateReservation_free reservation newID now t env :
  Environments t !! EnvironmentID reservation = Some env ->
  Status env = StatusFree ->
  db.CreateReservation reservation newID now t
  = (Ok (db.stamp newID now reservation),
     {| Environments :=
          updateEnvironment (EnvironmentID reservation) StatusReserved now
            (Environments t);
        Reservations := putItem (db.stamp newID now reservation) (Reservations t) |}).
Proof.
  intros He Hs. unfold db.CreateReservation, db.GetEnvironment.
  rewrite He. rewrite (proj2 (String.eqb_eq _ _) Hs). simpl negb. cbv iota.
  rewrite (createTransaction_commits (db.stamp newID now reservation) now t env He Hs).
  reflexivity.
Qed.

Lemma CreateReservation_not_free reservation newID now t env :
  Environments t !! EnvironmentID reservation = Some env ->
  Status env <> StatusFree ->
  db.CreateReservation reservation newID now t
  = (Err "environment is already reserved", t).
Proof.
  intros He Hs. unfold db.CreateReservation, db.GetEnvironment.
  rewrite He. apply String.eqb_neq in Hs. by rewrite Hs.
Qed.

Lemma CreateReservation_not_found reservation newID now t :
  Environments t !! EnvironmentID reservation = None ->
  db.CreateReservation reservation newID now t = (Err "environment not found", t).
Proof.
  intros He. unfold db.CreateReservation, db.GetEnvironment. by rewrite He.
Qed.

Lemma ReleaseReservation_not_holder id username now t r :
  getItem id (Reservations t) = Some r ->
  Holder r <> username ->
  db.ReleaseReservation id username now t
  = (Err "you can only release your own reservations", t).
Proof.
  intros Hr Hh. unfold db.ReleaseReservation, db.GetReservation.
  rewrite Hr. apply String.eqb_neq in Hh. by rewrite Hh.
Qed.

Lemma ReleaseReservation_not_found id username now t :
  getItem id (Reservations t) = None ->
  db.ReleaseReservation id username now t = (Err "reservation not found", t).
Proof.
  intros Hr. unfold db.ReleaseReservation, db.GetReservation. by rewrite Hr.
Qed.

(** The transaction of ReleaseReservation has no condition: it commits. *)
Lemma ReleaseReservation_holder id username now t r :
  getItem id (Reservations t) = Some r ->
  Holder r = username ->
  db.ReleaseReservation id username now t
  = (Ok tt,
     {| Environments :=
          updateEnvironment (EnvironmentID r) StatusFree now (Environments t);
        Reservations := updateItem id now now (Reservations t) |}).
Proof.
  intros Hr Hh. unfold db.ReleaseReservation, db.GetReservation.
  rewrite Hr. apply String.eqb_eq in Hh. by rewrite Hh.
Qed.

(** * Lemmas on the handlers *)

(** Past the method, the context and the body, a request that passes the
    validation is answered by the lookup and the repository call. *)
Lemma CreateReservation_valid r user req now repoNow newID t :
  handlers.Method r = "POST" ->
  handlers.ContextUser r = handlers.UserValue user ->
  handlers.Body r = Some req ->
  spec.passesValidation req = true ->
  handlers.CreateReservation r now repoNow newID t
  = match Environments t !! ReqEnvironmentID req with
    | None =>
        (handlers.RespondWithError handlers.StatusNotFound "Environment not found", t)
    | Some env =>
        if negb (String.eqb (Status env) StatusFree)
        then (handlers.RespondWithError handlers.StatusBadRequest
                "Environment is already reserved", t)
        else
          match db.CreateReservation (handlers.newReservation user req now)
                  newID repoNow t with
          | (Err e, t') =>
              (handlers.RespondWithError handlers.StatusInternalServerError
                 ("Failed to create reservation: " +:+ e), t')
          | (Ok createdReservation, t') =>
              (handlers.RespondWithSuccess (handlers.ReservationData createdReservation), t')
          end
    end.
Proof.
  intros Hm Hu Hb Hv. unfold handlers.CreateReservation.
  rewrite Hm, Hu, Hb. simpl.
  unfold spec.passesValidation in Hv.
  repeat (apply andb_true_iff in Hv as [Hv ?]).
  repeat match goal with
         | H : negb ?b = true |- _ => apply negb_true_iff in H; rewrite H
         end.
  reflexivity.
Qed.

(** A request that does not pass the validation gets one of the four
    validation errors, and the tables are returned as they were. *)
Lemma CreateReservation_invalid r user req now repoNow newID t :
  handlers.Method r = "POST" ->
  handlers.ContextUser r = handlers.UserValue user ->
  handlers.Body r = Some req ->
  spec.passesValidation req = false ->
  spec.isValidationError (fst (handlers.CreateReservation r now repoNow newID t)) = true
  /\ snd (handlers.CreateReservation r now repoNow newID t) = t.
Proof.
  intros Hm Hu Hb Hv. unfold handlers.CreateReservation.
  rewrite Hm, Hu, Hb. simpl.
  unfold spec.passesValidation in Hv.
  destruct (handlers.isEmpty (ReqEnvironmentID req)); [done|].
  destruct (DurationMins req <? 10); [done|].
  destruct (4320 <? DurationMins req); [done|].
  destruct (handlers.isEmpty (ReqFeature req)); [done|].
  discriminate Hv.
Qed.

(** What the validation accepts. *)
Lemma passesValidation_iff req :
  spec.passesValidation req = false
  <-> DurationMins req < 10 \/ DurationMins req > 4320
      \/ ReqFeature req = "" \/ ReqEnvironmentID req = "".
Proof.
  unfold spec.passesValidation, handlers.isEmpty.
  destruct (String.eqb_spec (ReqEnvironmentID req) "") as [E1|E1];
    destruct (Z.ltb_spec (DurationMins req) 10) as [E2|E2];
    destruct (Z.ltb_spec 4320 (DurationMins req)) as [E3|E3];
    destruct (String.eqb_spec (ReqFeature req) "") as [E4|E4];
    simpl; split; try done; try tauto; try (intros _; lia);
    intros [?|[?|[?|?]]]; try lia; contradiction.
Qed.

Lemma ReleaseReservation_authenticated r user now t :
  handlers.Method r = "POST" ->
  handlers.ContextUser r = handlers.UserValue user ->
  handlers.VarID r <> "" ->
  handlers.ReleaseReservation r now t
  = match db.ReleaseReservation (handlers.VarID r) (Username user) now t with
    | (Err e, t') =>
        (handlers.RespondWithError handlers.StatusInternalServerError
           ("Failed to release reservation: " +:+ e), t')
    | (Ok _, t') =>
        (handlers.RespondWithSuccess
           (handlers.MessageData "Reservation released successfully"), t')
    end.
Proof.
  intros Hm Hu Hid. unfold handlers.ReleaseReservation.
  rewrite Hm, Hu. simpl.
  apply String.eqb_neq in Hid. unfold handlers.isEmpty. by rewrite Hid.
Qed.

(** * Lemmas on the sweeper *)

Lemma sweep_cons now r rest t :
  db.sweep now (r :: rest) t
  = if EndTime r <? now
    then match db.UpdateEnvironmentStatus (EnvironmentID r) StatusFree now t with
         | (Err e, t') => (Err (wrap "failed to update environment status" e), t')
         | (Ok _, t') => db.sweep now rest t'
         end
    else db.sweep now rest t.
Proof. reflexivity. Qed.

Lemma sweptFrom_refl now l m : spec.sweptFrom now l m m.
Proof. intros id. by left. Qed.

Lemma sweptFrom_later now r l m m' :
  spec.sweptFrom now l m m' -> spec.sweptFrom now (r :: l) m m'.
Proof.
  intros H k. destruct (H k) as [Hk | (e & x & H0 & Hk & Hx)]; [by left|].
  right. exists e, x. destruct Hx as (Hin & ? & ?).
  repeat split; try done. by right.
Qed.

Lemma sweptFrom_update now r l m m' e :
  EndTime r < now ->
  m !! EnvironmentID r = Some e ->
  spec.sweptFrom now l (<[EnvironmentID r := setStatus StatusFree now e]> m) m' ->
  spec.sweptFrom now (r :: l) m m'.
Proof.
  intros Hr He H k. destruct (H k) as [Hk | (e1 & x & H1 & Hk & Hin & Hid & Hx)].
  - destruct (decide (EnvironmentID r = k)) as [<-|Hne].
    + right. exists e, r. rewrite Hk, lookup_insert_eq.
      repeat split; try done. by left.
    + left. by rewrite Hk, lookup_insert_ne.
  - destruct (decide (EnvironmentID r = k)) as [<-|Hne].
    + right. exists e, r.
      rewrite lookup_insert_eq in H1. injection H1 as <-. rewrite Hk.
      repeat split; try done. by left.
    + right. exists e1, x. rewrite lookup_insert_ne in H1 by done.
      repeat split; try done. by right.
Qed.

(** The loop writes nothing to the reservations, and to the environments
    only FREE at [now], on entries that exist and for a lapsed entry of the
    listing. *)
Lemma sweep_frame now l :
  forall t,
    Reservations (snd (db.sweep now l t)) = Reservations t
    /\ spec.sweptFrom now l (Environments t) (Environments (snd (db.sweep now l t))).
Proof.
  induction l as [|r rest IH]; intros t.
  - split; [done | apply sweptFrom_refl].
  - rewrite sweep_cons. destruct (EndTime r <? now) eqn:Hx.
    2: { destruct (IH t) as [IHr IHe]. split; [done|]. by apply sweptFrom_later. }
    apply Z.ltb_lt in Hx.
    destruct (Environments t !! EnvironmentID r) as [e|] eqn:He.
    + rewrite (UpdateEnvironmentStatus_present _ StatusFree now t e He).
      destruct (IH {| Environments :=
                        <[EnvironmentID r := setStatus StatusFree now e]> (Environments t);
                      Reservations := Reservations t |}) as [IHr IHe].
      split; [exact IHr|]. exact (sweptFrom_update now r rest _ _ e Hx He IHe).
    + rewrite (UpdateEnvironmentStatus_absent _ StatusFree now t He).
      split; [done | apply sweptFrom_refl].
Qed.

Lemma sweptFrom_keeps_free now l m m' id :
  spec.sweptFrom now l m m' ->
  Status <$> m !! id = Some StatusFree ->
  Status <$> m' !! id = Some StatusFree.
Proof.
  intros H Hf. destruct (H id) as [Hk | (e & x & _ & Hk & _)]; rewrite Hk; done.
Qed.

Lemma sweptFrom_keeps_absent now l m m' id :
  spec.sweptFrom now l m m' -> m' !! id = None -> m !! id = None.
Proof.
  intros H Hn. destruct (H id) as [Hk | (e & x & _ & Hk & _)]; congruence.
Qed.

(** A loop that returns no error has set the environment of every lapsed
    entry of the listing to FREE. *)
Lemma sweep_Ok_frees now l :
  forall t t',
    db.sweep now l t = (Ok tt, t') ->
    forall r, In r l -> EndTime r < now ->
              spec.statusOf (EnvironmentID r) t' = Some StatusFree.
Proof.
  induction l as [|x rest IH]; intros t t' Hs r Hin Hr; [destruct Hin|].
  rewrite sweep_cons in Hs.
  destruct (EndTime x <? now) eqn:Hx.
  - destruct (Environments t !! EnvironmentID x) as [e|] eqn:He.
    + rewrite (UpdateEnvironmentStatus_present _ StatusFree now t e He) in Hs.
      destruct Hin as [->|Hin]; [|by eapply IH].
      pose proof (sweep_frame now rest
                    {| Environments :=
                         <[EnvironmentID r := setStatus StatusFree now e]> (Environments t);
                       Reservations := Reservations t |}) as [_ Hf].
      rewrite Hs in Hf. simpl in Hf. unfold spec.statusOf.
      apply (sweptFrom_keeps_free now rest _ _ _ Hf). by rewrite lookup_insert_eq.
    + rewrite (UpdateEnvironmentStatus_absent _ StatusFree now t He) in Hs.
      discriminate Hs.
  - destruct Hin as [->|Hin]; [|by eapply IH].
    apply Z.ltb_ge in Hx. lia.
Qed.

(** A loop that returns an error stopped at the first lapsed entry whose
    environment is not in the table: the tables are those reached after the
    entries before it. *)
Lemma sweep_Err_stops now l :
  forall t t' e,
    db.sweep now l t = (Err e, t') ->
    exists before failed rest,
      l = before ++ failed :: rest
      /\ EndTime failed < now
      /\ Environments t' !! EnvironmentID failed = None
      /\ db.sweep now before t = (Ok tt, t')
      /\ e = spec.sweepFailure.
Proof.
  induction l as [|x rest IH]; intros t t' e Hs; [discriminate Hs|].
  rewrite sweep_cons in Hs.
  destruct (EndTime x <? now) eqn:Hx.
  - destruct (Environments t !! EnvironmentID x) as [env|] eqn:He.
    + rewrite (UpdateEnvironmentStatus_present _ StatusFree now t env He) in Hs.
      destruct (IH _ t' e Hs) as (before & failed & rest' & -> & Hf & Hn & Hb & ->).
      exists (x :: before), failed, rest'.
      split; [done|]. split; [done|]. split; [done|]. split; [|done].
      rewrite sweep_cons, Hx.
      by rewrite (UpdateEnvironmentStatus_present _ StatusFree now t env He).
    + rewrite (UpdateEnvironmentStatus_absent _ StatusFree now t He) in Hs.
      injection Hs as <- <-.
      exists [], x, rest. apply Z.ltb_lt in Hx. done.
  - destruct (IH _ t' e Hs) as (before & failed & rest' & -> & Hf & Hn & Hb & ->).
    exists (x :: before), failed, rest'.
    split; [done|]. split; [done|]. split; [done|]. split; [|done].
    by rewrite sweep_cons, Hx.
Qed.

(** * Lemmas on the system *)

Lemma reachable_run init start steps :
  forall clock t,
    system.reachable init start clock t ->
    spec.admissibleFrom clock t steps = true ->
    system.reachable init start (spec.clockAtEnd clock steps) (system.run steps t).
Proof.
  induction steps as [|s steps IH]; intros clock t Hr Ha; simpl in *; [done|].
  apply andb_true_iff in Ha as [Hs Hrest].
  apply (IH (system.clockAfter s) (system.exec s t)); [|done].
  by eapply system.reachable_step.
Qed.

(** What a Reserve step does to the tables: nothing, or the commit on a
    free environment. *)
Lemma exec_Reserve user req now repoNow newID t :
  system.exec (system.Reserve user req now repoNow newID) t = t
  \/ exists env r,
       Environments t !! ReqEnvironmentID req = Some env
       /\ Status env = StatusFree
       /\ ID r = newID
       /\ EnvironmentID r = ReqEnvironmentID req
       /\ system.exec (system.Reserve user req now repoNow newID) t
          = {| Environments :=
                 updateEnvironment (ReqEnvironmentID req) StatusReserved repoNow
                   (Environments t);
               Reservations := putItem r (Reservations t) |}.
Proof.
  unfold system.exec.
  set (r := system.post user (Some req) "").
  destruct (spec.passesValidation req) eqn:Hv.
  2: { left. apply (CreateReservation_invalid r user req); done. }
  rewrite (CreateReservation_valid r user req now repoNow newID t) by done.
  destruct (Environments t !! ReqEnvironmentID req) as [env|] eqn:He; [|by left].
  destruct (String.eqb_spec (Status env) StatusFree) as [Hs|Hs]; [|by left].
  simpl negb. cbv iota.
  rewrite (CreateReservation_free (handlers.newReservation user req now)
             newID repoNow t env He Hs).
  right. exists env, (db.stamp newID repoNow (handlers.newReservation user req now)).
  done.
Qed.

(** What a Release step does to the tables: nothing, or the commit for
    the holder. *)
Lemma exec_Release user id now t :
  system.exec (system.Release user id now) t = t
  \/ exists r,
       getItem id (Reservations t) = Some r
       /\ Holder r = Username user
       /\ system.exec (system.Release user id now) t
          = {| Environments :=
                 updateEnvironment (EnvironmentID r) StatusFree now (Environments t);
               Reservations := updateItem id now now (Reservations t) |}.
Proof.
  unfold system.exec.
  set (q := system.post user None id).
  destruct (String.eqb_spec id "") as [->|Hid]; [by left|].
  rewrite (ReleaseReservation_authenticated q user now t) by done.
  simpl handlers.VarID.
  destruct (getItem id (Reservations t)) as [r|] eqn:Hr.
  2: { left. by rewrite (ReleaseReservation_not_found id _ now t Hr). }
  destruct (String.eqb_spec (Holder r) (Username user)) as [Hh|Hh].
  2: { left. by rewrite (ReleaseReservation_not_holder id _ now t r Hr Hh). }
  right. exists r. by rewrite (ReleaseReservation_holder id _ now t r Hr Hh).
Qed.

(** What a sweeper cycle does to the tables. *)
Lemma exec_SweeperCycle listNow now t :
  Reservations (system.exec (system.SweeperCycle listNow now) t) = Reservations t
  /\ spec.sweptFrom now (Scan (db.activeAt listNow) t) (Environments t)
       (Environments (system.exec (system.SweeperCycle listNow now) t)).
Proof.
  unfold system.exec, main.tick, db.CheckExpiredReservations, db.ListActiveReservations.
  pose proof (sweep_frame now (Scan (db.activeAt listNow) t) t) as H.
  by destruct (db.sweep now (Scan (db.activeAt listNow) t) t) as [[[]|e] t'].
Qed.

(** ** The active reservations of an environment along a trace *)

Lemma at_most_one_In {A} (l : list A) (x : A) :
  (length l <= 1)%nat -> In x l -> l = [x].
Proof.
  destruct l as [|y [|z l]]; simpl; intros Hl Hin; [done | | lia].
  by destruct Hin as [->|[]].
Qed.

Lemma activeAt_earlier clock clock' r :
  clock <= clock' -> db.activeAt clock' r = true -> db.activeAt clock r = true.
Proof.
  unfold db.activeAt. intros Hc H. apply Z.ltb_lt in H. apply Z.ltb_lt. lia.
Qed.

(** Time only removes reservations from the active ones. *)
Lemma activeOn_later id clock clock' t :
  clock <= clock' ->
  system.activeOn id clock' t
  = List.filter (db.activeAt clock') (system.activeOn id clock t).
Proof.
  intros Hc. unfold system.activeOn.
  induction (Reservations t) as [|r l IH]; simpl; [done|].
  destruct (String.eqb (EnvironmentID r) id); simpl.
  - destruct (db.activeAt clock' r) eqn:E'.
    + rewrite (activeAt_earlier clock clock' r Hc E'). simpl. by rewrite E', IH.
    + destruct (db.activeAt clock r); simpl; [by rewrite E'|]; exact IH.
  - exact IH.
Qed.

Lemma consistent_later clock clock' t :
  clock <= clock' -> system.consistent clock t -> system.consistent clock' t.
Proof.
  intros Hc [Hmutex Hfree]. split.
  - intros id. rewrite (activeOn_later id clock clock' t Hc).
    etransitivity; [apply List.filter_length_le | apply Hmutex].
  - intros id e He Hs. rewrite (activeOn_later id clock clock' t Hc).
    by rewrite (Hfree id e He Hs).
Qed.

(** Reserve: the new record is the only active one of its environment. *)
Lemma consistent_Reserve clock t user req now repoNow newID :
  system.admissible clock t (system.Reserve user req now repoNow newID) = true ->
  system.consistent clock t ->
  system.consistent repoNow
    (system.exec (system.Reserve user req now repoNow newID) t).
Proof.
  intros Ha Hc. simpl in Ha.
  repeat (apply andb_true_iff in Ha as [Ha ?]).
  assert (Hle : clock <= repoNow) by (apply Z.leb_le in Ha; apply Z.leb_le in H1; lia).
  apply (consistent_later clock repoNow t Hle) in Hc.
  destruct (exec_Reserve user req now repoNow newID t)
    as [-> | (env & r & He & Hs & Hid & Henv & ->)]; [done|].
  destruct (getItem newID (Reservations t)) eqn:Hnew; [done|].
  destruct Hc as [Hmutex Hfree].
  assert (Hput : putItem r (Reservations t) = Reservations t ++ [r])
    by (apply putItem_new; by rewrite Hid).
  assert (Hact : forall id,
             system.activeOn id repoNow
               {| Environments :=
                    updateEnvironment (ReqEnvironmentID req) StatusReserved repoNow
                      (Environments t);
                  Reservations := putItem r (Reservations t) |}
             = system.activeOn id repoNow t
               ++ List.filter
                    (fun x => String.eqb (EnvironmentID x) id && db.activeAt repoNow x)
                    [r]).
  { intros id. unfold system.activeOn; simpl Reservations.
    by rewrite Hput, List.filter_app. }
  split.
  - intros id. rewrite Hact.
    destruct (String.eqb_spec (EnvironmentID r) id) as [E|E].
    + rewrite <- E, Henv, (Hfree _ env He Hs). simpl.
      destruct (_ && _); simpl; lia.
    + simpl. rewrite (proj2 (String.eqb_neq _ _) E). simpl.
      rewrite app_nil_r. apply Hmutex.
  - intros id e Hlook Hst. simpl in Hlook. rewrite Hact.
    destruct (decide (ReqEnvironmentID req = id)) as [<-|Hne].
    + pose proof (updateEnvironment_lookup (ReqEnvironmentID req) StatusReserved
                    repoNow (Environments t)) as Hu.
      rewrite Hlook in Hu. simpl in Hu. rewrite Hst in Hu. discriminate Hu.
    + rewrite updateEnvironment_lookup_ne in Hlook by done.
      rewrite (Hfree id e Hlook Hst). simpl.
      rewrite Henv, (proj2 (String.eqb_neq _ _) Hne). done.
Qed.

(** Release of an active reservation: it was the only active one of its
    environment, and is active no more. *)
Lemma consistent_Release clock t user id now :
  system.admissible clock t (system.Release user id now) = true ->
  system.releasesActive t (system.Release user id now) = true ->
  system.consistent clock t ->
  system.consistent now (system.exec (system.Release user id now) t).
Proof.
  intros Ha Hact Hc. simpl in Ha. apply Z.leb_le in Ha.
  apply (consistent_later clock now t Ha) in Hc.
  destruct (exec_Release user id now t) as [-> | (r & Hr & Hh & ->)]; [done|].
  simpl in Hact. rewrite Hr, Hh, String.eqb_refl in Hact. simpl in Hact.
  destruct (updateItem_split id now now (Reservations t) r Hr) as (l1 & l2 & Hl & Hl').
  destruct Hc as [Hmutex Hfree].
  set (P := fun k x => String.eqb (EnvironmentID x) k && db.activeAt now x).
  assert (Hnew : forall k,
             system.activeOn k now
               {| Environments :=
                    updateEnvironment (EnvironmentID r) StatusFree now (Environments t);
                  Reservations := updateItem id now now (Reservations t) |}
             = List.filter (P k) l1 ++ List.filter (P k) l2).
  { intros k. unfold system.activeOn; simpl Reservations. fold (P k).
    rewrite Hl', List.filter_app. simpl.
    replace (P k (setEndTime now now r)) with false; [done|].
    unfold P, db.activeAt; simpl. rewrite Z.ltb_irrefl. by rewrite andb_false_r. }
  assert (Hold : forall k,
             system.activeOn k now t
             = List.filter (P k) l1 ++ List.filter (P k) (r :: l2)).
  { intros k. unfold system.activeOn. fold (P k). by rewrite Hl, List.filter_app. }
  split.
  - intros k. rewrite Hnew. specialize (Hmutex k). rewrite Hold in Hmutex.
    rewrite length_app in *. simpl in Hmutex.
    destruct (P k r); simpl in Hmutex; lia.
  - intros k e Hlook Hst. simpl in Hlook. rewrite Hnew.
    destruct (decide (EnvironmentID r = k)) as [<-|Hne].
    + specialize (Hmutex (EnvironmentID r)). rewrite Hold in Hmutex.
      rewrite length_app in Hmutex. simpl in Hmutex.
      assert (HP : P (EnvironmentID r) r = true)
        by (unfold P; by rewrite String.eqb_refl, Hact).
      rewrite HP in Hmutex. simpl in Hmutex.
      destruct (List.filter (P (EnvironmentID r)) l1); [|simpl in Hmutex; lia].
      destruct (List.filter (P (EnvironmentID r)) l2); [done|simpl in Hmutex; lia].
    + rewrite updateEnvironment_lookup_ne in Hlook by done.
      pose proof (Hfree k e Hlook Hst) as Hnil. rewrite Hold in Hnil.
      apply app_eq_nil in Hnil as [H1 H2]. rewrite H1. simpl in H2.
      destruct (P k r); [discriminate H2 | by rewrite H2].
Qed.

(** A sweeper cycle frees only environments whose one active reservation
    lapsed between its two readings of the clock. *)
Lemma consistent_SweeperCycle clock t listNow now :
  system.admissible clock t (system.SweeperCycle listNow now) = true ->
  system.consistent clock t ->
  system.consistent now (system.exec (system.SweeperCycle listNow now) t).
Proof.
  intros Ha Hc. simpl in Ha. apply andb_true_iff in Ha as [H1 H2].
  apply Z.leb_le in H1. apply Z.leb_le in H2.
  apply (consistent_later clock listNow t H1) in Hc.
  destruct (exec_SweeperCycle listNow now t) as [Hres Henv].
  set (t' := system.exec (system.SweeperCycle listNow now) t) in *.
  assert (Hsame : forall k, system.activeOn k now t' = system.activeOn k now t)
    by (intros k; unfold system.activeOn; by rewrite Hres).
  pose proof (consistent_later listNow now t H2 Hc) as [Hmutex Hfree].
  split.
  - intros k. rewrite Hsame. apply Hmutex.
  - intros k e Hlook Hst. rewrite Hsame.
    destruct (Henv k) as [Hk | (e0 & r & H0 & Hk & Hin & Hid & Hlapsed)].
    + rewrite Hk in Hlook. exact (Hfree k e Hlook Hst).
    + unfold Scan in Hin. apply List.filter_In in Hin as [Hin Hactive].
      assert (Hr : In r (system.activeOn k listNow t)).
      { unfold system.activeOn. apply List.filter_In. split; [done|].
        by rewrite Hid, String.eqb_refl, Hactive. }
      destruct Hc as [Hm _].
      rewrite (activeOn_later k listNow now t H2).
      rewrite (at_most_one_In _ r (Hm k) Hr). simpl.
      unfold db.activeAt. by rewrite (proj2 (Z.ltb_ge _ _)) by lia.
Qed.

(** Mutual exclusion without stale releases: as long as no holder releases
    a reservation that is no longer active, every reachable state has at
    most one active reservation per environment, and none on an
    environment whose status is FREE. *)
Theorem consistent_reachableActive init start clock t :
  system.pristine init ->
  system.reachableActive init start clock t ->
  system.consistent clock t.
Proof.
  intros [Hnone Hfree]. induction 1 as [|clock t s Hr IH Ha Hs].
  - split; intros id; unfold system.activeOn; rewrite Hnone; simpl; [lia | done].
  - destruct s as [user req now repoNow newID | user id now | listNow now];
      simpl system.clockAfter.
    + by apply (consistent_Reserve clock).
    + by apply (consistent_Release clock).
    + by apply (consistent_SweeperCycle clock).
Qed.

(** * The claims *)

(** C1 (mutual exclusion), evaluated on the code: from a catalogue with one
    free environment and no reservation, the admissible trace
    [scenario.doubleRelease] (a second Release of a reservation that was
    already released, while another holder has the environment) reaches a
    state in which two reservations of [env-1] are active at once. *)
Theorem C1_double_release_breaks_mutual_exclusion :
  system.pristine sample.oneFree
  /\ system.reachable sample.oneFree 0 40
       (system.run scenario.doubleRelease sample.oneFree)
  /\ length (system.activeOn "env-1" 40
               (system.run scenario.doubleRelease sample.oneFree)) = 2%nat
  /\ ~ system.mutualExclusion 40 (system.run scenario.doubleRelease sample.oneFree).
Proof.
  assert (E : length (system.activeOn "env-1" 40
                 (system.run scenario.doubleRelease sample.oneFree)) = 2%nat)
    by (by vm_compute).
  split; [|split; [|split]].
  - split; [done|]. intros id e H. simpl in H.
    apply lookup_singleton_Some in H as [_ <-]. done.
  - apply (reachable_run sample.oneFree 0 scenario.doubleRelease 0 sample.oneFree).
    + constructor.
    + by vm_compute.
  - exact E.
  - intros H. specialize (H "env-1"). rewrite E in H. lia.
Qed.

(** C2 (sweep correctness), evaluated on the code: a cycle lists the
    reservations that are still active at its first reading of the clock,
    so when every reservation has lapsed by then the cycle succeeds and
    changes nothing; no environment is set to FREE. *)
Theorem C2_lapsed_reservations_are_not_swept listNow now t :
  Forall (fun r => EndTime r <= listNow) (Reservations t) ->
  db.CheckExpiredReservations listNow now t = (Ok tt, t).
Proof.
  intros H. unfold db.CheckExpiredReservations, db.ListActiveReservations, Scan.
  assert (E : List.filter (db.activeAt listNow) (Reservations t) = []).
  { induction H as [|r l Hr _ IH]; simpl; [done|].
    unfold db.activeAt at 1.
    destruct (listNow <? EndTime r) eqn:E; [apply Z.ltb_lt in E; lia | exact IH]. }
  by rewrite E.
Qed.

(** The scenario of the specification: a ten minute reservation made at
    time 0 and a cycle run eleven minutes later.  The environment stays
    RESERVED. *)
Lemma C2_ten_minutes_witness :
  Forall (fun r => EndTime r <= 660) (Reservations scenario.tenMinutes)
  /\ db.CheckExpiredReservations 660 660 scenario.tenMinutes
     = (Ok tt, scenario.tenMinutes)
  /\ EndTime <$> getItem "r1" (Reservations scenario.tenMinutes) = Some 600
  /\ spec.statusOf "env-1" scenario.tenMinutes = Some StatusReserved.
Proof.
  assert (H : Forall (fun r => EndTime r <= 660) (Reservations scenario.tenMinutes)).
  { vm_compute. repeat constructor. discriminate. }
  split; [exact H|]. split; [|split].
  - exact (C2_lapsed_reservations_are_not_swept 660 660 scenario.tenMinutes H).
  - by vm_compute.
  - by vm_compute.
Defined.

(** With the same tables at each call, the functions of
    [interleaved_db] and [interleaved_handlers] are those of [db] and
    [handlers]. *)
Lemma interleaved_db_sequential reservation newID now t :
  interleaved_db.CreateReservation reservation newID now t t
  = db.CreateReservation reservation newID now t.
Proof. reflexivity. Qed.

Lemma interleaved_handlers_sequential r now repoNow newID t :
  interleaved_handlers.CreateReservation r now repoNow newID t t t
  = handlers.CreateReservation r now repoNow newID t.
Proof. reflexivity. Qed.







(** C4: Release of an existing reservation by its holder succeeds, sets the
    reservation's endTime (and lastUpdated) to the release time and leaves
    the environment FREE.  Nothing is assumed of the environment's prior
    status, nor of the reservation's endTime. *)
Theorem C4_release_by_holder id username now t r :
  getItem id (Reservations t) = Some r ->
  Holder r = username ->
  exists t',
    db.ReleaseReservation id username now t = (Ok tt, t')
    /\ getItem id (Reservations t') = Some (setEndTime now now r)
    /\ EndTime <$> getItem id (Reservations t') = Some now
    /\ spec.statusOf (EnvironmentID r) t' = Some StatusFree.
Proof.
  intros Hr Hh. eexists. split; [exact (ReleaseReservation_holder id _ now t r Hr Hh)|].
  simpl. pose proof (getItem_updateItem id now now (Reservations t) r Hr) as Hg.
  split; [exact Hg|]. split; [by rewrite Hg|].
  unfold spec.statusOf; simpl. apply updateEnvironment_lookup.
Qed.

(** Release of a reservation that lapsed at 600, at time 700, on an
    environment that is free already; and release of a running
    reservation on a reserved environment. *)
Lemma C4_release_by_holder_witness :
  (exists t',
      db.ReleaseReservation "r1" "alice" 700 scenario.lapsedAndFree = (Ok tt, t')
      /\ getItem "r1" (Reservations t')
         = Some (setEndTime 700 700 (sample.reservation "r1" "env-1" "alice" 0 600))
      /\ EndTime <$> getItem "r1" (Reservations t') = Some 700
      /\ spec.statusOf "env-1" t' = Some StatusFree)
  /\ (exists t',
      db.ReleaseReservation "r1" "bob" 100 scenario.held = (Ok tt, t')
      /\ getItem "r1" (Reservations t')
         = Some (setEndTime 100 100 (sample.reservation "r1" "env-1" "bob" 0 1800))
      /\ EndTime <$> getItem "r1" (Reservations t') = Some 100
      /\ spec.statusOf "env-1" t' = Some StatusFree).
Proof.
  split.
  - apply (C4_release_by_holder "r1" "alice" 700 scenario.lapsedAndFree
             (sample.reservation "r1" "env-1" "alice" 0 600)); reflexivity.
  - apply (C4_release_by_holder "r1" "bob" 100 scenario.held
             (sample.reservation "r1" "env-1" "bob" 0 1800)); reflexivity.
Defined.

(** C5 as the specification states it fails on the code: in
    [scenario.orphanFirst] the update for the first listed reservation
    fails, and the environment of the second, which lapsed too and is in
    the table, is still RESERVED after the cycle. *)
Lemma C5_failures_are_not_skipped :
  ~ spec.failuresAreSkipped 599 601 scenario.orphanFirst.
Proof.
  intros H.
  specialize (H (sample.reservation "r2" "env-2" "bob" 0 600)
                (sample.environment "env-2" StatusReserved)).
  assert (E : spec.statusOf "env-2"
                (snd (db.CheckExpiredReservations 599 601 scenario.orphanFirst))
              = Some StatusReserved) by (by vm_compute).
  simpl EnvironmentID in H. rewrite E in H.
  assert (Some StatusReserved = Some StatusFree) as [=].
  apply H.
  - right; left; reflexivity.
  - by vm_compute.
  - reflexivity.
Qed.

(** C5, amended: a cycle processes the listing in order.  When it returns
    no error, the environment of every lapsed reservation of the listing is
    FREE.  When it returns an error, it stopped at the first lapsed
    reservation whose environment is not in the table: the environments of
    the lapsed reservations listed before it are FREE, the tables are those
    reached after these (nothing listed after the failure was processed),
    and the ticker loop logs the error. *)
Theorem C5_cycle_stops_at_first_failure listNow now t :
  match db.CheckExpiredReservations listNow now t with
  | (Ok _, t') =>
      main.tick listNow now t = (t', [])
      /\ forall r, In r (Scan (db.activeAt listNow) t) -> EndTime r < now ->
                   spec.statusOf (EnvironmentID r) t' = Some StatusFree
  | (Err e, t') =>
      exists before failed rest,
        Scan (db.activeAt listNow) t = before ++ failed :: rest
        /\ EndTime failed < now
        /\ Environments t !! EnvironmentID failed = None
        /\ db.sweep now before t = (Ok tt, t')
        /\ (forall r, In r before -> EndTime r < now ->
                      spec.statusOf (EnvironmentID r) t' = Some StatusFree)
        /\ e = spec.sweepFailure
        /\ main.tick listNow now t
           = (t', ["Error checking expired reservations: " +:+ spec.sweepFailure])
  end.
Proof.
  unfold main.tick, db.CheckExpiredReservations, db.ListActiveReservations.
  destruct (db.sweep now (Scan (db.activeAt listNow) t) t) as [[[]|e] t'] eqn:Hs.
  - split; [done|]. exact (sweep_Ok_frees now _ t t' Hs).
  - destruct (sweep_Err_stops now _ t t' e Hs)
      as (before & failed & rest & Hl & Hf & Hn & Hb & ->).
    exists before, failed, rest.
    split; [done|]. split; [done|]. split.
    { pose proof (sweep_frame now before t) as [_ Hfr]. rewrite Hb in Hfr.
      exact (sweptFrom_keeps_absent now before _ _ _ Hfr Hn). }
    split; [done|]. split; [exact (sweep_Ok_frees now _ t t' Hb)|]. done.
Qed.

(** The cycle over [scenario.orphanFirst] stops at its first entry. *)
Lemma C5_cycle_stops_witness :
  exists t',
    db.CheckExpiredReservations 599 601 scenario.orphanFirst
    = (Err spec.sweepFailure, t')
    /\ db.sweep 601 [] scenario.orphanFirst = (Ok tt, t')
    /\ main.tick 599 601 scenario.orphanFirst
       = (t', ["Error checking expired reservations: " +:+ spec.sweepFailure]).
Proof.
  pose proof (C5_cycle_stops_at_first_failure 599 601 scenario.orphanFirst) as H.
  assert (E : db.CheckExpiredReservations 599 601 scenario.orphanFirst
              = (Err spec.sweepFailure, scenario.orphanFirst)) by reflexivity.
  rewrite E in H.
  destruct H as (before & failed & rest & _ & _ & _ & _ & _ & _ & Ht).
  exists scenario.orphanFirst. split; [exact E|]. split; [reflexivity | exact Ht].
Defined.

(** C6: a Reserve request that reached validation is answered with one of
    the four validation errors exactly when its duration is below 10 or
    above 4320 minutes, or its feature or its environment id is empty; the
    tables are then returned as they were. *)
Theorem C6_validation r user req now repoNow newID t :
  handlers.Method r = "POST" ->
  handlers.ContextUser r = handlers.UserValue user ->
  handlers.Body r = Some req ->
  (spec.isValidationError (fst (handlers.CreateReservation r now repoNow newID t)) = true
   <-> DurationMins req < 10 \/ DurationMins req > 4320
       \/ ReqFeature req = "" \/ ReqEnvironmentID req = "")
  /\ (spec.isValidationError (fst (handlers.CreateReservation r now repoNow newID t)) = true ->
      snd (handlers.CreateReservation r now repoNow newID t) = t).
Proof.
  intros Hm Hu Hb.
  rewrite <- passesValidation_iff.
  destruct (spec.passesValidation req) eqn:Hv.
  - (* the request is valid: the answer is none of the four *)
    rewrite (CreateReservation_valid r user req now repoNow newID t Hm Hu Hb Hv).
    assert (Hresp : forall out,
               out = match Environments t !! ReqEnvironmentID req with
                     | None =>
                         (handlers.RespondWithError handlers.StatusNotFound
                            "Environment not found", t)
                     | Some env =>
                         if negb (String.eqb (Status env) StatusFree)
                         then (handlers.RespondWithError handlers.StatusBadRequest
                                 "Environment is already reserved", t)
                         else
                           match db.CreateReservation
                                   (handlers.newReservation user req now)
                                   newID repoNow t with
                           | (Err e, t') =>
                               (handlers.RespondWithError
                                  handlers.StatusInternalServerError
                                  ("Failed to create reservation: " +:+ e), t')
                           | (Ok createdReservation, t') =>
                               (handlers.RespondWithSuccess
                                  (handlers.ReservationData createdReservation), t')
                           end
                     end ->
               spec.isValidationError (fst out) = false).
    { intros out ->.
      destruct (Environments t !! ReqEnvironmentID req) as [env|]; [|reflexivity].
      destruct (negb (String.eqb (Status env) StatusFree)); [reflexivity|].
      destruct (db.CreateReservation _ newID repoNow t) as [[created|e] t'];
        reflexivity. }
    rewrite (Hresp _ eq_refl). by split.
  - (* one of the four checks rejects it *)
    destruct (CreateReservation_invalid r user req now repoNow newID t Hm Hu Hb Hv)
      as [-> ->].
    by split.
Qed.

(** The boundaries: 9 and 4321 minutes are rejected, 10 and 4320 are not. *)
Lemma C6_validation_boundaries_witness :
  let answer minutes :=
    fst (handlers.CreateReservation
           (system.post (sample.user "alice")
              (Some (sample.request "env-1" minutes "login-flow")) "")
           0 0 "r1" sample.oneFree) in
  spec.isValidationError (answer 9) = true
  /\ spec.isValidationError (answer 10) = false
  /\ spec.isValidationError (answer 4320) = false
  /\ spec.isValidationError (answer 4321) = true.
Proof.
  pose (call minutes :=
          C6_validation
            (system.post (sample.user "alice")
               (Some (sample.request "env-1" minutes "login-flow")) "")
            (sample.user "alice") (sample.request "env-1" minutes "login-flow")
            0 0 "r1" sample.oneFree eq_refl eq_refl eq_refl).
  simpl. split; [|split; [|split]].
  - apply (proj2 (proj1 (call 9))). left. by vm_compute.
  - apply not_true_is_false. intros H. apply (proj1 (proj1 (call 10))) in H.
    destruct H as [H|[H|[H|H]]]; vm_compute in H; discriminate H.
  - apply not_true_is_false. intros H. apply (proj1 (proj1 (call 4320))) in H.
    destruct H as [H|[H|[H|H]]]; vm_compute in H; discriminate H.
  - apply (proj2 (proj1 (call 4321))). right; left. by vm_compute.
Defined.

(** C7: Release by anyone but the holder fails with the permission error,
    Release of an id that is not in the table fails with not-found; in both
    cases the tables (the reservation with its endTime, the environment
    with its status) are returned as they were. *)
Theorem C7_release_refused id username now t :
  (forall r,
      getItem id (Reservations t) = Some r ->
      Holder r <> username ->
      db.ReleaseReservation id username now t
      = (Err "you can only release your own reservations", t))
  /\ (getItem id (Reservations t) = None ->
      db.ReleaseReservation id username now t = (Err "reservation not found", t)).
Proof.
  split.
  - intros r. apply ReleaseReservation_not_holder.
  - apply ReleaseReservation_not_found.
Qed.

(** Alice tries to release Bob's reservation, and a reservation that does
    not exist. *)
Lemma C7_release_refused_witness :
  db.ReleaseReservation "r1" "alice" 100 scenario.held
  = (Err "you can only release your own reservations", scenario.held)
  /\ db.ReleaseReservation "r7" "alice" 100 scenario.held
     = (Err "reservation not found", scenario.held).
Proof.
  split.
  - apply (proj1 (C7_release_refused "r1" "alice" 100 scenario.held)
             (sample.reservation "r1" "env-1" "bob" 0 1800)).
    + reflexivity.
    + discriminate.
  - apply (proj2 (C7_release_refused "r7" "alice" 100 scenario.held)).
    reflexivity.
Defined.

(** C8 (error taxonomy), evaluated on the code: the Release handler answers
    every error of the repository with status 500.  An unknown reservation
    id and a reservation held by somebody else are both answered with 500,
    not with 404 and 403; only the text of the message tells them apart. *)
Theorem C8_release_errors_are_answered_500 r user now t :
  handlers.Method r = "POST" ->
  handlers.ContextUser r = handlers.UserValue user ->
  handlers.VarID r <> "" ->
  (getItem (handlers.VarID r) (Reservations t) = None ->
   handlers.ReleaseReservation r now t
   = (handlers.RespondWithError handlers.StatusInternalServerError
        "Failed to release reservation: reservation not found", t))
  /\ (forall held,
      getItem (handlers.VarID r) (Reservations t) = Some held ->
      Holder held <> Username user ->
      handlers.ReleaseReservation r now t
      = (handlers.RespondWithError handlers.StatusInternalServerError
           "Failed to release reservation: you can only release your own reservations",
         t)).
Proof.
  intros Hm Hu Hid.
  rewrite (ReleaseReservation_authenticated r user now t Hm Hu Hid).
  split.
  - intros Hr. by rewrite (ReleaseReservation_not_found _ _ now t Hr).
  - intros held Hr Hh. by rewrite (ReleaseReservation_not_holder _ _ now t held Hr Hh).
Qed.

(** Alice's Release of the unknown id [r7] and of Bob's reservation [r1]. *)
Lemma C8_release_errors_witness :
  handlers.Code
    (fst (handlers.ReleaseReservation
            (system.post (sample.user "alice") None "r7") 100 scenario.held)) = 500
  /\ handlers.Code
       (fst (handlers.ReleaseReservation
               (system.post (sample.user "alice") None "r1") 100 scenario.held)) = 500.
Proof.
  pose (call id :=
          C8_release_errors_are_answered_500
            (system.post (sample.user "alice") None id) (sample.user "alice")
            100 scenario.held eq_refl eq_refl).
  split.
  - rewrite (proj1 (call "r7" ltac:(discriminate)) eq_refl). reflexivity.
  - rewrite (proj2 (call "r1" ltac:(discriminate))
               (sample.reservation "r1" "env-1" "bob" 0 1800) eq_refl
               ltac:(discriminate)).
    reflexivity.
Defined.

(** C9: a Sweeper cycle returns the reservations table as it was; in the
    environments table it adds and removes nothing, and an entry differs
    from what it was in its status and lastUpdated at most. *)
Theorem C9_sweeper_writes_only_status listNow now t :
  Reservations (snd (db.CheckExpiredReservations listNow now t)) = Reservations t
  /\ forall id,
       match Environments t !! id,
             Environments (snd (db.CheckExpiredReservations listNow now t)) !! id with
       | Some e, Some e' => spec.sameButStatus e e'
       | None, None => True
       | _, _ => False
       end.
Proof.
  unfold db.CheckExpiredReservations, db.ListActiveReservations.
  destruct (sweep_frame now (Scan (db.activeAt listNow) t) t) as [Hr He].
  split; [exact Hr|]. intros id.
  destruct (He id) as [Hk | (e & r & H0 & Hk & _)]; rewrite Hk.
  - destruct (Environments t !! id); [by repeat split | done].
  - rewrite H0. by repeat split.
Qed.

(** C10: when CreateReservation succeeds, the stored record carries the
    generated id and the creation time in both createdAt and lastUpdated,
    whatever the caller put in these three fields. *)
Theorem C10_generated_id_and_timestamps reservation newID now t created t' :
  db.CreateReservation reservation newID now t = (Ok created, t') ->
  ID created = newID
  /\ CreatedAt created = now
  /\ LastUpdated created = now
  /\ getItem newID (Reservations t') = Some created
  /\ forall id createdAt lastUpdated,
       db.CreateReservation
         (spec.withCallerFields id createdAt lastUpdated reservation) newID now t
       = (Ok created, t').
Proof.
  intros H.
  destruct (Environments t !! EnvironmentID reservation) as [env|] eqn:He.
  2: { by rewrite (CreateReservation_not_found reservation newID now t He) in H. }
  destruct (String.eqb_spec (Status env) StatusFree) as [Hs|Hs].
  2: { by rewrite (CreateReservation_not_free reservation newID now t env He Hs) in H. }
  rewrite (CreateReservation_free reservation newID now t env He Hs) in H.
  injection H as <- <-.
  split; [done|]. split; [done|]. split; [done|]. split.
  - apply (getItem_putItem (db.stamp newID now reservation)).
  - intros id createdAt lastUpdated.
    apply (CreateReservation_free
             (spec.withCallerFields id createdAt lastUpdated reservation)
             newID now t env He Hs).
Qed.

(** A caller that fills in the id and both timestamps gets the generated
    id and the creation time all the same. *)
Lemma C10_generated_id_witness :
  exists created t',
    db.CreateReservation
      (spec.withCallerFields "chosen-by-caller" 1 2
         (sample.reservation "" "env-1" "alice" 100 700))
      "generated" 100 sample.oneFree = (Ok created, t')
    /\ ID created = "generated"
    /\ CreatedAt created = 100
    /\ LastUpdated created = 100
    /\ getItem "generated" (Reservations t') = Some created.
Proof.
  eexists. eexists.
  assert (E : db.CreateReservation
                (spec.withCallerFields "chosen-by-caller" 1 2
                   (sample.reservation "" "env-1" "alice" 100 700))
                "generated" 100 sample.oneFree
              = (Ok (db.stamp "generated" 100
                       (sample.reservation "" "env-1" "alice" 100 700)),
                 snd (db.CreateReservation
                        (sample.reservation "" "env-1" "alice" 100 700)
                        "generated" 100 sample.oneFree)))
    by reflexivity.
  split; [exact E|].
  destruct (C10_generated_id_and_timestamps _ _ _ _ _ _ E) as (H1 & H2 & H3 & H4 & _).
  auto.
Defined.

(** * Further properties of the reservation engine *)

Lemma passesValidation_bounds req :
  spec.passesValidation req = true ->
  10 <= DurationMins req <= 4320
  /\ ReqEnvironmentID req <> "" /\ ReqFeature req <> "".
Proof.
  intros Hv.
  destruct (Z_lt_dec (DurationMins req) 10) as [H|H];
    [assert (spec.passesValidation req = false)
       by (apply passesValidation_iff; tauto); congruence|].
  destruct (Z_gt_dec (DurationMins req) 4320) as [H1|H1];
    [assert (spec.passesValidation req = false)
       by (apply passesValidation_iff; tauto); congruence|].
  destruct (decide (ReqFeature req = "")) as [H2|H2];
    [assert (spec.passesValidation req = false)
       by (apply passesValidation_iff; tauto); congruence|].
  destruct (decide (ReqEnvironmentID req = "")) as [H3|H3];
    [assert (spec.passesValidation req = false)
       by (apply passesValidation_iff; tauto); congruence|].
  repeat split; [lia | lia | done | done].
Qed.

(** A valid request for a free environment commits. *)
Lemma Reserve_commits r user req now repoNow newID t env :
  handlers.Method r = "POST" ->
  handlers.ContextUser r = handlers.UserValue user ->
  handlers.Body r = Some req ->
  spec.passesValidation req = true ->
  Environments t !! ReqEnvironmentID req = Some env ->
  Status env = StatusFree ->
  handlers.CreateReservation r now repoNow newID t
  = (handlers.RespondWithSuccess
       (handlers.ReservationData
          (db.stamp newID repoNow (handlers.newReservation user req now))),
     {| Environments :=
          <[ReqEnvironmentID req := setStatus StatusReserved repoNow env]>
            (Environments t);
        Reservations :=
          putItem (db.stamp newID repoNow (handlers.newReservation user req now))
            (Reservations t) |}).
Proof.
  intros Hm Hu Hb Hv He Hs.
  rewrite (CreateReservation_valid r user req now repoNow newID t Hm Hu Hb Hv).
  rewrite He, (proj2 (String.eqb_eq _ _) Hs). simpl negb. cbv iota.
  rewrite (CreateReservation_free (handlers.newReservation user req now)
             newID repoNow t env He Hs).
  simpl. unfold updateEnvironment. by rewrite He.
Qed.

(** A valid request for an environment that is not free is refused. *)
Lemma Reserve_refused r user req now repoNow newID t env :
  handlers.Method r = "POST" ->
  handlers.ContextUser r = handlers.UserValue user ->
  handlers.Body r = Some req ->
  spec.passesValidation req = true ->
  Environments t !! ReqEnvironmentID req = Some env ->
  Status env <> StatusFree ->
  handlers.CreateReservation r now repoNow newID t
  = (handlers.RespondWithError handlers.StatusBadRequest
       "Environment is already reserved", t).
Proof.
  intros Hm Hu Hb Hv He Hs.
  rewrite (CreateReservation_valid r user req now repoNow newID t Hm Hu Hb Hv).
  by rewrite He, (proj2 (String.eqb_neq _ _) Hs).
Qed.

(** X1: a valid Reserve request for a free environment is answered 200
    with the new reservation: it has the generated id, the requester as
    holder, starts at the handler's reading of the clock and ends
    [DurationMins] minutes later (between ten minutes and three days);
    it carries the feature, branch and ticket of the request and the
    repository's reading of the clock as createdAt and lastUpdated; the
    record is stored under its id; the environment's record has status
    RESERVED, the repository's reading as lastUpdated and its other
    fields as before; no other environment changes. *)
Theorem X1_reserve_success r user req now repoNow newID t env :
  handlers.Method r = "POST" ->
  handlers.ContextUser r = handlers.UserValue user ->
  handlers.Body r = Some req ->
  spec.passesValidation req = true ->
  Environments t !! ReqEnvironmentID req = Some env ->
  Status env = StatusFree ->
  exists created t',
    handlers.CreateReservation r now repoNow newID t
    = (handlers.RespondWithSuccess (handlers.ReservationData created), t')
    /\ ID created = newID
    /\ Holder created = Username user
    /\ EnvironmentID created = ReqEnvironmentID req
    /\ StartTime created = now
    /\ EndTime created = now + DurationMins req * 60
    /\ 600 <= EndTime created - StartTime created <= 259200
    /\ CreatedAt created = repoNow
    /\ LastUpdated created = repoNow
    /\ Feature created = ReqFeature req
    /\ GitBranch created = ReqGitBranch req
    /\ JiraURL created = ReqJiraURL req
    /\ getItem newID (Reservations t') = Some created
    /\ Environments t' !! ReqEnvironmentID req
       = Some {| EnvID := EnvID env; Name := Name env;
                 Description := Description env; Status := StatusReserved;
                 CreatedBy := CreatedBy env; EnvCreatedAt := EnvCreatedAt env;
                 EnvLastUpdated := repoNow |}
    /\ forall id, id <> ReqEnvironmentID req ->
                  Environments t' !! id = Environments t !! id.
Proof.
  intros Hm Hu Hb Hv He Hs.
  destruct (passesValidation_bounds req Hv) as (Hd & _ & _).
  eexists _, _. split; [exact (Reserve_commits r user req now repoNow newID t env
                                 Hm Hu Hb Hv He Hs)|].
  simpl. unfold Minute.
  repeat split; try done; try lia.
  - apply (getItem_putItem (db.stamp newID repoNow (handlers.newReservation user req now))).
  - by rewrite lookup_insert_eq.
  - intros id Hne. by rewrite lookup_insert_ne.
Qed.

(** Alice reserves the free [env-1] for thirty minutes at time 100. *)
Lemma X1_reserve_success_witness :
  exists created t',
    handlers.CreateReservation
      (more.reserve (sample.user "alice") (sample.request "env-1" 30 "login-flow"))
      100 101 "r1" sample.oneFree
    = (handlers.RespondWithSuccess (handlers.ReservationData created), t')
    /\ Holder created = "alice"
    /\ EndTime created = 1900
    /\ spec.statusOf "env-1" t' = Some StatusReserved.
Proof.
  destruct (X1_reserve_success
              (more.reserve (sample.user "alice") (sample.request "env-1" 30 "login-flow"))
              (sample.user "alice") (sample.request "env-1" 30 "login-flow")
              100 101 "r1" sample.oneFree (sample.environment "env-1" StatusFree)
              eq_refl eq_refl eq_refl eq_refl eq_refl eq_refl)
    as (created & t' & Hout & _ & Hh & _ & _ & Hend & _ & _ & _ & _ & _ & _ & _
        & Henv & _).
  exists created, t'. split; [exact Hout|]. split; [exact Hh|]. split; [exact Hend|].
  unfold spec.statusOf. simpl in Henv. by rewrite Henv.
Defined.

(** X2: once a Reserve has committed, every further valid Reserve request
    for the same environment, by anyone and at any time, is answered 400
    "Environment is already reserved" and writes nothing, as long as the
    tables are as the first request left them. *)
Theorem X2_second_reserve_refused r user req now repoNow newID t env
    r2 user2 req2 now2 repoNow2 newID2 :
  handlers.Method r = "POST" ->
  handlers.ContextUser r = handlers.UserValue user ->
  handlers.Body r = Some req ->
  spec.passesValidation req = true ->
  Environments t !! ReqEnvironmentID req = Some env ->
  Status env = StatusFree ->
  handlers.Method r2 = "POST" ->
  handlers.ContextUser r2 = handlers.UserValue user2 ->
  handlers.Body r2 = Some req2 ->
  spec.passesValidation req2 = true ->
  ReqEnvironmentID req2 = ReqEnvironmentID req ->
  handlers.CreateReservation r2 now2 repoNow2 newID2
    (snd (handlers.CreateReservation r now repoNow newID t))
  = (handlers.RespondWithError handlers.StatusBadRequest
       "Environment is already reserved",
     snd (handlers.CreateReservation r now repoNow newID t)).
Proof.
  intros Hm Hu Hb Hv He Hs Hm2 Hu2 Hb2 Hv2 Hsame.
  rewrite (Reserve_commits r user req now repoNow newID t env Hm Hu Hb Hv He Hs).
  apply (Reserve_refused r2 user2 req2 now2 repoNow2 newID2 _
           (setStatus StatusReserved repoNow env)); try done.
  simpl. by rewrite Hsame, lookup_insert_eq.
Qed.

(** Bob asks for [env-1] right after Alice got it. *)
Lemma X2_second_reserve_refused_witness :
  handlers.Code
    (fst (handlers.CreateReservation
            (more.reserve (sample.user "bob") (sample.request "env-1" 15 "x"))
            200 201 "r2"
            (snd (handlers.CreateReservation
                    (more.reserve (sample.user "alice")
                       (sample.request "env-1" 30 "login-flow"))
                    100 101 "r1" sample.oneFree)))) = 400.
Proof.
  rewrite (X2_second_reserve_refused
             (more.reserve (sample.user "alice") (sample.request "env-1" 30 "login-flow"))
             (sample.user "alice") (sample.request "env-1" 30 "login-flow")
             100 101 "r1" sample.oneFree (sample.environment "env-1" StatusFree)
             (more.reserve (sample.user "bob") (sample.request "env-1" 15 "x"))
             (sample.user "bob") (sample.request "env-1" 15 "x") 200 201 "r2"
             eq_refl eq_refl eq_refl eq_refl eq_refl eq_refl
             eq_refl eq_refl eq_refl eq_refl eq_refl).
  reflexivity.
Defined.

Lemma updateEnvironment_lookup_Some id status lastUpdated m :
  exists e,
    updateEnvironment id status lastUpdated m !! id = Some e /\ Status e = status.
Proof.
  pose proof (updateEnvironment_lookup id status lastUpdated m) as H.
  destruct (updateEnvironment id status lastUpdated m !! id) as [e|]; [|done].
  exists e. split; [done|]. by injection H.
Qed.

Lemma getItem_updateItem_ne id id' endTime lastUpdated l :
  id <> id' ->
  getItem id' (updateItem id endTime lastUpdated l) = getItem id' l.
Proof.
  intros Hne. unfold getItem. induction l as [|x l IH]; simpl.
  - by rewrite (proj2 (String.eqb_neq _ _) Hne).
  - destruct (String.eqb_spec (ID x) id) as [E|E]; simpl.
    + rewrite E, (proj2 (String.eqb_neq _ _) Hne). done.
    + destruct (String.eqb (ID x) id'); [done | exact IH].
Qed.

(** X3: after the holder released a reservation, a valid Reserve request
    for its environment, by anyone, commits: it is answered 200 and the
    environment is RESERVED again. *)
Theorem X3_release_then_reserve id username now t held
    r2 user2 req2 now2 repoNow2 newID2 :
  getItem id (Reservations t) = Some held ->
  Holder held = username ->
  handlers.Method r2 = "POST" ->
  handlers.ContextUser r2 = handlers.UserValue user2 ->
  handlers.Body r2 = Some req2 ->
  spec.passesValidation req2 = true ->
  ReqEnvironmentID req2 = EnvironmentID held ->
  fst (handlers.CreateReservation r2 now2 repoNow2 newID2
         (snd (db.ReleaseReservation id username now t)))
  = handlers.RespondWithSuccess
      (handlers.ReservationData
         (db.stamp newID2 repoNow2 (handlers.newReservation user2 req2 now2)))
  /\ spec.statusOf (EnvironmentID held)
       (snd (handlers.CreateReservation r2 now2 repoNow2 newID2
               (snd (db.ReleaseReservation id username now t))))
     = Some StatusReserved.
Proof.
  intros Hr Hh Hm Hu Hb Hv Hsame.
  rewrite (ReleaseReservation_holder id username now t held Hr Hh). simpl snd.
  destruct (updateEnvironment_lookup_Some (EnvironmentID held) StatusFree now
              (Environments t)) as (e & He & Hs).
  set (t1 := {| Environments :=
                  updateEnvironment (EnvironmentID held) StatusFree now (Environments t);
                Reservations := updateItem id now now (Reservations t) |}).
  assert (He1 : Environments t1 !! ReqEnvironmentID req2 = Some e)
    by (by rewrite Hsame).
  rewrite (Reserve_commits r2 user2 req2 now2 repoNow2 newID2 t1 e Hm Hu Hb Hv He1 Hs).
  split; [done|].
  unfold spec.statusOf. simpl. by rewrite <- Hsame, lookup_insert_eq.
Qed.

(** Bob releases [r1] at 100 and Alice reserves [env-1] at 200. *)
Lemma X3_release_then_reserve_witness :
  handlers.Code
    (fst (handlers.CreateReservation
            (more.reserve (sample.user "alice") (sample.request "env-1" 30 "x"))
            200 201 "r2"
            (snd (db.ReleaseReservation "r1" "bob" 100 scenario.held)))) = 200.
Proof.
  rewrite (proj1 (X3_release_then_reserve "r1" "bob" 100 scenario.held
                    (sample.reservation "r1" "env-1" "bob" 0 1800)
                    (more.reserve (sample.user "alice") (sample.request "env-1" 30 "x"))
                    (sample.user "alice") (sample.request "env-1" 30 "x") 200 201 "r2"
                    eq_refl eq_refl eq_refl eq_refl eq_refl eq_refl eq_refl)).
  reflexivity.
Defined.

(** X4: a Release writes to one reservation and one environment: every
    reservation under another id and every other environment is as it
    was, and the table has as many reservations as before. *)
Theorem X4_release_frame id username now t held :
  getItem id (Reservations t) = Some held ->
  Holder held = username ->
  (forall id', id' <> id ->
      getItem id' (Reservations (snd (db.ReleaseReservation id username now t)))
      = getItem id' (Reservations t))
  /\ (forall environmentID, environmentID <> EnvironmentID held ->
      Environments (snd (db.ReleaseReservation id username now t)) !! environmentID
      = Environments t !! environmentID)
  /\ length (Reservations (snd (db.ReleaseReservation id username now t)))
     = length (Reservations t).
Proof.
  intros Hr Hh.
  rewrite (ReleaseReservation_holder id username now t held Hr Hh). simpl.
  split; [|split].
  - intros id' Hne. by apply getItem_updateItem_ne.
  - intros e Hne. by apply updateEnvironment_lookup_ne.
  - destruct (updateItem_split id now now (Reservations t) held Hr)
      as (l1 & l2 & -> & ->).
    by rewrite !length_app.
Qed.

(** Alice releases [r1]; Bob's [r2] and its environment are untouched. *)
Lemma X4_release_frame_witness :
  getItem "r2"
    (Reservations (snd (db.ReleaseReservation "r1" "alice" 700 scenario.orphanFirst)))
  = Some (sample.reservation "r2" "env-2" "bob" 0 600)
  /\ spec.statusOf "env-2"
       (snd (db.ReleaseReservation "r1" "alice" 700 scenario.orphanFirst))
     = Some StatusReserved.
Proof.
  destruct (X4_release_frame "r1" "alice" 700 scenario.orphanFirst
              (sample.reservation "r1" "env-1" "alice" 0 600) eq_refl eq_refl)
    as (Hres & Henv & _).
  split.
  - rewrite (Hres "r2") by discriminate. reflexivity.
  - unfold spec.statusOf. rewrite (Henv "env-2") by discriminate. reflexivity.
Defined.

(** * The scans, for any answer of the store *)

(** The store that returns every matching item is sound and complete. *)
Lemma ideal_sound : store.sound store.ideal.
Proof. intros f l r H. by apply List.filter_In in H. Qed.

Lemma ideal_complete : store.complete store.ideal.
Proof. intros f l r Hin Hm. by apply List.filter_In. Qed.

(** With that store the functions of [store] are those of [db]. *)
Lemma ideal_ListActiveReservations now t :
  store.ListActiveReservations store.ideal now t = db.ListActiveReservations now t.
Proof. reflexivity. Qed.

Lemma ideal_GetActiveReservationByEnvironmentID environmentID now t :
  store.GetActiveReservationByEnvironmentID store.ideal environmentID now t
  = db.GetActiveReservationByEnvironmentID environmentID now t.
Proof. reflexivity. Qed.

Lemma ideal_CheckExpiredReservations listNow now t :
  store.CheckExpiredReservations store.ideal listNow now t
  = db.CheckExpiredReservations listNow now t.
Proof. reflexivity. Qed.

(** What a sound and complete store returns for the two filters. *)
Lemma In_scan_EndTimeAfter scan now l r :
  store.sound scan -> store.complete scan ->
  In r (scan (store.EndTimeAfter now) l) <-> In r l /\ now < EndTime r.
Proof.
  intros Hs Hc. split.
  - intros H. apply Hs in H as [Hin Hm]. simpl in Hm.
    by apply Z.ltb_lt in Hm.
  - intros [Hin Hlt]. apply Hc; [done|]. simpl. by apply Z.ltb_lt.
Qed.

Lemma In_scan_Environment scan environmentID now l r :
  store.sound scan -> store.complete scan ->
  In r (scan (store.EnvironmentAndEndTimeAfter environmentID now) l)
  <-> In r l /\ EnvironmentID r = environmentID /\ now < EndTime r.
Proof.
  intros Hs Hc. split.
  - intros H. apply Hs in H as [Hin Hm]. simpl in Hm.
    apply andb_true_iff in Hm as [He Hlt].
    apply String.eqb_eq in He. by apply Z.ltb_lt in Hlt.
  - intros (Hin & He & Hlt). apply Hc; [done|]. simpl.
    apply andb_true_iff. split; [by apply String.eqb_eq | by apply Z.ltb_lt].
Qed.

(** X5: after a Release at [now] the stored record has endTime and
    lastUpdated [now] and its other fields as before.  For a store whose
    scans are sound, at any time from [now] on the record is not in the
    list of active reservations, and it is not what
    [GetActiveReservationByEnvironmentID] returns for its environment.
    For a store whose scans are also complete, a Release makes no
    reservation active: whatever is listed as active afterwards was
    listed before. *)
Theorem X5_released_is_inactive scan id username now later t held :
  store.sound scan ->
  getItem id (Reservations t) = Some held ->
  Holder held = username ->
  now <= later ->
  (exists released,
      getItem id (Reservations (snd (db.ReleaseReservation id username now t)))
      = Some released
      /\ EndTime released = now
      /\ LastUpdated released = now
      /\ more.sameBooking held released
      /\ (forall listing,
          store.ListActiveReservations scan later
            (snd (db.ReleaseReservation id username now t)) = Ok listing ->
          ~ In released listing)
      /\ store.GetActiveReservationByEnvironmentID scan (EnvironmentID held) later
           (snd (db.ReleaseReservation id username now t))
         <> Ok (Some released))
  /\ (store.complete scan ->
      forall before after,
        store.ListActiveReservations scan later t = Ok before ->
        store.ListActiveReservations scan later
          (snd (db.ReleaseReservation id username now t)) = Ok after ->
        forall r, In r after -> In r before).
Proof.
  intros Hsound Hr Hh Hle.
  rewrite (ReleaseReservation_holder id username now t held Hr Hh). simpl snd.
  destruct (updateItem_split id now now (Reservations t) held Hr)
    as (l1 & l2 & Hl & Hl').
  split.
  - exists (setEndTime now now held).
    split; [exact (getItem_updateItem id now now _ held Hr)|].
    split; [reflexivity|]. split; [reflexivity|].
    split; [by repeat split|].
    split.
    + intros listing [= <-] Hin. apply Hsound in Hin as [_ Hm].
      simpl in Hm. apply Z.ltb_lt in Hm. lia.
    + unfold store.GetActiveReservationByEnvironmentID. simpl Reservations.
      destruct (scan _ _) as [|x l] eqn:E; [done|].
      intros [= ->].
      assert (Hin : In (setEndTime now now held) (setEndTime now now held :: l))
        by (by left).
      rewrite <- E in Hin. apply Hsound in Hin as [_ Hm].
      simpl in Hm. apply andb_true_iff in Hm as [_ Hm].
      apply Z.ltb_lt in Hm. lia.
  - intros Hcomplete before after [= <-] [= <-] r.
    rewrite !(In_scan_EndTimeAfter scan later _ r Hsound Hcomplete).
    simpl Reservations. rewrite Hl', Hl, !in_app_iff. simpl.
    intros [[H|[<-|H]] Ha]; [tauto | simpl in Ha; lia | tauto].
Qed.

(** Bob's reservation, which ran until 1800, released at 100. *)
Lemma X5_released_is_inactive_witness :
  exists released,
    getItem "r1" (Reservations (snd (db.ReleaseReservation "r1" "bob" 100 scenario.held)))
    = Some released
    /\ EndTime released = 100
    /\ LastUpdated released = 100
    /\ db.GetActiveReservationByEnvironmentID "env-1" 100
         (snd (db.ReleaseReservation "r1" "bob" 100 scenario.held))
       <> Ok (Some released).
Proof.
  destruct (X5_released_is_inactive store.ideal "r1" "bob" 100 100 scenario.held
              (sample.reservation "r1" "env-1" "bob" 0 1800) ideal_sound
              eq_refl eq_refl ltac:(lia))
    as ((released & Hget & Hend & Hupd & _ & _ & Hnot) & _).
  exists released. split; [exact Hget|]. split; [exact Hend|].
  split; [exact Hupd|]. exact Hnot.
Defined.

Lemma getItem_Some_ID id l r : getItem id l = Some r -> ID r = id.
Proof.
  unfold getItem. intros H. apply find_some in H as [_ H].
  by apply String.eqb_eq.
Qed.

Lemma Scan_environment environmentID now t :
  Scan (fun r => String.eqb (EnvironmentID r) environmentID && db.activeAt now r) t
  = system.activeOn environmentID now t.
Proof. reflexivity. Qed.

Lemma In_activeOn environmentID now t r :
  In r (system.activeOn environmentID now t)
  <-> In r (Reservations t) /\ EnvironmentID r = environmentID /\ now < EndTime r.
Proof.
  unfold system.activeOn, db.activeAt.
  rewrite List.filter_In, andb_true_iff, String.eqb_eq, Z.ltb_lt. tauto.
Qed.

(** X6: [GetActiveReservationByEnvironmentID], for any answer of the
    store to its scan.  It returns no error.  When the scan is sound, what
    it returns is a stored reservation of that environment whose endTime
    is after [now].  When the scan is also complete, it returns nil
    exactly when the environment has no such reservation, and when no
    environment has more than one, it returns the one the environment
    has. *)
Theorem X6_active_reservation_of_environment scan environmentID now t :
  store.sound scan ->
  (exists found,
      store.GetActiveReservationByEnvironmentID scan environmentID now t = Ok found)
  /\ (forall r,
      store.GetActiveReservationByEnvironmentID scan environmentID now t
      = Ok (Some r) ->
      In r (Reservations t) /\ EnvironmentID r = environmentID /\ now < EndTime r)
  /\ (store.complete scan ->
      (store.GetActiveReservationByEnvironmentID scan environmentID now t = Ok None
       <-> forall r, In r (Reservations t) -> EnvironmentID r = environmentID ->
                     EndTime r <= now)
      /\ (system.mutualExclusion now t ->
          forall r, In r (Reservations t) -> EnvironmentID r = environmentID ->
                    now < EndTime r ->
                    store.GetActiveReservationByEnvironmentID scan environmentID now t
                    = Ok (Some r))).
Proof.
  intros Hsound. unfold store.GetActiveReservationByEnvironmentID.
  assert (Hhead : forall x l,
             scan (store.EnvironmentAndEndTimeAfter environmentID now)
               (Reservations t) = x :: l ->
             In x (Reservations t) /\ EnvironmentID x = environmentID
             /\ now < EndTime x).
  { intros x l E.
    assert (Hx : In x (scan (store.EnvironmentAndEndTimeAfter environmentID now)
                         (Reservations t))) by (rewrite E; by left).
    apply Hsound in Hx as [Hin Hm]. simpl in Hm.
    apply andb_true_iff in Hm as [He Hlt].
    apply String.eqb_eq in He. by apply Z.ltb_lt in Hlt. }
  split; [|split].
  - destruct (scan _ _); by eexists.
  - intros r H.
    destruct (scan _ _) as [|x l] eqn:E; [done|].
    injection H as ->. exact (Hhead r l eq_refl).
  - intros Hcomplete. split; [split|].
    + intros H r Hin He.
      destruct (Z_lt_dec now (EndTime r)) as [Hlt|]; [|lia].
      assert (Hr : In r (scan (store.EnvironmentAndEndTimeAfter environmentID now)
                           (Reservations t)))
        by (by apply In_scan_Environment).
      by destruct (scan _ _).
    + intros H.
      destruct (scan _ _) as [|x l] eqn:E; [done|].
      destruct (Hhead x l eq_refl) as (Hin & He & Hlt).
      specialize (H x Hin He). lia.
    + intros Hm r Hin He Hlt.
      destruct (scan _ _) as [|x l] eqn:E.
      * assert (Hr : In r (scan (store.EnvironmentAndEndTimeAfter environmentID now)
                             (Reservations t)))
          by (by apply In_scan_Environment).
        rewrite E in Hr. destruct Hr.
      * assert (Hx : In x (system.activeOn environmentID now t))
          by (apply In_activeOn; exact (Hhead x l eq_refl)).
        assert (Hr : In r (system.activeOn environmentID now t))
          by (by apply In_activeOn).
        rewrite (at_most_one_In _ r (Hm environmentID) Hr) in Hx.
        destruct Hx as [->|[]]. reflexivity.
Qed.

(** Bob's reservation is the active one of [env-1] at 100, and there is
    none at 1800. *)
Lemma X6_active_reservation_witness :
  db.GetActiveReservationByEnvironmentID "env-1" 100 scenario.held
  = Ok (Some (sample.reservation "r1" "env-1" "bob" 0 1800))
  /\ db.GetActiveReservationByEnvironmentID "env-1" 1800 scenario.held = Ok None.
Proof.
  split.
  - destruct (X6_active_reservation_of_environment store.ideal "env-1" 100
                scenario.held ideal_sound) as (_ & _ & H).
    apply (proj2 (H ideal_complete)).
    + intros e. unfold system.activeOn.
      etransitivity; [apply List.filter_length_le | simpl; lia].
    + by left.
    + reflexivity.
    + simpl. lia.
  - destruct (X6_active_reservation_of_environment store.ideal "env-1" 1800
                scenario.held ideal_sound) as (_ & _ & H).
    apply (proj1 (H ideal_complete)).
    intros r [<-|[]] _. simpl. lia.
Defined.

(** X7: no step deletes or rewrites a booking.  After any admissible
    step, every reservation that was stored is still stored with the same
    id, environment, holder, start time, feature, git branch, Jira URL
    and creation time; its end time is as it was unless the step is a
    Release of that very reservation by its holder, which sets it to the
    release time. *)
Theorem X7_history_is_kept clock t s r :
  system.admissible clock t s = true ->
  In r (Reservations t) ->
  exists r',
    In r' (Reservations (system.exec s t))
    /\ more.sameBooking r r'
    /\ (EndTime r' = EndTime r
        \/ exists user now,
             s = system.Release user (ID r) now
             /\ Holder r = Username user /\ EndTime r' = now).
Proof.
  intros Ha Hin.
  assert (Hsame : more.sameBooking r r) by (by repeat split).
  destruct s as [user req now repoNow newID | user id now | listNow now].
  - destruct (exec_Reserve user req now repoNow newID t)
      as [-> | (env & r0 & _ & _ & Hid & _ & ->)]; [exists r; by auto|].
    simpl in Ha. repeat (apply andb_true_iff in Ha as [Ha ?]).
    destruct (getItem newID (Reservations t)) eqn:Hnew; [done|].
    exists r. simpl. rewrite (putItem_new r0 (Reservations t)) by (by rewrite Hid).
    split; [apply in_app_iff; by left | by auto].
  - destruct (exec_Release user id now t) as [-> | (r0 & Hr0 & Hh & ->)];
      [exists r; by auto|].
    destruct (updateItem_split id now now (Reservations t) r0 Hr0)
      as (l1 & l2 & Hl & Hl').
    simpl. rewrite Hl'. rewrite Hl in Hin.
    apply in_app_iff in Hin as [Hin|[<-|Hin]].
    + exists r. split; [apply in_app_iff; by left | by auto].
    + exists (setEndTime now now r0).
      split; [apply in_app_iff; right; by left|].
      split; [by repeat split|].
      right. exists user, now. by rewrite (getItem_Some_ID id _ r0 Hr0).
    + exists r. split; [apply in_app_iff; right; by right | by auto].
  - destruct (exec_SweeperCycle listNow now t) as [Hres _].
    exists r. rewrite Hres. by auto.
Qed.

(** Alice's second Release of [r1] in [scenario.lapsedAndFree]: the record
    keeps its fields, the end time moves to the release time. *)
Lemma X7_history_is_kept_witness :
  exists r',
    In r' (Reservations
             (system.exec (system.Release (sample.user "alice") "r1" 700)
                scenario.lapsedAndFree))
    /\ more.sameBooking (sample.reservation "r1" "env-1" "alice" 0 600) r'.
Proof.
  destruct (X7_history_is_kept 700 scenario.lapsedAndFree
              (system.Release (sample.user "alice") "r1" 700)
              (sample.reservation "r1" "env-1" "alice" 0 600)
              eq_refl (or_introl eq_refl)) as (r' & Hin & Hs & _).
  by exists r'.
Defined.

(** X8: the reservation engine writes no other status than FREE and
    RESERVED: in every state reached from a catalogue of free
    environments by Reserve, Release and sweeper steps, every environment
    is FREE or RESERVED. *)
Theorem X8_status_is_free_or_reserved init start clock t :
  system.pristine init ->
  system.reachable init start clock t ->
  forall id e,
    Environments t !! id = Some e ->
    Status e = StatusFree \/ Status e = StatusReserved.
Proof.
  intros [_ Hfree]. induction 1 as [|clock t s Hr IH Ha]; [by eauto|].
  intros id e He.
  destruct s as [user req now repoNow newID | user rid now | listNow now].
  - destruct (exec_Reserve user req now repoNow newID t)
      as [E | (env & r0 & _ & _ & _ & _ & E)]; rewrite E in He; [by eauto|].
    simpl in He. destruct (decide (ReqEnvironmentID req = id)) as [<-|Hne].
    + pose proof (updateEnvironment_lookup (ReqEnvironmentID req) StatusReserved
                    repoNow (Environments t)) as Hu.
      rewrite He in Hu. right. by injection Hu.
    + rewrite updateEnvironment_lookup_ne in He by done. by eauto.
  - destruct (exec_Release user rid now t) as [E | (r0 & _ & _ & E)];
      rewrite E in He; [by eauto|].
    simpl in He. destruct (decide (EnvironmentID r0 = id)) as [<-|Hne].
    + pose proof (updateEnvironment_lookup (EnvironmentID r0) StatusFree
                    now (Environments t)) as Hu.
      rewrite He in Hu. left. by injection Hu.
    + rewrite updateEnvironment_lookup_ne in He by done. by eauto.
  - destruct (exec_SweeperCycle listNow now t) as [_ Hs].
    destruct (Hs id) as [Hk | (e0 & r0 & _ & Hk & _)]; rewrite Hk in He.
    + by eauto.
    + left. by injection He as <-.
Qed.

(** [env-1] at the end of [scenario.doubleRelease]. *)
Lemma X8_status_witness :
  exists e,
    Environments (system.run scenario.doubleRelease sample.oneFree) !! "env-1" = Some e
    /\ (Status e = StatusFree \/ Status e = StatusReserved).
Proof.
  assert (E : Environments (system.run scenario.doubleRelease sample.oneFree) !! "env-1"
              = Some (setStatus StatusReserved 40
                        (sample.environment "env-1" StatusFree)))
    by (vm_compute; reflexivity).
  eexists. split; [exact E|].
  apply (X8_status_is_free_or_reserved sample.oneFree 0 40
           (system.run scenario.doubleRelease sample.oneFree)) with (id := "env-1").
  - split; [done|]. intros id e H. simpl in H.
    apply lookup_singleton_Some in H as [_ <-]. done.
  - apply (reachable_run sample.oneFree 0 scenario.doubleRelease 0 sample.oneFree).
    + constructor.
    + by vm_compute.
  - exact E.
Defined.

(** A list of which every element is [r], and which has [r], starts with
    [r]. *)
Lemma head_of_constant {A} (l : list A) (r : A) :
  In r l -> (forall x, In x l -> x = r) -> exists l', l = r :: l'.
Proof.
  destruct l as [|x l]; [done|]. intros _ H.
  exists l. by rewrite (H x (or_introl eq_refl)).
Qed.

(** X9: a reservation made under a new id is listed while it runs.  For a
    store whose scans are sound and complete, after the Reserve committed
    [ListActiveReservations] returns, and the handler
    [GetActiveReservations] answers 200 with, a list that holds exactly
    the stored reservations that end after the time of the listing: those
    that were stored before the Reserve, and the new record at every time
    before its end, start plus [DurationMins] minutes, and not from then
    on.  Nothing is said of the order of the list. *)
Theorem X9_new_reservation_is_listed scan r user req now repoNow newID t env later q :
  store.sound scan ->
  store.complete scan ->
  handlers.Method r = "POST" ->
  handlers.ContextUser r = handlers.UserValue user ->
  handlers.Body r = Some req ->
  spec.passesValidation req = true ->
  Environments t !! ReqEnvironmentID req = Some env ->
  Status env = StatusFree ->
  getItem newID (Reservations t) = None ->
  handlers.Method q = "GET" ->
  exists listing,
    store.ListActiveReservations scan later
      (snd (handlers.CreateReservation r now repoNow newID t))
    = Ok listing
    /\ store.GetActiveReservations scan q later
         (snd (handlers.CreateReservation r now repoNow newID t))
       = handlers.RespondWithSuccess (handlers.ReservationsData listing)
    /\ forall x,
         In x listing
         <-> (In x (Reservations t) /\ later < EndTime x)
             \/ (x = {| ID := newID; EnvironmentID := ReqEnvironmentID req;
                        Holder := Username user; StartTime := now;
                        EndTime := now + DurationMins req * 60;
                        Feature := ReqFeature req; GitBranch := ReqGitBranch req;
                        JiraURL := ReqJiraURL req;
                        CreatedAt := repoNow; LastUpdated := repoNow |}
                 /\ later < now + DurationMins req * 60).
Proof.
  intros Hsound Hcomplete Hm Hu Hb Hv He Hs Hnew Hq.
  rewrite (Reserve_commits r user req now repoNow newID t env Hm Hu Hb Hv He Hs).
  simpl snd. eexists. split; [reflexivity|]. split.
  - unfold store.GetActiveReservations. by rewrite Hq.
  - intros x. rewrite (In_scan_EndTimeAfter scan later _ x Hsound Hcomplete).
    simpl Reservations. rewrite (putItem_new _ (Reservations t)) by done.
    rewrite in_app_iff. simpl. unfold db.stamp, handlers.newReservation, Minute.
    simpl. split.
    + intros [[H|[<-|[]]] Hlt]; [by left | right]. by split.
    + intros [[H Hlt]|[-> Hlt]]; [by auto|]. simpl. by auto.
Qed.

(** Alice's thirty minutes from 100 are listed at 1899 and not at 1900. *)
Lemma X9_new_reservation_is_listed_witness :
  exists listing listing',
    db.ListActiveReservations 1899
      (snd (handlers.CreateReservation
              (more.reserve (sample.user "alice")
                 (sample.request "env-1" 30 "login-flow"))
              100 101 "r1" sample.oneFree))
    = Ok listing
    /\ db.ListActiveReservations 1900
         (snd (handlers.CreateReservation
                 (more.reserve (sample.user "alice")
                    (sample.request "env-1" 30 "login-flow"))
                 100 101 "r1" sample.oneFree))
       = Ok listing'
    /\ (exists x, In x listing /\ ID x = "r1" /\ Holder x = "alice" /\ EndTime x = 1900)
    /\ forall x, ~ In x listing'.
Proof.
  pose (call later :=
          X9_new_reservation_is_listed store.ideal
            (more.reserve (sample.user "alice")
               (sample.request "env-1" 30 "login-flow"))
            (sample.user "alice") (sample.request "env-1" 30 "login-flow")
            100 101 "r1" sample.oneFree (sample.environment "env-1" StatusFree)
            later
            {| handlers.Method := "GET"; handlers.ContextUser := handlers.NoValue;
               handlers.Body := None; handlers.VarID := "" |}
            ideal_sound ideal_complete
            eq_refl eq_refl eq_refl eq_refl eq_refl eq_refl eq_refl eq_refl).
  destruct (call 1899) as (listing & H1 & _ & Hin).
  destruct (call 1900) as (listing' & H2 & _ & Hin').
  exists listing, listing'. split; [exact H1|]. split; [exact H2|]. split.
  - eexists. split; [apply Hin; right; split; [reflexivity | simpl; lia]|].
    repeat split.
  - intros x Hx. apply Hin' in Hx as [[[] _]|[_ Hlt]]. simpl in Hlt. lia.
Defined.

(** X10: after a Reserve has committed under a new id in a consistent
    state, the handler [GetEnvironment] shows, for a store whose scans
    are sound and complete and at every time before the reservation's
    end, the environment's record with status RESERVED and the
    repository's reading of the clock as lastUpdated, and the new
    reservation as its current one. *)
Theorem X10_reserved_environment_shows_holder
    scan r user req now repoNow newID t env clock later (q : utils.Request unit) :
  store.sound scan ->
  store.complete scan ->
  handlers.Method r = "POST" ->
  handlers.ContextUser r = handlers.UserValue user ->
  handlers.Body r = Some req ->
  spec.passesValidation req = true ->
  Environments t !! ReqEnvironmentID req = Some env ->
  Status env = StatusFree ->
  getItem newID (Reservations t) = None ->
  system.consistent clock t ->
  clock <= later < now + DurationMins req * 60 ->
  utils.Method q = "GET" ->
  utils.Var q = ReqEnvironmentID req ->
  store.GetEnvironment scan q later
    (snd (handlers.CreateReservation r now repoNow newID t))
  = utils.RespondWithSuccess
      {| Environment_ :=
           {| EnvID := EnvID env; Name := Name env;
              Description := Description env; Status := StatusReserved;
              CreatedBy := CreatedBy env; EnvCreatedAt := EnvCreatedAt env;
              EnvLastUpdated := repoNow |};
         CurrentReservation :=
           Some {| ID := newID; EnvironmentID := ReqEnvironmentID req;
                   Holder := Username user; StartTime := now;
                   EndTime := now + DurationMins req * 60;
                   Feature := ReqFeature req; GitBranch := ReqGitBranch req;
                   JiraURL := ReqJiraURL req;
                   CreatedAt := repoNow; LastUpdated := repoNow |} |}.
Proof.
  intros Hsound Hcomplete Hm Hu Hb Hv He Hs Hnew Hc [Hle Hlt] Hq Hvar.
  destruct (passesValidation_bounds req Hv) as (_ & Hid & _).
  rewrite (Reserve_commits r user req now repoNow newID t env Hm Hu Hb Hv He Hs).
  unfold store.GetEnvironment. simpl snd.
  rewrite Hq, Hvar. simpl negb. cbv iota.
  rewrite (proj2 (String.eqb_neq _ _) Hid).
  unfold db.GetEnvironment. simpl Environments. rewrite lookup_insert_eq.
  unfold store.GetActiveReservationByEnvironmentID. simpl Reservations.
  rewrite (putItem_new _ (Reservations t)) by done.
  set (created := db.stamp newID repoNow (handlers.newReservation user req now)).
  set (found := scan _ _).
  destruct (consistent_later clock later t Hle Hc) as [_ Hfree].
  pose proof (Hfree _ env He Hs) as Hnone.
  assert (Hhead : exists l', found = created :: l').
  { apply head_of_constant.
    - apply In_scan_Environment; [done | done |].
      split; [apply in_app_iff; right; by left|].
      split; [reflexivity|]. simpl. unfold Minute. lia.
    - intros x Hx.
      apply (In_scan_Environment scan _ later _ x Hsound Hcomplete) in Hx
        as (Hin & Hx & Hlater).
      apply in_app_iff in Hin as [Hin|[<-|[]]]; [|done].
      assert (Hact : In x (system.activeOn (ReqEnvironmentID req) later t))
        by (by apply In_activeOn).
      rewrite Hnone in Hact. destruct Hact. }
  destruct Hhead as [l' ->]. reflexivity.
Qed.

(** [env-1] at time 500, after Alice reserved it from 100 to 1900. *)
Lemma X10_reserved_environment_witness :
  utils.Data
    (EnvironmentHandler.GetEnvironment
       (routes.request "GET" handlers.NoValue (None : option unit) "env-1") 500
       (snd (handlers.CreateReservation
               (more.reserve (sample.user "alice")
                  (sample.request "env-1" 30 "login-flow"))
               100 101 "r1" sample.oneFree)))
  = Some {| Environment_ :=
              setStatus StatusReserved 101 (sample.environment "env-1" StatusFree);
            CurrentReservation :=
              Some (db.stamp "r1" 101
                      (handlers.newReservation (sample.user "alice")
                         (sample.request "env-1" 30 "login-flow") 100)) |}.
Proof.
  pose proof (X10_reserved_environment_shows_holder store.ideal
             (more.reserve (sample.user "alice") (sample.request "env-1" 30 "login-flow"))
             (sample.user "alice") (sample.request "env-1" 30 "login-flow")
             100 101 "r1" sample.oneFree (sample.environment "env-1" StatusFree)
             0 500
             (routes.request "GET" handlers.NoValue (None : option unit) "env-1")
             ideal_sound ideal_complete
             eq_refl eq_refl eq_refl eq_refl eq_refl eq_refl eq_refl) as H.
  change (store.GetEnvironment store.ideal
            (routes.request "GET" handlers.NoValue (None : option unit) "env-1") 500
            (snd (handlers.CreateReservation
                    (more.reserve (sample.user "alice")
                       (sample.request "env-1" 30 "login-flow"))
                    100 101 "r1" sample.oneFree)))
    with (EnvironmentHandler.GetEnvironment
            (routes.request "GET" handlers.NoValue (None : option unit) "env-1") 500
            (snd (handlers.CreateReservation
                    (more.reserve (sample.user "alice")
                       (sample.request "env-1" 30 "login-flow"))
                    100 101 "r1" sample.oneFree))) in H.
  rewrite H.
  - reflexivity.
  - split; intros id; [simpl; lia | done].
  - simpl. lia.
  - reflexivity.
  - reflexivity.
Defined.

(** * Properties of the environment repository and its handlers *)

(** X11: [CreateEnvironment] stores the environment under the generated
    id, FREE, created by the given user and stamped with the creation
    time, whatever id, status, creator and timestamps the caller's record
    carries; [GetEnvironment] of that id then returns it; the other
    environments and the reservations are as they were. *)
Theorem X11_create_environment env username newID now t :
  exists created t',
    EnvironmentRepository.CreateEnvironment env username newID now t = (Ok created, t')
    /\ EnvID created = newID
    /\ Name created = Name env
    /\ Description created = Description env
    /\ Status created = StatusFree
    /\ CreatedBy created = username
    /\ EnvCreatedAt created = now
    /\ EnvLastUpdated created = now
    /\ db.GetEnvironment newID t' = Ok (Some created)
    /\ (forall id, id <> newID -> Environments t' !! id = Environments t !! id)
    /\ Reservations t' = Reservations t.
Proof.
  eexists _, _. split; [reflexivity|]. simpl.
  repeat split.
  - unfold db.GetEnvironment. simpl. by rewrite lookup_insert_eq.
  - intros id Hne. by rewrite lookup_insert_ne.
Qed.

(** X12: [UpdateEnvironment] of an id that is not in the table fails and
    writes nothing; of an id that is, it replaces the whole record by the
    caller's, status, creator and createdAt included, with lastUpdated
    set to the time of the call, and leaves the other environments and
    the reservations as they were. *)
Theorem X12_update_environment env now t :
  (Environments t !! EnvID env = None ->
   EnvironmentRepository.UpdateEnvironment env now t
   = (Err (wrap "failed to update environment" ConditionalCheckFailed), t))
  /\ (forall old,
      Environments t !! EnvID env = Some old ->
      exists t',
        EnvironmentRepository.UpdateEnvironment env now t = (Ok tt, t')
        /\ Environments t' !! EnvID env
           = Some {| EnvID := EnvID env; Name := Name env;
                     Description := Description env; Status := Status env;
                     CreatedBy := CreatedBy env; EnvCreatedAt := EnvCreatedAt env;
                     EnvLastUpdated := now |}
        /\ (forall id, id <> EnvID env -> Environments t' !! id = Environments t !! id)
        /\ Reservations t' = Reservations t).
Proof.
  unfold EnvironmentRepository.UpdateEnvironment, table.PutItem. simpl.
  split.
  - intros H. by rewrite H.
  - intros old H. rewrite H. eexists. split; [reflexivity|]. simpl.
    split; [by rewrite lookup_insert_eq|]. split; [|done].
    intros id Hne. by rewrite lookup_insert_ne.
Qed.

(** An update of [env-9], which does not exist, and an update that sets
    the reserved [env-1] to FREE. *)
Lemma X12_update_environment_witness :
  fst (EnvironmentRepository.UpdateEnvironment
         (sample.environment "env-9" StatusFree) 100 scenario.held)
  = Err "failed to update environment: ConditionalCheckFailedException"
  /\ spec.statusOf "env-1"
       (snd (EnvironmentRepository.UpdateEnvironment
               (sample.environment "env-1" StatusFree) 100 scenario.held))
     = Some StatusFree.
Proof.
  split.
  - by rewrite (proj1 (X12_update_environment
                         (sample.environment "env-9" StatusFree) 100 scenario.held)
                  eq_refl).
  - destruct (proj2 (X12_update_environment
                       (sample.environment "env-1" StatusFree) 100 scenario.held)
                (sample.environment "env-1" StatusReserved) eq_refl)
      as (t' & -> & Hl & _).
    unfold spec.statusOf. simpl snd. simpl in Hl. by rewrite Hl.
Defined.

(** X13: [DeleteEnvironment] always succeeds and removes the environment
    only: [GetEnvironment] of the id returns nil afterwards, the other
    environments are as they were, and no reservation is removed or
    changed, those of the deleted environment included.  A valid Reserve
    request for the deleted environment is then answered 404, and a
    status update for it fails. *)
Theorem X13_delete_environment id t :
  fst (EnvironmentRepository.DeleteEnvironment id t) = Ok tt
  /\ db.GetEnvironment id (snd (EnvironmentRepository.DeleteEnvironment id t)) = Ok None
  /\ (forall id', id' <> id ->
      Environments (snd (EnvironmentRepository.DeleteEnvironment id t)) !! id'
      = Environments t !! id')
  /\ Reservations (snd (EnvironmentRepository.DeleteEnvironment id t)) = Reservations t
  /\ (forall r user req now repoNow newID,
      handlers.Method r = "POST" ->
      handlers.ContextUser r = handlers.UserValue user ->
      handlers.Body r = Some req ->
      spec.passesValidation req = true ->
      ReqEnvironmentID req = id ->
      handlers.CreateReservation r now repoNow newID
        (snd (EnvironmentRepository.DeleteEnvironment id t))
      = (handlers.RespondWithError handlers.StatusNotFound "Environment not found",
         snd (EnvironmentRepository.DeleteEnvironment id t)))
  /\ (forall status now,
      db.UpdateEnvironmentStatus id status now
        (snd (EnvironmentRepository.DeleteEnvironment id t))
      = (Err (wrap "failed to update environment status" ConditionalCheckFailed),
         snd (EnvironmentRepository.DeleteEnvironment id t))).
Proof.
  unfold EnvironmentRepository.DeleteEnvironment, table.DeleteItem. simpl.
  split; [done|]. split; [|split; [|split; [done|split]]].
  - unfold db.GetEnvironment. simpl. by rewrite lookup_delete_eq.
  - intros id' Hne. by rewrite lookup_delete_ne.
  - intros r user req now repoNow newID Hm Hu Hb Hv <-.
    rewrite (CreateReservation_valid r user req now repoNow newID _ Hm Hu Hb Hv).
    simpl. by rewrite lookup_delete_eq.
  - intros status now. apply UpdateEnvironmentStatus_absent.
    simpl. by rewrite lookup_delete_eq.
Qed.

(** [env-1] is deleted while Bob holds it: his reservation stays listed,
    and Alice's request for [env-1] is answered 404. *)
Lemma X13_delete_environment_witness :
  db.ListActiveReservations 100
    (snd (EnvironmentRepository.DeleteEnvironment "env-1" scenario.held))
  = Ok [sample.reservation "r1" "env-1" "bob" 0 1800]
  /\ handlers.Code
       (fst (handlers.CreateReservation
               (more.reserve (sample.user "alice") (sample.request "env-1" 30 "x"))
               100 101 "r2"
               (snd (EnvironmentRepository.DeleteEnvironment "env-1" scenario.held))))
     = 404.
Proof.
  destruct (X13_delete_environment "env-1" scenario.held)
    as (_ & _ & _ & Hres & Hreserve & _).
  split.
  - unfold db.ListActiveReservations, Scan. rewrite Hres. reflexivity.
  - rewrite (Hreserve
               (more.reserve (sample.user "alice") (sample.request "env-1" 30 "x"))
               (sample.user "alice") (sample.request "env-1" 30 "x") 100 101 "r2"
               eq_refl eq_refl eq_refl eq_refl eq_refl).
    reflexivity.
Defined.

(** The handler [CreateEnvironment] on a named environment. *)
Lemma CreateEnvironment_named q user creq newID now t :
  utils.Method q = "POST" ->
  utils.ContextUser q = handlers.UserValue user ->
  utils.Body q = Some creq ->
  CreateName creq <> "" ->
  EnvironmentHandler.CreateEnvironment q newID now t
  = (utils.RespondWithSuccess
       {| EnvID := newID; Name := CreateName creq;
          Description := CreateDescription creq; Status := StatusFree;
          CreatedBy := Username user; EnvCreatedAt := now; EnvLastUpdated := now |},
     {| Environments :=
          <[newID := {| EnvID := newID; Name := CreateName creq;
                        Description := CreateDescription creq; Status := StatusFree;
                        CreatedBy := Username user; EnvCreatedAt := now;
                        EnvLastUpdated := now |}]> (Environments t);
        Reservations := Reservations t |}).
Proof.
  intros Hm Hu Hb Hn. unfold EnvironmentHandler.CreateEnvironment.
  rewrite Hm, Hu, Hb. simpl. by rewrite (proj2 (String.eqb_neq _ _) Hn).
Qed.

(** X14: the handler [CreateEnvironment] answers a request with a name
    with 200 and the new environment, FREE and created by the requester,
    whatever the requester's role; a valid Reserve request for the new id
    then commits. *)
Theorem X14_created_environment_is_reservable
    q admin creq newID now t r user req now2 repoNow2 reservationID :
  utils.Method q = "POST" ->
  utils.ContextUser q = handlers.UserValue admin ->
  utils.Body q = Some creq ->
  CreateName creq <> "" ->
  handlers.Method r = "POST" ->
  handlers.ContextUser r = handlers.UserValue user ->
  handlers.Body r = Some req ->
  spec.passesValidation req = true ->
  ReqEnvironmentID req = newID ->
  (exists created,
      fst (EnvironmentHandler.CreateEnvironment q newID now t)
      = utils.RespondWithSuccess created
      /\ EnvID created = newID /\ Status created = StatusFree
      /\ CreatedBy created = Username admin /\ Name created = CreateName creq)
  /\ fst (handlers.CreateReservation r now2 repoNow2 reservationID
            (snd (EnvironmentHandler.CreateEnvironment q newID now t)))
     = handlers.RespondWithSuccess
         (handlers.ReservationData
            (db.stamp reservationID repoNow2 (handlers.newReservation user req now2))).
Proof.
  intros Hq Hqu Hqb Hn Hm Hu Hb Hv Hid.
  rewrite (CreateEnvironment_named q admin creq newID now t Hq Hqu Hqb Hn).
  split; [by eexists|]. simpl snd.
  erewrite (Reserve_commits r user req now2 repoNow2 reservationID _ _ Hm Hu Hb Hv);
    [done | | ]; simpl.
  - rewrite Hid. apply lookup_insert_eq.
  - done.
Qed.

(** Alice, who is no admin, creates [env-7] through the handler and Bob
    reserves it. *)
Lemma X14_created_environment_witness :
  handlers.Code
    (fst (handlers.CreateReservation
            (more.reserve (sample.user "bob") (sample.request "env-7" 30 "x"))
            200 201 "r1"
            (snd (EnvironmentHandler.CreateEnvironment
                    (routes.request "POST" (handlers.UserValue (sample.user "alice"))
                       (Some {| CreateName := "staging"; CreateDescription := "" |}) "")
                    "env-7" 100 sample.oneFree)))) = 200.
Proof.
  rewrite (proj2 (X14_created_environment_is_reservable
                    (routes.request "POST" (handlers.UserValue (sample.user "alice"))
                       (Some {| CreateName := "staging"; CreateDescription := "" |}) "")
                    (sample.user "alice")
                    {| CreateName := "staging"; CreateDescription := "" |}
                    "env-7" 100 sample.oneFree
                    (more.reserve (sample.user "bob") (sample.request "env-7" 30 "x"))
                    (sample.user "bob") (sample.request "env-7" 30 "x") 200 201 "r1"
                    eq_refl eq_refl eq_refl ltac:(discriminate)
                    eq_refl eq_refl eq_refl eq_refl eq_refl)).
  reflexivity.
Defined.

(** The map built by [ListEnvironments] holds, for an environment, the
    last reservation of the listing that names it. *)
Lemma reservationMap_lookup (l : list Reservation) (k : string)
    (m : gmap string Reservation) :
  fold_left (fun m r => <[EnvironmentID r := r]> m) l m !! k
  = match last (List.filter (fun r => String.eqb (EnvironmentID r) k) l) with
    | Some r => Some r
    | None => m !! k
    end.
Proof.
  induction l as [|x l IH] using rev_ind; [done|].
  rewrite fold_left_app, List.filter_app. simpl.
  destruct (String.eqb_spec (EnvironmentID x) k) as [E|E].
  - by rewrite last_snoc, E, lookup_insert_eq.
  - by rewrite app_nil_r, lookup_insert_ne.
Qed.

Lemma filter_environment_of_active k now l :
  List.filter (fun r => String.eqb (EnvironmentID r) k)
    (List.filter (db.activeAt now) l)
  = List.filter (fun r => String.eqb (EnvironmentID r) k && db.activeAt now r) l.
Proof.
  induction l as [|x l IH]; simpl; [done|].
  destruct (db.activeAt now x); simpl.
  - rewrite andb_true_r. by destruct (String.eqb (EnvironmentID x) k); rewrite IH.
  - by rewrite andb_false_r.
Qed.

(** X15: the handler [ListEnvironments] answers with one entry per stored
    environment; when no environment has more than one active reservation,
    each entry is what the handler [GetEnvironment] answers for that
    environment. *)
Theorem X15_listing_agrees_with_lookup (q : utils.Request unit) now t :
  utils.Method q = "GET" ->
  more.keyed t ->
  system.mutualExclusion now t ->
  exists listed,
    EnvironmentHandler.ListEnvironments q now t = utils.RespondWithSuccess listed
    /\ length listed = size (Environments t)
    /\ (forall id e, Environments t !! id = Some e ->
                     exists entry, In entry listed /\ Environment_ entry = e)
    /\ (forall entry (q' : utils.Request unit),
           In entry listed ->
           utils.Method q' = "GET" ->
           utils.Var q' = EnvID (Environment_ entry) ->
           utils.Var q' <> "" ->
           EnvironmentHandler.GetEnvironment q' now t = utils.RespondWithSuccess entry).
Proof.
  intros Hq Hkeyed Hmutex.
  unfold EnvironmentHandler.ListEnvironments. rewrite Hq. simpl.
  eexists. split; [reflexivity|]. split; [|split].
  - rewrite length_map. unfold table.ScanAll.
    by rewrite length_fmap, length_map_to_list.
  - intros id e He.
    exists {| Environment_ := e;
              CurrentReservation :=
                EnvironmentHandler.reservationMap (Scan (db.activeAt now) t)
                !! EnvID e |}.
    split; [|done].
    apply in_map_iff. exists e. split; [done|].
    apply list_elem_of_In. unfold table.ScanAll.
    apply list_elem_of_fmap. exists (id, e). split; [done|].
    by apply elem_of_map_to_list.
  - intros entry q' Hin Hq' Hvar Hne.
    apply in_map_iff in Hin as (e & <- & Hin).
    apply list_elem_of_In in Hin. unfold table.ScanAll in Hin.
    apply list_elem_of_fmap in Hin as ([id e'] & -> & Hin).
    apply elem_of_map_to_list in Hin. simpl in *.
    pose proof (Hkeyed id e' Hin) as Hid.
    unfold EnvironmentHandler.GetEnvironment.
    rewrite Hq', Hvar, Hid. simpl negb. cbv iota.
    assert (Hne' : id <> "") by congruence.
    rewrite (proj2 (String.eqb_neq _ _) Hne').
    unfold db.GetEnvironment. rewrite Hin.
    unfold db.GetActiveReservationByEnvironmentID. rewrite Scan_environment.
    unfold EnvironmentHandler.reservationMap.
    rewrite reservationMap_lookup, lookup_empty.
    unfold Scan. rewrite filter_environment_of_active.
    fold (system.activeOn id now t).
    specialize (Hmutex id).
    destruct (system.activeOn id now t) as [|x [|y l]]; simpl in Hmutex;
      [done | done | lia].
Qed.

(** The listing of [scenario.held] at time 100 has one entry, [env-1]
    with Bob's reservation. *)
Lemma X15_listing_witness :
  exists listed,
    EnvironmentHandler.ListEnvironments
      (routes.request "GET" handlers.NoValue (None : option unit) "") 100 scenario.held
    = utils.RespondWithSuccess listed
    /\ length listed = 1%nat.
Proof.
  destruct (X15_listing_agrees_with_lookup
              (routes.request "GET" handlers.NoValue (None : option unit) "")
              100 scenario.held eq_refl)
    as (listed & Hl & Hn & _).
  - intros id e H. simpl in H. apply lookup_singleton_Some in H as [<- <-]. done.
  - intros e. unfold system.activeOn.
    etransitivity; [apply List.filter_length_le | simpl; lia].
  - exists listed. split; [exact Hl|]. rewrite Hn. simpl.
    apply map_size_singleton.
Defined.

(** The reservation engine and the environment repository keep every
    environment under its own id. *)
Lemma keyed_exec s t : more.keyed t -> more.keyed (system.exec s t).
Proof.
  intros Hk id e He.
  destruct s as [user req now repoNow newID | user rid now | listNow now].
  - destruct (exec_Reserve user req now repoNow newID t)
      as [E | (env & r0 & Henv & _ & _ & _ & E)]; rewrite E in He; [by apply Hk|].
    simpl in He. unfold updateEnvironment in He. rewrite Henv in He.
    destruct (decide (ReqEnvironmentID req = id)) as [<-|Hne].
    + rewrite lookup_insert_eq in He. injection He as <-. exact (Hk _ _ Henv).
    + rewrite lookup_insert_ne in He by done. by apply Hk.
  - destruct (exec_Release user rid now t) as [E | (r0 & _ & _ & E)];
      rewrite E in He; [by apply Hk|].
    simpl in He. unfold updateEnvironment in He.
    destruct (decide (EnvironmentID r0 = id)) as [<-|Hne].
    + destruct (Environments t !! EnvironmentID r0) as [e0|] eqn:H0;
        rewrite lookup_insert_eq in He; injection He as <-;
        [exact (Hk _ _ H0) | done].
    + destruct (Environments t !! EnvironmentID r0);
        rewrite lookup_insert_ne in He by done; by apply Hk.
  - destruct (exec_SweeperCycle listNow now t) as [_ Hs].
    destruct (Hs id) as [Hkk | (e0 & r0 & H0 & Hkk & _)]; rewrite Hkk in He.
    + by apply Hk.
    + injection He as <-. exact (Hk _ _ H0).
Qed.

(** * Properties of the user repository *)



(** X17: [UpdateUser] of a user name that is not in the table fails and
    writes nothing; of one that is, it replaces the record by the
    caller's (password, role and createdAt included) with lastUpdated
    set to the time of the call.  [DeleteUser]
    always succeeds, [GetUser] returns nil afterwards, and the name can
    be created again.  Neither touches another account. *)
Theorem X17_update_and_delete_user user now username users :
  (users !! Username user = None ->
   UserRepository.UpdateUser user now users
   = (Err (wrap "failed to update user" ConditionalCheckFailed), users))
  /\ (forall old,
      users !! Username user = Some old ->
      exists users',
        UserRepository.UpdateUser user now users = (Ok tt, users')
        /\ UserRepository.GetUser (Username user) users'
           = Ok (Some {| Username := Username user; Password := Password user;
                         Role := Role user; UserCreatedAt := UserCreatedAt user;
                         UserLastUpdated := now |})
        /\ forall name, name <> Username user -> users' !! name = users !! name)
  /\ (exists users',
        UserRepository.DeleteUser username users = (Ok tt, users')
        /\ UserRepository.GetUser username users' = Ok None
        /\ (forall name, name <> username -> users' !! name = users !! name)
        /\ forall again,
             Username again = username ->
             fst (UserRepository.CreateUser again now users') = Ok tt).
Proof.
  split; [|split].
  - intros H. unfold UserRepository.UpdateUser, table.PutItem. simpl. by rewrite H.
  - intros old H. unfold UserRepository.UpdateUser, table.PutItem. simpl. rewrite H.
    eexists. split; [reflexivity|].
    unfold UserRepository.GetUser. split; [by rewrite lookup_insert_eq|].
    intros name Hne. by rewrite lookup_insert_ne.
  - eexists. split; [reflexivity|].
    unfold UserRepository.GetUser. split; [by rewrite lookup_delete_eq|].
    split; [intros name Hne; by rewrite lookup_delete_ne|].
    intros again <-. unfold UserRepository.CreateUser, table.PutItem. simpl.
    by rewrite lookup_delete_eq.
Qed.

(** An update of the unknown [bob], and an update of [alice]. *)
Lemma X17_update_user_witness :
  fst (UserRepository.UpdateUser (sample.user "bob") 100 more.oneUser)
  = Err "failed to update user: ConditionalCheckFailedException"
  /\ exists stored,
       UserRepository.GetUser "alice"
         (snd (UserRepository.UpdateUser (sample.user "alice") 100 more.oneUser))
       = Ok (Some stored)
       /\ Username stored = "alice" /\ UserLastUpdated stored = 100.
Proof.
  destruct (X17_update_and_delete_user (sample.user "bob") 100 "bob" more.oneUser)
    as (Hmissing & _ & _).
  destruct (X17_update_and_delete_user (sample.user "alice") 100 "alice" more.oneUser)
    as (_ & Hpresent & _).
  split.
  - by rewrite (Hmissing eq_refl).
  - destruct (Hpresent more.alice eq_refl) as (users' & -> & Hg & _).
    eexists. split; [exact Hg|]. split; reflexivity.
Defined.

(** * Properties of the user and authentication handlers *)

(** [HashPassword] on a password the handlers accept is bcrypt's answer. *)
Lemma HashPassword_long lib password :
  (String.length password <? 8)%nat = false ->
  utils.HashPassword lib password
  = match utils.GenerateFromPassword lib password with
    | Err e => Err (wrap "failed to hash password" e)
    | Ok hashed => Ok hashed
    end.
Proof. intros H. unfold utils.HashPassword. by rewrite H. Qed.

(** A branch that answers with an error and returns the table as it was. *)
Ltac refused :=
  left; split; [reflexivity | cbn; discriminate].

(** What [Register] does: it answers with an error and leaves the users
    table as it was, or it adds a regular user under a new name with the
    hash of the password. *)
Lemma Register_outcome lib cfg q now repoNow tokenNow users :
  (snd (AuthHandler.Register lib cfg q now repoNow tokenNow users) = users
   /\ utils.Code (fst (AuthHandler.Register lib cfg q now repoNow tokenNow users))
      <> 200)
  \/ exists req hashed,
       utils.Method q = "POST"
       /\ utils.Body q = Some req
       /\ RegisterUsername req <> ""
       /\ (8 <= String.length (RegisterPassword req))%nat
       /\ users !! RegisterUsername req = None
       /\ utils.GenerateFromPassword lib (RegisterPassword req) = Ok hashed
       /\ snd (AuthHandler.Register lib cfg q now repoNow tokenNow users)
          = <[RegisterUsername req :=
                {| Username := RegisterUsername req; Password := hashed;
                   Role := RoleUser; UserCreatedAt := repoNow;
                   UserLastUpdated := repoNow |}]> users.
Proof.
  unfold AuthHandler.Register.
  destruct (String.eqb_spec (utils.Method q) "POST") as [Hm|Hm]; [|refused].
  simpl negb. cbv iota.
  destruct (utils.Body q) as [req|] eqn:Hb; [|refused].
  destruct (String.eqb_spec (RegisterUsername req) "") as [Hn|Hn]; [refused|].
  destruct (Nat.ltb_spec (String.length (RegisterPassword req)) 8) as [Hp|Hp];
    [refused|].
  unfold UserRepository.GetUser.
  destruct (users !! RegisterUsername req) as [existing|] eqn:Hu; [refused|].
  rewrite HashPassword_long by (by apply Nat.ltb_ge).
  destruct (utils.GenerateFromPassword lib (RegisterPassword req)) as [hashed|e] eqn:Hh;
    [|refused].
  unfold UserRepository.CreateUser, table.PutItem. simpl. rewrite Hu.
  right. exists req, hashed.
  repeat split; try done.
  by destruct (utils.GenerateToken lib _ cfg tokenNow).
Qed.

(** X18: [Register] never changes or removes an existing account, and
    never creates an administrator: an account that is in the table
    afterwards and was not before has the role USER, the non-empty user
    name of the request and, as its password, what bcrypt made of the
    request's password of at least eight characters.  An answer 200
    means the account was created. *)
Theorem X18_register lib cfg q now repoNow tokenNow users :
  (forall name u,
      users !! name = Some u ->
      snd (AuthHandler.Register lib cfg q now repoNow tokenNow users) !! name = Some u)
  /\ (forall name u,
      snd (AuthHandler.Register lib cfg q now repoNow tokenNow users) !! name = Some u ->
      users !! name = None ->
      Role u = RoleUser
      /\ name <> ""
      /\ exists req,
           utils.Body q = Some req
           /\ Username u = RegisterUsername req /\ name = RegisterUsername req
           /\ (8 <= String.length (RegisterPassword req))%nat
           /\ utils.GenerateFromPassword lib (RegisterPassword req) = Ok (Password u))
  /\ (utils.Code (fst (AuthHandler.Register lib cfg q now repoNow tokenNow users)) = 200 ->
      exists req u,
        utils.Body q = Some req
        /\ users !! RegisterUsername req = None
        /\ snd (AuthHandler.Register lib cfg q now repoNow tokenNow users)
           !! RegisterUsername req = Some u).
Proof.
  split; [|split].
  - intros name u Hu.
    destruct (Register_outcome lib cfg q now repoNow tokenNow users)
      as [[-> _] | (req & hashed & _ & _ & _ & _ & Hnew & _ & ->)]; [done|].
    rewrite lookup_insert_ne; [done|]. intros <-. congruence.
  - intros name u Hu Hnone.
    destruct (Register_outcome lib cfg q now repoNow tokenNow users)
      as [[E _] | (req & hashed & _ & Hb & Hn & Hp & Hnew & Hh & E)];
      rewrite E in Hu; [congruence|].
    destruct (decide (RegisterUsername req = name)) as [<-|Hne].
    + rewrite lookup_insert_eq in Hu. injection Hu as <-. simpl.
      split; [done|]. split; [done|]. by exists req.
    + rewrite lookup_insert_ne in Hu by done. congruence.
  - intros Hcode.
    destruct (Register_outcome lib cfg q now repoNow tokenNow users)
      as [[_ E] | (req & hashed & _ & Hb & _ & _ & Hnew & _ & E)]; [done|].
    exists req. eexists. split; [done|]. split; [done|].
    rewrite E. apply lookup_insert_eq.
Qed.

(** Bob registers with the toy library: his account is a regular user's
    with the toy hash, and Alice's account is as it was. *)
Lemma X18_register_witness :
  let users' :=
    snd (AuthHandler.Register more.toy more.config
           (routes.request "POST" handlers.NoValue
              (Some {| RegisterUsername := "bob"; RegisterPassword := "hunter2hunter2" |})
              "")
           100 101 102 more.oneUser) in
  users' !! "alice" = Some more.alice
  /\ Role <$> users' !! "bob" = Some RoleUser.
Proof.
  destruct (X18_register more.toy more.config
              (routes.request "POST" handlers.NoValue
                 (Some {| RegisterUsername := "bob";
                          RegisterPassword := "hunter2hunter2" |}) "")
              100 101 102 more.oneUser) as (Hold & Hnew & _).
  split.
  - apply Hold. reflexivity.
  - destruct (Hnew "bob"
                {| Username := "bob"; Password := "$2a$hunter2hunter2"; Role := RoleUser;
                   UserCreatedAt := 101; UserLastUpdated := 101 |}
                eq_refl eq_refl) as (Hrole & _).
    reflexivity.
Defined.

(** [Login] past the method, the body and the two empty checks. *)
Lemma Login_checked lib cfg q req tokenNow users :
  utils.Method q = "POST" ->
  utils.Body q = Some req ->
  LoginUsername req <> "" ->
  LoginPassword req <> "" ->
  AuthHandler.Login lib cfg q tokenNow users
  = match users !! LoginUsername req with
    | None =>
        utils.RespondWithError handlers.StatusUnauthorized "Invalid username or password"
    | Some found =>
        if negb (utils.CheckPassword lib (LoginPassword req) (Password found))
        then utils.RespondWithError handlers.StatusUnauthorized
               "Invalid username or password"
        else
          match utils.GenerateToken lib found cfg tokenNow with
          | Err _ =>
              utils.RespondWithError handlers.StatusInternalServerError
                "Failed to generate token"
          | Ok token =>
              utils.RespondWithSuccess
                {| AuthHandler.Token := token;
                   AuthHandler.TokenUser := ToResponse found |}
          end
    end.
Proof.
  intros Hm Hb Hn Hp. unfold AuthHandler.Login. rewrite Hm, Hb. simpl.
  by rewrite (proj2 (String.eqb_neq _ _) Hn), (proj2 (String.eqb_neq _ _) Hp).
Qed.

(** X19: [Login] gives the same answer, 401 "Invalid username or
    password", for a user name that does not exist and for a wrong
    password; it answers 200 exactly when the account exists, bcrypt
    accepts the password against the stored hash and the token is signed,
    and the answer then carries that token with the account's name and
    role. *)
Theorem X19_login lib cfg q req tokenNow users :
  utils.Method q = "POST" ->
  utils.Body q = Some req ->
  LoginUsername req <> "" ->
  LoginPassword req <> "" ->
  (users !! LoginUsername req = None ->
   AuthHandler.Login lib cfg q tokenNow users
   = utils.RespondWithError handlers.StatusUnauthorized "Invalid username or password")
  /\ (forall found,
      users !! LoginUsername req = Some found ->
      utils.CompareHashAndPassword lib (Password found) (LoginPassword req) = false ->
      AuthHandler.Login lib cfg q tokenNow users
      = utils.RespondWithError handlers.StatusUnauthorized "Invalid username or password")
  /\ (utils.Code (AuthHandler.Login lib cfg q tokenNow users) = 200
      <-> exists found token,
            users !! LoginUsername req = Some found
            /\ utils.CompareHashAndPassword lib (Password found) (LoginPassword req)
               = true
            /\ utils.GenerateToken lib found cfg tokenNow = Ok token)
  /\ (forall found token,
      users !! LoginUsername req = Some found ->
      utils.CompareHashAndPassword lib (Password found) (LoginPassword req) = true ->
      utils.GenerateToken lib found cfg tokenNow = Ok token ->
      AuthHandler.Login lib cfg q tokenNow users
      = utils.RespondWithSuccess
          {| AuthHandler.Token := token;
             AuthHandler.TokenUser :=
               {| RespUsername := Username found; RespRole := Role found;
                  RespCreatedAt := UserCreatedAt found;
                  RespLastUpdated := UserLastUpdated found |} |}).
Proof.
  intros Hm Hb Hn Hp.
  rewrite (Login_checked lib cfg q req tokenNow users Hm Hb Hn Hp).
  unfold utils.CheckPassword.
  split; [|split; [|split]].
  - by intros ->.
  - intros found -> Hc. by rewrite Hc.
  - split.
    + destruct (users !! LoginUsername req) as [found|]; [|by cbn].
      destruct (utils.CompareHashAndPassword lib _ _) eqn:Hc; [|by cbn].
      simpl negb. cbv iota.
      destruct (utils.GenerateToken lib found cfg tokenNow) as [token|e] eqn:Hg;
        [|by cbn].
      intros _. by exists found, token.
    + intros (found & token & -> & -> & ->). reflexivity.
  - intros found token -> -> ->. reflexivity.
Qed.

(** Mallory is unknown and Alice mistypes: the answers are the same;
    Alice's right password gets her the toy token. *)
Lemma X19_login_witness :
  AuthHandler.Login more.toy more.config
    (routes.request "POST" handlers.NoValue
       (Some {| LoginUsername := "mallory"; LoginPassword := "correct-horse" |}) "")
    100 more.oneUser
  = AuthHandler.Login more.toy more.config
      (routes.request "POST" handlers.NoValue
         (Some {| LoginUsername := "alice"; LoginPassword := "wrong-horse" |}) "")
      100 more.oneUser
  /\ utils.Data
       (AuthHandler.Login more.toy more.config
          (routes.request "POST" handlers.NoValue
             (Some {| LoginUsername := "alice"; LoginPassword := "correct-horse" |}) "")
          100 more.oneUser)
     = Some {| AuthHandler.Token := "s3cret.alice";
               AuthHandler.TokenUser := ToResponse more.alice |}.
Proof.
  pose (call name password :=
          X19_login more.toy more.config
            (routes.request "POST" handlers.NoValue
               (Some {| LoginUsername := name; LoginPassword := password |}) "")
            {| LoginUsername := name; LoginPassword := password |}
            100 more.oneUser eq_refl eq_refl).
  split.
  - rewrite (proj1 (call "mallory" "correct-horse"
                      ltac:(discriminate) ltac:(discriminate)) eq_refl).
    rewrite (proj1 (proj2 (call "alice" "wrong-horse"
                             ltac:(discriminate) ltac:(discriminate)))
               more.alice eq_refl eq_refl).
    reflexivity.
  - rewrite (proj2 (proj2 (proj2 (call "alice" "correct-horse"
                                    ltac:(discriminate) ltac:(discriminate))))
               more.alice "s3cret.alice" eq_refl eq_refl eq_refl).
    reflexivity.
Defined.

(** What the handler [CreateUser] does: it answers with an error and
    leaves the users table as it was, or, for an administrator, it adds a
    user under a new name. *)
Lemma CreateUser_outcome lib q now repoNow users :
  (snd (UserHandler.CreateUser lib q now repoNow users) = users
   /\ utils.Code (fst (UserHandler.CreateUser lib q now repoNow users)) <> 200)
  \/ exists admin req hashed role,
       utils.ContextUser q = handlers.UserValue admin
       /\ Role admin = RoleAdmin
       /\ utils.Body q = Some req
       /\ UserHandler.NewUsername req <> ""
       /\ (8 <= String.length (UserHandler.NewPassword req))%nat
       /\ role = (if String.eqb (UserHandler.NewRole req) "" then RoleUser
                  else UserHandler.NewRole req)
       /\ (role = RoleUser \/ role = RoleAdmin)
       /\ users !! UserHandler.NewUsername req = None
       /\ utils.GenerateFromPassword lib (UserHandler.NewPassword req) = Ok hashed
       /\ UserHandler.CreateUser lib q now repoNow users
          = (utils.RespondWithSuccess
               {| RespUsername := UserHandler.NewUsername req; RespRole := role;
                  RespCreatedAt := now; RespLastUpdated := now |},
             <[UserHandler.NewUsername req :=
                 {| Username := UserHandler.NewUsername req; Password := hashed;
                    Role := role; UserCreatedAt := repoNow;
                    UserLastUpdated := repoNow |}]> users).
Proof.
  unfold UserHandler.CreateUser.
  destruct (String.eqb_spec (utils.Method q) "POST") as [Hm|Hm]; [|refused].
  simpl negb. cbv iota.
  destruct (utils.ContextUser q) as [| |admin] eqn:Hu; [refused | refused |].
  destruct (String.eqb_spec (Role admin) RoleAdmin) as [Ha|Ha]; [|refused].
  simpl negb. cbv iota.
  destruct (utils.Body q) as [req|] eqn:Hb; [|refused].
  destruct (String.eqb_spec (UserHandler.NewUsername req) "") as [Hn|Hn]; [refused|].
  destruct (Nat.ltb_spec (String.length (UserHandler.NewPassword req)) 8) as [Hp|Hp];
    [refused|].
  set (role := if String.eqb (UserHandler.NewRole req) "" then RoleUser
               else UserHandler.NewRole req).
  destruct (String.eqb_spec role RoleUser) as [Hr|Hr];
    [|destruct (String.eqb_spec role RoleAdmin) as [Hr'|Hr']; [|refused]];
    simpl andb; cbv iota.
  all: unfold UserRepository.GetUser;
    (destruct (users !! UserHandler.NewUsername req) as [existing|] eqn:Hex;
     [refused|]);
    rewrite HashPassword_long by (by apply Nat.ltb_ge);
    (destruct (utils.GenerateFromPassword lib (UserHandler.NewPassword req))
       as [hashed|e] eqn:Hh; [|refused]);
    unfold UserRepository.CreateUser, table.PutItem; simpl; rewrite Hex;
    right; exists admin, req, hashed, role; repeat split; try done; by auto.
Qed.

(** X20: the handler [CreateUser] writes only for an administrator: any
    other request leaves the users table as it was, and is answered 403
    when its user is no administrator.  It never changes or removes an
    existing account.  An account it adds has the role of the request,
    USER when the request names none, and never another role than USER
    or ADMIN; the table holds the repository's time of creation while the
    answer carries the handler's. *)
Theorem X20_create_user_handler lib q now repoNow users :
  (forall name u,
      users !! name = Some u ->
      snd (UserHandler.CreateUser lib q now repoNow users) !! name = Some u)
  /\ (forall name u,
      snd (UserHandler.CreateUser lib q now repoNow users) !! name = Some u ->
      users !! name = None ->
      (exists admin,
          utils.ContextUser q = handlers.UserValue admin /\ Role admin = RoleAdmin)
      /\ (Role u = RoleUser \/ Role u = RoleAdmin)
      /\ UserCreatedAt u = repoNow
      /\ exists req,
           utils.Body q = Some req
           /\ name = UserHandler.NewUsername req
           /\ (UserHandler.NewRole req = "" -> Role u = RoleUser)
           /\ (UserHandler.NewRole req <> "" -> Role u = UserHandler.NewRole req)
           /\ utils.GenerateFromPassword lib (UserHandler.NewPassword req)
              = Ok (Password u)
           /\ RespCreatedAt
                <$> utils.Data (fst (UserHandler.CreateUser lib q now repoNow users))
              = Some now)
  /\ (forall user,
      utils.Method q = "POST" ->
      utils.ContextUser q = handlers.UserValue user ->
      Role user <> RoleAdmin ->
      UserHandler.CreateUser lib q now repoNow users
      = (utils.RespondWithError handlers.StatusForbidden "Admin access required",
         users)).
Proof.
  split; [|split].
  - intros name u Hu.
    destruct (CreateUser_outcome lib q now repoNow users)
      as [[-> _] | (admin & req & hashed & role & _ & _ & _ & _ & _ & _ & _
                    & Hnew & _ & ->)]; [done|].
    simpl. rewrite lookup_insert_ne; [done|]. intros <-. congruence.
  - intros name u Hu Hnone.
    destruct (CreateUser_outcome lib q now repoNow users)
      as [[E _] | (admin & req & hashed & role & Hctx & Ha & Hb & Hn & Hp & Hrole
                   & Hdom & Hnew & Hh & E)];
      rewrite E in Hu; [congruence|].
    simpl in Hu.
    destruct (decide (UserHandler.NewUsername req = name)) as [<-|Hne].
    2: { rewrite lookup_insert_ne in Hu by done. congruence. }
    rewrite lookup_insert_eq in Hu. injection Hu as <-. simpl.
    split; [by exists admin|]. split; [done|]. split; [done|].
    exists req. rewrite E. simpl.
    repeat split; try done.
    + intros Hempty. by rewrite Hrole, Hempty.
    + intros Hnamed. by rewrite Hrole, (proj2 (String.eqb_neq _ _) Hnamed).
  - intros user Hm Hu Ha. unfold UserHandler.CreateUser.
    by rewrite Hm, Hu, (proj2 (String.eqb_neq _ _) Ha).
Qed.

(** Alice, a regular user, asks for an account for Bob: 403; the admin
    asks without naming a role: Bob is a regular user. *)
Lemma X20_create_user_handler_witness :
  utils.Code
    (fst (UserHandler.CreateUser more.toy
            (routes.request "POST" (handlers.UserValue more.alice)
               (Some {| UserHandler.NewUsername := "bob";
                        UserHandler.NewPassword := "hunter2hunter2";
                        UserHandler.NewRole := "" |}) "")
            100 101 more.oneUser)) = 403
  /\ Role <$> snd (UserHandler.CreateUser more.toy
                     (routes.request "POST" (handlers.UserValue more.admin)
                        (Some {| UserHandler.NewUsername := "bob";
                                 UserHandler.NewPassword := "hunter2hunter2";
                                 UserHandler.NewRole := "" |}) "")
                     100 101 more.oneUser) !! "bob" = Some RoleUser.
Proof.
  split.
  - rewrite (proj2 (proj2 (X20_create_user_handler more.toy
                             (routes.request "POST" (handlers.UserValue more.alice)
                                (Some {| UserHandler.NewUsername := "bob";
                                         UserHandler.NewPassword := "hunter2hunter2";
                                         UserHandler.NewRole := "" |}) "")
                             100 101 more.oneUser))
               more.alice eq_refl eq_refl ltac:(discriminate)).
    reflexivity.
  - destruct (proj1 (proj2 (X20_create_user_handler more.toy
                              (routes.request "POST" (handlers.UserValue more.admin)
                                 (Some {| UserHandler.NewUsername := "bob";
                                          UserHandler.NewPassword := "hunter2hunter2";
                                          UserHandler.NewRole := "" |}) "")
                              100 101 more.oneUser))
                "bob"
                {| Username := "bob"; Password := "$2a$hunter2hunter2"; Role := RoleUser;
                   UserCreatedAt := 101; UserLastUpdated := 101 |}
                eq_refl eq_refl) as (_ & _ & _ & req & _).
    reflexivity.
Defined.

(** * Properties of the middleware *)

Lemma substring_all s : String.substring 0 (String.length s) s = s.
Proof. induction s as [|c s IH]; simpl; [done | by rewrite IH]. Qed.

Lemma trimBearer_Bearer tokenString :
  middleware.trimBearer ("Bearer " +:+ tokenString) = tokenString.
Proof. unfold middleware.trimBearer. simpl. rewrite Nat.sub_0_r. apply substring_all. Qed.

Lemma prefix_Bearer tokenString :
  String.prefix "Bearer " ("Bearer " +:+ tokenString) = true.
Proof. apply String.prefix_correct. simpl. by destruct tokenString. Qed.

(** The user [AuthMiddleware] puts in the context. *)
Lemma AuthMiddleware_valid {A : Type} lib cfg (next : handlers.ContextValue -> A)
    authHeader claims :
  authHeader <> "" ->
  String.prefix "Bearer " authHeader = true ->
  utils.ValidateToken lib (middleware.trimBearer authHeader) cfg = Ok claims ->
  middleware.AuthMiddleware lib cfg next authHeader
  = middleware.Next
      (next (handlers.UserValue
               {| Username := utils.ClaimUsername claims; Password := "";
                  Role := utils.ClaimRole claims;
                  UserCreatedAt := zeroTime; UserLastUpdated := zeroTime |})).
Proof.
  intros Hne Hp Hv. unfold middleware.AuthMiddleware.
  by rewrite (proj2 (String.eqb_neq _ _) Hne), Hp, Hv.
Qed.

Lemma AuthMiddleware_Next {A : Type} lib cfg (next : handlers.ContextValue -> A)
    authHeader a :
  middleware.AuthMiddleware lib cfg next authHeader = middleware.Next a ->
  exists claims,
    authHeader <> ""
    /\ String.prefix "Bearer " authHeader = true
    /\ utils.ValidateToken lib (middleware.trimBearer authHeader) cfg = Ok claims
    /\ a = next (handlers.UserValue
                   {| Username := utils.ClaimUsername claims; Password := "";
                      Role := utils.ClaimRole claims;
                      UserCreatedAt := zeroTime; UserLastUpdated := zeroTime |}).
Proof.
  unfold middleware.AuthMiddleware.
  destruct (String.eqb_spec authHeader "") as [He|He]; [done|].
  destruct (String.prefix "Bearer " authHeader) eqn:Hp; [|done].
  simpl negb. cbv iota.
  destruct (utils.ValidateToken lib (middleware.trimBearer authHeader) cfg)
    as [claims|e]; [|done].
  intros [= <-]. by exists claims.
Qed.

(** X21: the admin route for creating environments.  The handler runs
    only for a request whose Authorization header is "Bearer " followed
    by a token that validates with the role ADMIN; it then sees a user
    with the name and role of the claims and an empty password.  Every
    other request is answered by a middleware (401 without a valid
    token, 403 for another role), and the tables are as they were. *)
Theorem X21_admin_route lib cfg authHeader body newID now t :
  (forall out,
      routes.adminCreateEnvironment lib cfg authHeader body newID now t
      = middleware.Next (middleware.Next out)
      <-> exists claims,
            authHeader <> ""
            /\ String.prefix "Bearer " authHeader = true
            /\ utils.ValidateToken lib (middleware.trimBearer authHeader) cfg
               = Ok claims
            /\ utils.ClaimRole claims = RoleAdmin
            /\ out = EnvironmentHandler.CreateEnvironment
                       (routes.request "POST"
                          (handlers.UserValue
                             {| Username := utils.ClaimUsername claims; Password := "";
                                Role := utils.ClaimRole claims;
                                UserCreatedAt := zeroTime;
                                UserLastUpdated := zeroTime |})
                          body "")
                       newID now t)
  /\ (forall claims,
      authHeader <> "" ->
      String.prefix "Bearer " authHeader = true ->
      utils.ValidateToken lib (middleware.trimBearer authHeader) cfg = Ok claims ->
      utils.ClaimRole claims <> RoleAdmin ->
      routes.adminCreateEnvironment lib cfg authHeader body newID now t
      = middleware.Next
          (middleware.HttpError "Admin access required" handlers.StatusForbidden))
  /\ ((authHeader = "" \/ String.prefix "Bearer " authHeader = false
       \/ exists e,
            utils.ValidateToken lib (middleware.trimBearer authHeader) cfg = Err e) ->
      exists message,
        routes.adminCreateEnvironment lib cfg authHeader body newID now t
        = middleware.HttpError message handlers.StatusUnauthorized)
  /\ (routes.after t (routes.adminCreateEnvironment lib cfg authHeader body newID now t)
      <> t ->
      exists claims,
        utils.ValidateToken lib (middleware.trimBearer authHeader) cfg = Ok claims
        /\ utils.ClaimRole claims = RoleAdmin).
Proof.
  unfold routes.adminCreateEnvironment.
  split; [|split; [|split]].
  - intros out. split.
    + intros H. apply AuthMiddleware_Next in H as (claims & Hne & Hp & Hv & H).
      exists claims. unfold middleware.AdminMiddleware in H. simpl in H.
      destruct (String.eqb_spec (utils.ClaimRole claims) RoleAdmin) as [Hr|Hr];
        [|done].
      simpl in H. injection H as ->. done.
    + intros (claims & Hne & Hp & Hv & Hr & ->).
      rewrite (AuthMiddleware_valid lib cfg _ authHeader claims Hne Hp Hv).
      unfold middleware.AdminMiddleware. simpl.
      by rewrite (proj2 (String.eqb_eq _ _) Hr).
  - intros claims Hne Hp Hv Hr.
    rewrite (AuthMiddleware_valid lib cfg _ authHeader claims Hne Hp Hv).
    unfold middleware.AdminMiddleware. simpl.
    by rewrite (proj2 (String.eqb_neq _ _) Hr).
  - unfold middleware.AuthMiddleware.
    destruct (String.eqb_spec authHeader "") as [He|He]; [by eexists|].
    destruct (String.prefix "Bearer " authHeader) eqn:Hp; [|by eexists].
    simpl negb. cbv iota.
    intros [H|[H|[e H]]]; [done | done |].
    rewrite H. by eexists.
  - intros H.
    destruct (middleware.AuthMiddleware lib cfg _ authHeader) as [m c|[m c|out]] eqn:E;
      [done | done |].
    apply AuthMiddleware_Next in E as (claims & Hne & Hp & Hv & E).
    exists claims. split; [done|].
    unfold middleware.AdminMiddleware in E. simpl in E.
    by destruct (String.eqb_spec (utils.ClaimRole claims) RoleAdmin).
Qed.

(** With the toy library, Alice's token is refused with 403 on the admin
    route and [root]'s creates the environment. *)
Lemma X21_admin_route_witness :
  routes.adminCreateEnvironment more.toy more.config "Bearer s3cret.alice"
    (Some {| CreateName := "staging"; CreateDescription := "" |}) "env-7" 100
    sample.oneFree
  = middleware.Next (middleware.HttpError "Admin access required" 403)
  /\ spec.statusOf "env-7"
       (routes.after sample.oneFree
          (routes.adminCreateEnvironment more.toy more.config "Bearer s3cret.root"
             (Some {| CreateName := "staging"; CreateDescription := "" |}) "env-7" 100
             sample.oneFree))
     = Some StatusFree.
Proof.
  split.
  - apply (proj1 (proj2 (X21_admin_route more.toy more.config "Bearer s3cret.alice"
                           (Some {| CreateName := "staging"; CreateDescription := "" |})
                           "env-7" 100 sample.oneFree))
             {| utils.ClaimUsername := "alice"; utils.ClaimRole := RoleUser;
                utils.ExpiresAt := 86400; utils.IssuedAt := 0;
                utils.Issuer := "dev-reserve" |});
      [discriminate | reflexivity | reflexivity | discriminate].
  - pose (claims := {| utils.ClaimUsername := "root"; utils.ClaimRole := RoleAdmin;
                       utils.ExpiresAt := 86400; utils.IssuedAt := 0;
                       utils.Issuer := "dev-reserve" |}).
    pose (out := EnvironmentHandler.CreateEnvironment
                   (routes.request "POST"
                      (handlers.UserValue
                         {| Username := utils.ClaimUsername claims; Password := "";
                            Role := utils.ClaimRole claims;
                            UserCreatedAt := zeroTime; UserLastUpdated := zeroTime |})
                      (Some {| CreateName := "staging"; CreateDescription := "" |}) "")
                   "env-7" 100 sample.oneFree).
    assert (E : routes.adminCreateEnvironment more.toy more.config "Bearer s3cret.root"
                  (Some {| CreateName := "staging"; CreateDescription := "" |})
                  "env-7" 100 sample.oneFree
                = middleware.Next (middleware.Next out)).
    { apply (proj2 (proj1 (X21_admin_route more.toy more.config "Bearer s3cret.root"
                             (Some {| CreateName := "staging";
                                      CreateDescription := "" |})
                             "env-7" 100 sample.oneFree) out)).
      exists claims.
      split; [discriminate|]. split; [reflexivity|]. split; [reflexivity|].
      split; reflexivity. }
    rewrite E. reflexivity.
Defined.

(** X22: a token issued by [Login] authenticates its user while it is
    in force.  Assume of the JWT library that a token it signed parses,
    with the same secret and at any time from the token's [IssuedAt] to
    just before its [ExpiresAt], as valid and with the claims signed.
    Then the token of a 200 answer of [Login] given at [tokenNow], sent as
    "Bearer <token>" at any time [later] from [tokenNow] to just before
    [tokenNow] plus [JWTExpirationHours] hours, passes [AuthMiddleware],
    and the next handler sees the user under the name and role the answer
    shows. *)
Theorem X22_login_token_authenticates {A : Type} libAt cfg q tokenNow later users
    (next : handlers.ContextValue -> A) token shown :
  session.parsesWhileInForce libAt ->
  tokenNow <= later < tokenNow + utils.JWTExpirationHours cfg * utils.Hour ->
  utils.Data (AuthHandler.Login (libAt tokenNow) cfg q tokenNow users)
  = Some {| AuthHandler.Token := token; AuthHandler.TokenUser := shown |} ->
  middleware.AuthMiddleware (libAt later) cfg next ("Bearer " +:+ token)
  = middleware.Next
      (next (handlers.UserValue
               {| Username := RespUsername shown; Password := "";
                  Role := RespRole shown;
                  UserCreatedAt := zeroTime; UserLastUpdated := zeroTime |})).
Proof.
  intros Hlib Hlater. unfold AuthHandler.Login.
  destruct (negb (String.eqb (utils.Method q) "POST")); [done|].
  destruct (utils.Body q) as [req|]; [|done].
  destruct (_ || _); [done|].
  unfold UserRepository.GetUser.
  destruct (users !! LoginUsername req) as [found|]; [|done].
  destruct (negb (utils.CheckPassword (libAt tokenNow) (LoginPassword req)
                    (Password found)));
    [done|].
  unfold utils.GenerateToken.
  destruct (utils.SignedString (libAt tokenNow) _ (utils.JWTSecret cfg))
    as [signed|e] eqn:Hs; [|done].
  simpl. intros [= <- <-].
  apply (AuthMiddleware_valid (libAt later) cfg next _
           {| utils.ClaimUsername := Username found; utils.ClaimRole := Role found;
              utils.ExpiresAt := tokenNow + utils.JWTExpirationHours cfg * utils.Hour;
              utils.IssuedAt := tokenNow; utils.Issuer := "dev-reserve" |}).
  - done.
  - apply prefix_Bearer.
  - rewrite trimBearer_Bearer. unfold utils.ValidateToken.
    by rewrite (Hlib tokenNow later _ _ _ Hs Hlater).
Qed.

(** The stand-in library parses what it signed while the claims are in
    force. *)
Lemma signerAt_parsesWhileInForce : session.parsesWhileInForce session.signerAt.
Proof.
  intros issued when claims secret signed. simpl.
  destruct (more.sameClaims claims more.aliceClaims) eqn:Hc; [|done].
  destruct (String.eqb_spec secret "s3cret") as [->|]; [|done].
  simpl. intros [= <-] [Hi He].
  unfold more.sameClaims in Hc.
  repeat (apply andb_true_iff in Hc as [Hc ?]).
  destruct claims as [n r e i s]. simpl in *.
  apply String.eqb_eq in Hc. apply String.eqb_eq in H2. apply String.eqb_eq in H.
  apply Z.eqb_eq in H1. apply Z.eqb_eq in H0. subst.
  rewrite (proj2 (Z.leb_le _ _) Hi), (proj2 (Z.ltb_lt _ _) He). reflexivity.
Qed.

(** Alice logs in at time 100 and uses her token at time 5000; at time
    86500, when it has expired, the same header is answered 401. *)
Lemma X22_login_token_witness :
  middleware.AuthMiddleware (session.signerAt 5000) more.config
    (fun ctx => ctx) "Bearer alice-token"
  = middleware.Next
      (handlers.UserValue
         {| Username := "alice"; Password := ""; Role := RoleUser;
            UserCreatedAt := zeroTime; UserLastUpdated := zeroTime |})
  /\ middleware.AuthMiddleware (session.signerAt 86500) more.config
       (fun ctx => ctx) "Bearer alice-token"
     = middleware.HttpError "Invalid token: failed to parse token: token is expired" 401.
Proof.
  split; [|reflexivity].
  apply (X22_login_token_authenticates session.signerAt more.config
           (routes.request "POST" handlers.NoValue
              (Some {| LoginUsername := "alice"; LoginPassword := "correct-horse" |}) "")
           100 5000 more.oneUser (fun ctx => ctx) "alice-token" (ToResponse more.alice)).
  - exact signerAt_parsesWhileInForce.
  - vm_compute. split; [discriminate | reflexivity].
  - reflexivity.
Defined.

(** * Further compositions *)

(** X23: a sweeper cycle that returns no error makes the environment of
    every reservation that lapsed between its two readings of the clock
    reservable again.  For a store whose scan returns every stored
    reservation that matches the filter, the status of that environment
    is FREE on the tables the cycle leaves, and a valid Reserve request
    for it made on these tables commits: it is answered 200 with the new
    reservation. *)
Theorem X23_swept_environment_is_reservable
    scan listNow now t lapsed r user req now2 repoNow2 newID :
  store.complete scan ->
  fst (store.CheckExpiredReservations scan listNow now t) = Ok tt ->
  In lapsed (Reservations t) ->
  listNow < EndTime lapsed < now ->
  handlers.Method r = "POST" ->
  handlers.ContextUser r = handlers.UserValue user ->
  handlers.Body r = Some req ->
  spec.passesValidation req = true ->
  ReqEnvironmentID req = EnvironmentID lapsed ->
  (exists env,
      Environments (snd (store.CheckExpiredReservations scan listNow now t))
      !! EnvironmentID lapsed = Some env
      /\ Status env = StatusFree)
  /\ fst (handlers.CreateReservation r now2 repoNow2 newID
            (snd (store.CheckExpiredReservations scan listNow now t)))
     = handlers.RespondWithSuccess
         (handlers.ReservationData
            {| ID := newID; EnvironmentID := EnvironmentID lapsed;
               Holder := Username user; StartTime := now2;
               EndTime := now2 + DurationMins req * 60;
               Feature := ReqFeature req; GitBranch := ReqGitBranch req;
               JiraURL := ReqJiraURL req;
               CreatedAt := repoNow2; LastUpdated := repoNow2 |}).
Proof.
  intros Hcomplete Hok Hin [Hlo Hhi] Hm Hu Hb Hv Hsame.
  unfold store.CheckExpiredReservations, store.ListActiveReservations in *.
  destruct (db.sweep now (scan (store.EndTimeAfter listNow) (Reservations t)) t)
    as [res t'] eqn:Hs.
  simpl in Hok. subst res. simpl snd.
  assert (Hfree : spec.statusOf (EnvironmentID lapsed) t' = Some StatusFree).
  { apply (sweep_Ok_frees now _ t t' Hs lapsed); [|done].
    apply Hcomplete; [done|]. simpl. by apply Z.ltb_lt. }
  unfold spec.statusOf in Hfree.
  destruct (Environments t' !! EnvironmentID lapsed) as [e|] eqn:He; [|done].
  injection Hfree as Hst.
  split; [by exists e|].
  rewrite <- Hsame in He.
  rewrite (Reserve_commits r user req now2 repoNow2 newID t' e Hm Hu Hb Hv He Hst).
  simpl. unfold db.stamp, handlers.newReservation, Minute. simpl.
  by rewrite Hsame.
Qed.

(** Bob's reservation lapses at 1800; the cycle reads the clock at 1799
    and 1801; Alice then gets [env-1]. *)
Lemma X23_swept_environment_witness :
  handlers.Code
    (fst (handlers.CreateReservation
            (more.reserve (sample.user "alice") (sample.request "env-1" 30 "x"))
            1900 1901 "r2"
            (snd (db.CheckExpiredReservations 1799 1801 scenario.held)))) = 200.
Proof.
  pose proof (proj2 (X23_swept_environment_is_reservable store.ideal
                    1799 1801 scenario.held
                    (sample.reservation "r1" "env-1" "bob" 0 1800)
                    (more.reserve (sample.user "alice") (sample.request "env-1" 30 "x"))
                    (sample.user "alice") (sample.request "env-1" 30 "x")
                    1900 1901 "r2" ideal_complete
                    eq_refl (or_introl eq_refl) ltac:(simpl; lia)
                    eq_refl eq_refl eq_refl eq_refl eq_refl)) as H.
  change (store.CheckExpiredReservations store.ideal 1799 1801 scenario.held)
    with (db.CheckExpiredReservations 1799 1801 scenario.held) in H.
  rewrite H. reflexivity.
Defined.

(** X24: a registered user can log in and is shown as a regular user.
    When bcrypt accepts a password against the hash it made of it, then
    after a [Register] answered 200 the handler [GetUser] shows the new
    account with the role USER, and a [Login] with the same name and
    password is not refused: it answers 200 with a token unless signing
    the token fails. *)
Theorem X24_register_then_login lib cfg q req now repoNow tokenNow users
    (q2 : utils.Request LoginRequest) tokenNow2 (q3 : utils.Request unit) :
  (forall password hashed,
      utils.GenerateFromPassword lib password = Ok hashed ->
      utils.CompareHashAndPassword lib hashed password = true) ->
  utils.Body q = Some req ->
  utils.Code (fst (AuthHandler.Register lib cfg q now repoNow tokenNow users)) = 200 ->
  utils.Method q2 = "POST" ->
  utils.Body q2 = Some {| LoginUsername := RegisterUsername req;
                          LoginPassword := RegisterPassword req |} ->
  utils.Method q3 = "GET" ->
  utils.Var q3 = RegisterUsername req ->
  exists stored,
    snd (AuthHandler.Register lib cfg q now repoNow tokenNow users)
    !! RegisterUsername req = Some stored
    /\ UserHandler.GetUser q3
         (snd (AuthHandler.Register lib cfg q now repoNow tokenNow users))
       = utils.RespondWithSuccess
           {| RespUsername := RegisterUsername req; RespRole := RoleUser;
              RespCreatedAt := repoNow; RespLastUpdated := repoNow |}
    /\ AuthHandler.Login lib cfg q2 tokenNow2
         (snd (AuthHandler.Register lib cfg q now repoNow tokenNow users))
       = match utils.GenerateToken lib stored cfg tokenNow2 with
         | Err _ =>
             utils.RespondWithError handlers.StatusInternalServerError
               "Failed to generate token"
         | Ok token =>
             utils.RespondWithSuccess
               {| AuthHandler.Token := token;
                  AuthHandler.TokenUser :=
                    {| RespUsername := RegisterUsername req; RespRole := RoleUser;
                       RespCreatedAt := repoNow; RespLastUpdated := repoNow |} |}
         end.
Proof.
  intros Hlib Hb Hcode Hm2 Hb2 Hm3 Hv3.
  destruct (Register_outcome lib cfg q now repoNow tokenNow users)
    as [[_ E] | (req' & hashed & _ & Hb' & Hn & Hp & Hnew & Hh & E)]; [done|].
  rewrite Hb in Hb'. injection Hb' as <-.
  rewrite E. eexists. split; [apply lookup_insert_eq|]. split.
  - unfold UserHandler.GetUser. rewrite Hm3, Hv3. simpl negb. cbv iota.
    rewrite (proj2 (String.eqb_neq _ _) Hn).
    unfold UserRepository.GetUser. by rewrite lookup_insert_eq.
  - assert (Hpw : RegisterPassword req <> "").
    { intros H0. rewrite H0 in Hp. simpl in Hp. lia. }
    rewrite (Login_checked lib cfg q2 _ tokenNow2 _ Hm2 Hb2 Hn Hpw). simpl.
    rewrite lookup_insert_eq. unfold utils.CheckPassword. simpl.
    rewrite (Hlib _ _ Hh). simpl.
    by destruct (utils.GenerateToken lib _ cfg tokenNow2).
Qed.

(** Bob registers with the toy library and logs in. *)
Lemma X24_register_then_login_witness :
  utils.Code
    (AuthHandler.Login more.toy more.config
       (routes.request "POST" handlers.NoValue
          (Some {| LoginUsername := "bob"; LoginPassword := "hunter2hunter2" |}) "")
       200
       (snd (AuthHandler.Register more.toy more.config
               (routes.request "POST" handlers.NoValue
                  (Some {| RegisterUsername := "bob";
                           RegisterPassword := "hunter2hunter2" |}) "")
               100 101 102 more.oneUser))) = 200.
Proof.
  destruct (X24_register_then_login more.toy more.config
              (routes.request "POST" handlers.NoValue
                 (Some {| RegisterUsername := "bob";
                          RegisterPassword := "hunter2hunter2" |}) "")
              {| RegisterUsername := "bob"; RegisterPassword := "hunter2hunter2" |}
              100 101 102 more.oneUser
              (routes.request "POST" handlers.NoValue
                 (Some {| LoginUsername := "bob"; LoginPassword := "hunter2hunter2" |}) "")
              200
              (routes.request "GET" handlers.NoValue (None : option unit) "bob"))
    as (stored & Hs & _ & Hl).
  - intros password hashed. simpl. intros [= <-]. apply String.eqb_refl.
  - reflexivity.
  - reflexivity.
  - reflexivity.
  - reflexivity.
  - reflexivity.
  - reflexivity.
  - rewrite Hl. injection Hs as <-. reflexivity.
Defined.
